(** * Invoice key-value extraction: PDF text, prompt, model call, JSON parse

    A shallow embedding of [invoiceextract.py], [invoice_langsmith.py] and
    [invoice_langsmith_v1.py].  The three files share the same pipeline

      extract_text_from_pdf -> build_prompt -> call_ollama_llama32

    and differ in the prompt text only ([@traceable] wraps a function
    without changing what it returns).

    Conventions of the embedding:
    - a Python [str] is a list of Unicode code points ([N]);
    - a Python value is a [pyval]; a [dict] is an association list in
      insertion order with pairwise distinct keys;
    - a [float] is an IEEE binary64 value of [SpecFloat];
    - a function that may raise returns a [result];
    - the file system and the chat endpoint are read from an [env]; the
      requests sent are appended to a log that is threaded through the
      pipeline;
    - [json.loads], [json.dumps], [str.strip], [str.join] and [==] are
      those of Python; they are modelled after CPython.  Integers and
      the nesting of values are unbounded: the limit on the digits of an
      integer and the recursion limit of the interpreter are left out.

    The block under [__main__] of [invoiceextract.py] is modelled with
    the texts it prints; [print] raises when the encoding of the
    standard output lacks a character, and the messages of the
    exceptions of the libraries are a parameter.  The same blocks of the
    two other files, which also print environment variables, are left
    out.

    The file first gives the definitions, then the proofs: the pipeline
    and its claims, the termination of the decoder, the reading back of
    what [json.dumps] writes, the text of the pages and the count of
    their separators, and then the text of a document, the outcomes of
    a call, the entry point, what the parse step makes of repeated keys
    and of prose around the JSON, and the documents without text. *)

From Stdlib Require Import Ascii String.
From Stdlib Require Import List NArith ZArith Bool Lia.
From Stdlib Require Import SpecFloat.
Import ListNotations.

Set Warnings "-register-all".

(* ================================================================== *)
(** * Text *)
(* ================================================================== *)

Abbreviation char := N (only parsing).
Abbreviation str := (list N) (only parsing).

Local Open Scope N_scope.

(** Decoding of a UTF-8 byte sequence, used to write the text constants of
    the source as literals. *)
Fixpoint utf8_decode (bs : list N) : str :=
  match bs with
  | [] => []
  | b0 :: r0 =>
    if b0 <? 128 then b0 :: utf8_decode r0
    else
      match r0 with
      | [] => [b0]
      | b1 :: r1 =>
        if b0 <? 224 then ((b0 mod 32) * 64 + b1 mod 64) :: utf8_decode r1
        else
          match r1 with
          | [] => [b0; b1]
          | b2 :: r2 =>
            if b0 <? 240
            then ((b0 mod 16) * 4096 + (b1 mod 64) * 64 + b2 mod 64)
                   :: utf8_decode r2
            else
              match r2 with
              | [] => [b0; b1; b2]
              | b3 :: r3 =>
                ((b0 mod 8) * 262144 + (b1 mod 64) * 4096
                 + (b2 mod 64) * 64 + b3 mod 64) :: utf8_decode r3
              end
          end
      end
  end.

(** [py "..."] is the Python string with the text of the literal. *)
Definition py (s : string) : str :=
  utf8_decode (map N_of_ascii (list_ascii_of_string s)).

(** A literal cannot hold a double quote; [pyq] writes an apostrophe for
    it.  None of the texts written with [pyq] contains an apostrophe of
    its own. *)
Definition pyq (s : string) : str :=
  map (fun c => if c =? 39 then 34 else c) (py s).

Arguments py s : simpl never.
Arguments pyq s : simpl never.

Definition str_eqb (a b : str) : bool :=
  if list_eq_dec N.eq_dec a b then true else false.

(** [str.isspace] on one character: the code points Python treats as
    whitespace. *)
Definition isspace (c : char) : bool :=
  ((9 <=? c) && (c <=? 13)) || ((28 <=? c) && (c <=? 32))
  || (c =? 133) || (c =? 160) || (c =? 5760)
  || ((8192 <=? c) && (c <=? 8202))
  || (c =? 8232) || (c =? 8233) || (c =? 8239) || (c =? 8287) || (c =? 12288).

Fixpoint lstrip (s : str) : str :=
  match s with
  | [] => []
  | c :: r => if isspace c then lstrip r else s
  end.

Definition rstrip (s : str) : str := rev (lstrip (rev s)).

(** [s.strip()] *)
Definition strip (s : str) : str := rstrip (lstrip s).

(** [sep.join(parts)] *)
Fixpoint join (sep : str) (parts : list str) : str :=
  match parts with
  | [] => []
  | [p] => p
  | p :: rest => p ++ sep ++ join sep rest
  end.

(** [a in s] for strings: [a] occurs in [s] as a contiguous substring. *)
Definition substring (a s : str) : Prop := exists pre post, s = pre ++ a ++ post.

Fixpoint startswith (p s : str) : bool :=
  match p, s with
  | [], _ => true
  | _ :: _, [] => false
  | a :: p', b :: s' => (a =? b) && startswith p' s'
  end.

(** [s.count(sep)] for the two-character separator of pages: occurrences
    are counted from the left and do not overlap. *)
Definition NL : char := 10.

Fixpoint count_blank_lines (s : str) : nat :=
  match s with
  | [] => O
  | a :: t =>
    match t with
    | [] => O
    | b :: r =>
      if (a =? NL) && (b =? NL) then S (count_blank_lines r)
      else count_blank_lines t
    end
  end.

(* ================================================================== *)
(** * Values and exceptions *)
(* ================================================================== *)

Inductive pyval : Type :=
| PNone
| PBool (b : bool)
| PInt (z : Z)
| PFloat (f : spec_float)
| PStr (s : str)
| PList (l : list pyval)
| PDict (d : list (str * pyval)).

(** Messages of [json.JSONDecodeError]. *)
Inductive json_msg : Type :=
| UnexpectedBOM
| ExpectingValue
| ExtraData
| UnterminatedString
| InvalidControlCharacter
| InvalidEscape
| InvalidUnicodeEscape
| ExpectingPropertyName
| ExpectingColon
| ExpectingComma.

Inductive exn : Type :=
| FileNotFoundError (msg : str)
| PdfReadError
| ConnectionError
| HTTPError (status_code : Z)
| RequestsJSONDecodeError (msg : json_msg)
| AttributeError
| RecursionError
| ValueError (msg : str).

Inductive result (A : Type) : Type :=
| Ok (a : A)
| Raise (e : exn).
Arguments Ok {A} a.
Arguments Raise {A} e.

(** [d.get(k)] *)
Fixpoint dict_get (d : list (str * pyval)) (k : str) : option pyval :=
  match d with
  | [] => None
  | (k', v) :: r => if str_eqb k k' then Some v else dict_get r k
  end.

(** [d[k] = v]: an existing key keeps its place. *)
Fixpoint dict_set (d : list (str * pyval)) (k : str) (v : pyval)
  : list (str * pyval) :=
  match d with
  | [] => [(k, v)]
  | (k', v') :: r =>
    if str_eqb k k' then (k, v) :: r else (k', v') :: dict_set r k v
  end.

(** [dict(pairs)] *)
Definition dict (pairs : list (str * pyval)) : list (str * pyval) :=
  fold_left (fun d kv => dict_set d (fst kv) (snd kv)) pairs [].

Definition keys (d : list (str * pyval)) : list str := map fst d.

(* ================================================================== *)
(** * [json.loads] *)
(* ================================================================== *)

(** Outcome of a scanning function: a value with the rest of the input,
    [StopIteration] (no value starts here), a [JSONDecodeError], or the
    fuel of the model used up. *)
Inductive scan (A : Type) : Type :=
| Done (a : A)
| StopIteration
| DecodeError (msg : json_msg)
| OutOfFuel.
Arguments Done {A} a.
Arguments StopIteration {A}.
Arguments DecodeError {A} msg.
Arguments OutOfFuel {A}.

Definition DQUOTE : char := 34.
Definition BACKSLASH_CHAR : char := 92.

(** [WHITESPACE_STR]: space, tab, line feed, carriage return. *)
Definition is_ws (c : char) : bool :=
  (c =? 32) || (c =? 9) || (c =? 10) || (c =? 13).

(** [WHITESPACE.match(s, end).end()] *)
Fixpoint skip_ws (s : str) : str :=
  match s with
  | [] => []
  | c :: r => if is_ws c then skip_ws r else s
  end.

Definition is_digit (c : char) : bool := (48 <=? c) && (c <=? 57).

Definition hex_digit (c : char) : option N :=
  if (48 <=? c) && (c <=? 57) then Some (c - 48)
  else if (97 <=? c) && (c <=? 102) then Some (c - 87)
  else if (65 <=? c) && (c <=? 70) then Some (c - 55)
  else None.

(** [_decode_uXXXX]: the value of four hexadecimal digits. *)
Definition decode_uXXXX (h1 h2 h3 h4 : char) : option N :=
  match hex_digit h1, hex_digit h2, hex_digit h3, hex_digit h4 with
  | Some a, Some b, Some c, Some d => Some (a * 4096 + b * 256 + c * 16 + d)
  | _, _, _, _ => None
  end.

(** [BACKSLASH]: the one-character escapes (quote, backslash, slash, and
    the letters b, f, n, r, t). *)
Definition backslash (esc : char) : option char :=
  if esc =? 34 then Some 34
  else if esc =? 92 then Some 92
  else if esc =? 47 then Some 47
  else if esc =? 98 then Some 8
  else if esc =? 102 then Some 12
  else if esc =? 110 then Some 10
  else if esc =? 114 then Some 13
  else if esc =? 116 then Some 9
  else None.

Definition is_high_surrogate (u : N) : bool := (55296 <=? u) && (u <=? 56319).
Definition is_low_surrogate (u : N) : bool := (56320 <=? u) && (u <=? 57343).

(** [0x10000 + (((uni - 0xd800) << 10) | (uni2 - 0xdc00))] *)
Definition join_surrogates (uni uni2 : N) : N :=
  65536 + N.lor (N.shiftl (uni - 55296) 10) (uni2 - 56320).

(** [scanstring(s, end, strict=True)]: [s] is the input after the opening
    quote, [chunks] the characters decoded so far, last first. *)
Fixpoint scanstring (s : str) (chunks : str) {struct s} : scan (str * str) :=
  match s with
  | [] => DecodeError UnterminatedString
  | c :: r =>
    if c =? DQUOTE then Done (rev chunks, r)
    else if c =? BACKSLASH_CHAR then
      match r with
      | [] => DecodeError UnterminatedString
      | esc :: r1 =>
        if esc =? 117 (* u *) then
          match r1 with
          | h1 :: h2 :: h3 :: h4 :: r5 =>
            match decode_uXXXX h1 h2 h3 h4 with
            | None => DecodeError InvalidUnicodeEscape
            | Some uni =>
              if is_high_surrogate uni then
                match r5 with
                | b :: r6 =>
                  match r6 with
                  | u :: r7 =>
                    if (b =? BACKSLASH_CHAR) && (u =? 117) then
                      match r7 with
                      | g1 :: g2 :: g3 :: g4 :: r11 =>
                        match decode_uXXXX g1 g2 g3 g4 with
                        | None => DecodeError InvalidUnicodeEscape
                        | Some uni2 =>
                          if is_low_surrogate uni2
                          then scanstring r11 (join_surrogates uni uni2 :: chunks)
                          else scanstring r5 (uni :: chunks)
                        end
                      | _ => DecodeError InvalidUnicodeEscape
                      end
                    else scanstring r5 (uni :: chunks)
                  | [] => scanstring r5 (uni :: chunks)
                  end
                | [] => scanstring r5 (uni :: chunks)
                end
              else scanstring r5 (uni :: chunks)
            end
          | _ => DecodeError InvalidUnicodeEscape
          end
        else
          match backslash esc with
          | Some ch => scanstring r1 (ch :: chunks)
          | None => DecodeError InvalidEscape
          end
      end
    else if c <? 32 then DecodeError InvalidControlCharacter
    else scanstring r (c :: chunks)
  end.

(** ** Numbers *)

Definition prec : Z := 53.
Definition emax : Z := 1024.

(** Longest prefix of decimal digits, and what follows it. *)
Fixpoint span_digits (s : str) : str * str :=
  match s with
  | [] => ([], [])
  | c :: r =>
    if is_digit c
    then let (ds, t) := span_digits r in (c :: ds, t)
    else ([], s)
  end.

(** Value of a sequence of decimal digits. *)
Definition digits_value (ds : str) : N :=
  fold_left (fun acc c => acc * 10 + (c - 48)) ds 0.

(** The groups of [NUMBER_RE]: sign and digits of the integer part, digits
    of the fraction when there is one, sign and digits of the exponent
    when there is one. *)
Record number_match : Type := {
  num_neg : bool;
  num_int : str;
  num_frac : option str;
  num_exp : option (bool * str)
}.

Definition match_frac (s : str) : option str * str :=
  match s with
  | c :: r =>
    if c =? 46 then
      match span_digits r with
      | ([], _) => (None, s)
      | (ds, t) => (Some ds, t)
      end
    else (None, s)
  | [] => (None, s)
  end.

Definition match_exp (s : str) : option (bool * str) * str :=
  match s with
  | c :: r =>
    if (c =? 101) || (c =? 69) then
      let (neg, r1) :=
        match r with
        | sg :: r' =>
          if sg =? 45 then (true, r')
          else if sg =? 43 then (false, r')
          else (false, r)
        | [] => (false, r)
        end in
      match span_digits r1 with
      | ([], _) => (None, s)
      | (ds, t) => (Some (neg, ds), t)
      end
    else (None, s)
  | [] => (None, s)
  end.

(** [NUMBER_RE.match(string, idx)] with the text after the match. *)
Definition match_number (s : str) : option (number_match * str) :=
  let (neg, s1) :=
    match s with
    | c :: r => if c =? 45 then (true, r) else (false, s)
    | [] => (false, s)
    end in
  let after_int :=
    match s1 with
    | c :: r =>
      if c =? 48 then Some ([c], r)
      else if is_digit c
      then let (ds, t) := span_digits r in Some (c :: ds, t)
      else None
    | [] => None
    end in
  match after_int with
  | None => None
  | Some (int_digits, s2) =>
    let (frac, s3) := match_frac s2 in
    let (exp, s4) := match_exp s3 in
    Some ({| num_neg := neg; num_int := int_digits;
             num_frac := frac; num_exp := exp |}, s4)
  end.

(** The binary64 value nearest to [m * 10 ^ e10] (ties to even), with the
    sign [neg]: what [float] returns for a decimal literal. *)
Definition float_of_decimal (neg : bool) (m : N) (e10 : Z) : spec_float :=
  match m with
  | N0 => S754_zero neg
  | Npos p =>
    if (0 <=? e10)%Z
    then binary_round prec emax neg (Z.to_pos (Z.pos p * 10 ^ e10)) 0
    else SFdiv prec emax (S754_finite neg p 0)
                         (S754_finite false (Z.to_pos (10 ^ (- e10))) 0)
  end.

(** [int(integer)] *)
Definition parse_int (neg : bool) (ds : str) : Z :=
  let n := Z.of_N (digits_value ds) in if neg then (- n)%Z else n.

(** [float(integer + frac + exp)] *)
Definition parse_float (neg : bool) (ds : str) (frac : option str)
           (exp : option (bool * str)) : spec_float :=
  let fs := match frac with Some f => f | None => [] end in
  let e := match exp with
           | Some (eneg, eds) =>
             let n := Z.of_N (digits_value eds) in if eneg then (- n)%Z else n
           | None => 0%Z
           end in
  float_of_decimal neg (digits_value (ds ++ fs)) (e - Z.of_nat (length fs)).

(** [s[idx:idx + len(lit)] == lit], with the text after the literal. *)
Fixpoint expect (lit s : str) : option str :=
  match lit with
  | [] => Some s
  | a :: lit' =>
    match s with
    | [] => None
    | b :: s' => if a =? b then expect lit' s' else None
    end
  end.

(** The branches of [_scan_once] below the three delimiters: the literals
    [null], [true], [false], a number, and the three constants. *)
Definition scan_atom (s : str) : scan (pyval * str) :=
  match expect (py "null") s with
  | Some r => Done (PNone, r)
  | None =>
  match expect (py "true") s with
  | Some r => Done (PBool true, r)
  | None =>
  match expect (py "false") s with
  | Some r => Done (PBool false, r)
  | None =>
  match match_number s with
  | Some (m, r) =>
    match num_frac m, num_exp m with
    | None, None => Done (PInt (parse_int (num_neg m) (num_int m)), r)
    | frac, exp =>
      Done (PFloat (parse_float (num_neg m) (num_int m) frac exp), r)
    end
  | None =>
  match expect (py "NaN") s with
  | Some r => Done (PFloat S754_nan, r)
  | None =>
  match expect (py "Infinity") s with
  | Some r => Done (PFloat (S754_infinity false), r)
  | None =>
  match expect (py "-Infinity") s with
  | Some r => Done (PFloat (S754_infinity true), r)
  | None => StopIteration
  end end end end end end end.

(** ** Objects and arrays *)

Section Containers.

(** [JSONObject] and [JSONArray] receive the scanner of values. *)
Variable scan_once : str -> scan (pyval * str).

(** The [while True] loop of [JSONObject]; [s] is the input after the
    opening quote of a key. *)
Fixpoint object_loop (n : nat) (s : str) (pairs : list (str * pyval))
  : scan (pyval * str) :=
  match n with
  | O => OutOfFuel
  | S n' =>
    match scanstring s [] with
    | Done (key, s1) =>
      match skip_ws s1 with
      | c :: s2 =>
        if c =? 58 then
          match scan_once (skip_ws s2) with
          | Done (value, s3) =>
            let pairs := pairs ++ [(key, value)] in
            match skip_ws s3 with
            | nextchar :: s4 =>
              if nextchar =? 125 then Done (PDict (dict pairs), s4)
              else if nextchar =? 44 then
                match skip_ws s4 with
                | q :: s5 =>
                  if q =? DQUOTE then object_loop n' s5 pairs
                  else DecodeError ExpectingPropertyName
                | [] => DecodeError ExpectingPropertyName
                end
              else DecodeError ExpectingComma
            | [] => DecodeError ExpectingComma
            end
          | StopIteration => DecodeError ExpectingValue
          | DecodeError m => DecodeError m
          | OutOfFuel => OutOfFuel
          end
        else DecodeError ExpectingColon
      | [] => DecodeError ExpectingColon
      end
    | StopIteration => StopIteration
    | DecodeError m => DecodeError m
    | OutOfFuel => OutOfFuel
    end
  end.

(** [JSONObject((s, end), ...)]; [s] is the input after the brace. *)
Definition JSONObject (s : str) : scan (pyval * str) :=
  match skip_ws s with
  | nextchar :: r =>
    if nextchar =? 125 then Done (PDict [], r)
    else if nextchar =? DQUOTE then object_loop (S (length r)) r []
    else DecodeError ExpectingPropertyName
  | [] => DecodeError ExpectingPropertyName
  end.

(** The [while True] loop of [JSONArray]; [s] is the input where the
    next value is expected. *)
Fixpoint array_loop (n : nat) (s : str) (values : list pyval)
  : scan (pyval * str) :=
  match n with
  | O => OutOfFuel
  | S n' =>
    match scan_once s with
    | Done (value, s1) =>
      let values := values ++ [value] in
      match skip_ws s1 with
      | nextchar :: s2 =>
        if nextchar =? 93 then Done (PList values, s2)
        else if nextchar =? 44 then array_loop n' (skip_ws s2) values
        else DecodeError ExpectingComma
      | [] => DecodeError ExpectingComma
      end
    | StopIteration => DecodeError ExpectingValue
    | DecodeError m => DecodeError m
    | OutOfFuel => OutOfFuel
    end
  end.

(** [JSONArray((s, end), scan_once)]; [s] is the input after the
    bracket. *)
Definition JSONArray (s : str) : scan (pyval * str) :=
  match skip_ws s with
  | nextchar :: r =>
    if nextchar =? 93 then Done (PList [], r)
    else array_loop (S (length s)) (skip_ws s) []
  | [] => array_loop 1 [] []
  end.

End Containers.

(** [_scan_once(string, idx)] *)
Fixpoint scan_once (fuel : nat) (s : str) {struct fuel} : scan (pyval * str) :=
  match fuel with
  | O => OutOfFuel
  | S fuel' =>
    match s with
    | [] => StopIteration
    | nextchar :: rest =>
      if nextchar =? DQUOTE then
        match scanstring rest [] with
        | Done (x, r) => Done (PStr x, r)
        | StopIteration => StopIteration
        | DecodeError m => DecodeError m
        | OutOfFuel => OutOfFuel
        end
      else if nextchar =? 123 then JSONObject (scan_once fuel') rest
      else if nextchar =? 91 then JSONArray (scan_once fuel') rest
      else scan_atom s
    end
  end.

(** Outcome of [json.loads]. *)
Inductive loaded : Type :=
| Loaded (v : pyval)
| JSONDecodeError (msg : json_msg)
| Exhausted.

(** [json.loads(s)]: [JSONDecoder.decode] after the check for a byte
    order mark. *)
Definition json_loads (s : str) : loaded :=
  if startswith [65279] s then JSONDecodeError UnexpectedBOM
  else
    let s0 := skip_ws s in
    match scan_once (S (length s0)) s0 with
    | Done (obj, r) =>
      match skip_ws r with
      | [] => Loaded obj
      | _ :: _ => JSONDecodeError ExtraData
      end
    | StopIteration => JSONDecodeError ExpectingValue
    | DecodeError m => JSONDecodeError m
    | OutOfFuel => Exhausted
    end.

(* ================================================================== *)
(** * [json.dumps] *)
(* ================================================================== *)

(** Decimal digits of [n], most significant first, put before [acc];
    [fuel] bounds the number of digits. *)
Fixpoint digits_of (fuel : nat) (n : N) (acc : str) : str :=
  match fuel with
  | O => acc
  | S fuel' =>
    if n <? 10 then (48 + n) :: acc
    else digits_of fuel' (n / 10) ((48 + n mod 10) :: acc)
  end.

(** [int.__repr__] *)
Definition int_repr (z : Z) : str :=
  let n := Z.abs_N z in
  let ds := digits_of (S (N.to_nat (N.size n))) n [] in
  if (z <? 0)%Z then 45 :: ds else ds.

Definition hex_char (d : N) : char := if d <? 10 then 48 + d else 87 + d.

(** ['\\u{0:04x}'.format(n)] *)
Definition u_escape (n : N) : str :=
  [BACKSLASH_CHAR; 117; hex_char (n / 4096 mod 16); hex_char (n / 256 mod 16);
   hex_char (n / 16 mod 16); hex_char (n mod 16)].

(** The replacement of one character by [encode_basestring_ascii]:
    [ESCAPE_DCT] for the quote, the backslash and the control characters
    with a short escape, the character itself from the space to the
    tilde, and one or two [u] escapes for the rest. *)
Definition escape_char (c : char) : str :=
  if c =? 34 then [BACKSLASH_CHAR; 34]
  else if c =? 92 then [BACKSLASH_CHAR; 92]
  else if c =? 10 then [BACKSLASH_CHAR; 110]
  else if c =? 13 then [BACKSLASH_CHAR; 114]
  else if c =? 9 then [BACKSLASH_CHAR; 116]
  else if c =? 8 then [BACKSLASH_CHAR; 98]
  else if c =? 12 then [BACKSLASH_CHAR; 102]
  else if (32 <=? c) && (c <=? 126) then [c]
  else if c <? 65536 then u_escape c
  else
    let n := c - 65536 in
    let s1 := N.lor 55296 (N.land (N.shiftr n 10) 1023) in
    let s2 := N.lor 56320 (N.land n 1023) in
    u_escape s1 ++ u_escape s2.

(** [encode_basestring_ascii(s)] *)
Definition encode_basestring_ascii (s : str) : str :=
  DQUOTE :: flat_map escape_char s ++ [DQUOTE].

Section Dumps.

(** [float.__repr__] on finite floats, a function of the interpreter. *)
Variable float_repr : spec_float -> str.

(** [floatstr(o)] *)
Definition floatstr (o : spec_float) : str :=
  match o with
  | S754_nan => py "NaN"
  | S754_infinity false => py "Infinity"
  | S754_infinity true => py "-Infinity"
  | _ => float_repr o
  end.

(** [json.dumps(obj)] with the default separators. *)
Fixpoint json_dumps (obj : pyval) : str :=
  match obj with
  | PNone => py "null"
  | PBool true => py "true"
  | PBool false => py "false"
  | PInt z => int_repr z
  | PFloat f => floatstr f
  | PStr s => encode_basestring_ascii s
  | PList l => 91 :: join (py ", ") (map json_dumps l) ++ [93]
  | PDict d =>
    123 :: join (py ", ")
                (map (fun kv => encode_basestring_ascii (fst kv)
                                ++ py ": " ++ json_dumps (snd kv)) d)
        ++ [125]
  end.

(** The text of the items of a dict after the opening quote of the first
    key, up to the closing brace and what follows it. *)
Fixpoint items_text (d : list (list N * pyval)) (rest : list N) : list N :=
  match d with
  | [] => []
  | kv :: d' =>
    flat_map escape_char (fst kv)
    ++ DQUOTE :: 58 :: 32 :: json_dumps (snd kv)
    ++ match d' with
       | [] => 125 :: rest
       | _ :: _ => 44 :: 32 :: DQUOTE :: items_text d' rest
       end
  end.

End Dumps.

(** The text of a number with the groups of [m]: the integer part, a dot
    before the fraction, the letter e and a sign before the exponent. *)
Definition render_number (m : number_match) : str :=
  (if num_neg m then [45] else [])
  ++ num_int m
  ++ match num_frac m with Some fs => 46 :: fs | None => [] end
  ++ match num_exp m with
     | Some (eneg, eds) => 101 :: (if eneg then 45 else 43) :: eds
     | None => []
     end.

(* ================================================================== *)
(** * Equality of Python values *)
(* ================================================================== *)

(** [x == y] between a float and an int compares the exact values. *)
Definition float_eq_int (f : spec_float) (z : Z) : bool :=
  match f with
  | S754_zero _ => (z =? 0)%Z
  | S754_finite s m e =>
    let mz := if s then Z.neg m else Z.pos m in
    if (0 <=? e)%Z then (z =? mz * 2 ^ e)%Z else (z * 2 ^ (- e) =? mz)%Z
  | _ => false
  end.

Definition is_nan (v : pyval) : bool :=
  match v with
  | PFloat S754_nan => true
  | _ => false
  end.

(** [all2 f l l']: the lists have the same length and [f] holds of the
    elements at the same place. *)
Fixpoint all2 {A B : Type} (f : A -> B -> bool) (l : list A) (l' : list B)
  : bool :=
  match l, l' with
  | [], [] => true
  | a :: r, b :: r' => f a b && all2 f r r'
  | _, _ => false
  end.

(** [x == y].  Inside a list or a dict the elements are compared with
    [x is y or x == y]; the only value for which that differs from
    [x == y] is NaN, and the decoder returns one and the same object
    for every NaN it reads. *)
Fixpoint py_eq (x y : pyval) {struct x} : bool :=
  match x, y with
  | PNone, PNone => true
  | PBool a, PBool b => Bool.eqb a b
  | PBool a, PInt z => ((if a then 1 else 0) =? z)%Z
  | PBool a, PFloat f => float_eq_int f (if a then 1 else 0)
  | PInt z, PBool b => (z =? (if b then 1 else 0))%Z
  | PInt z, PInt w => (z =? w)%Z
  | PInt z, PFloat f => float_eq_int f z
  | PFloat f, PBool b => float_eq_int f (if b then 1 else 0)
  | PFloat f, PInt z => float_eq_int f z
  | PFloat f, PFloat g => SFeqb f g
  | PStr a, PStr b => str_eqb a b
  | PList l, PList l' =>
    all2 (fun a b => (is_nan a && is_nan b) || py_eq a b) l l'
  | PDict d, PDict d' =>
    (length d =? length d')%nat
    && forallb (fun kv =>
                  match dict_get d' (fst kv) with
                  | Some b => (is_nan (snd kv) && is_nan b) || py_eq (snd kv) b
                  | None => false
                  end) d
  | _, _ => false
  end.

(* ================================================================== *)
(** * Shape of values *)
(* ================================================================== *)

(** The code points of Unicode: what a Python [str] is made of. *)
Definition code_point (c : char) : bool := c <? 1114112.

Definition py_str (s : str) : bool := forallb code_point s.

(** No high surrogate stands right before a low surrogate. *)
Fixpoint unpaired (s : str) : bool :=
  match s with
  | [] => true
  | c :: r =>
    negb (is_high_surrogate c
          && match r with d :: _ => is_low_surrogate d | [] => false end)
    && unpaired r
  end.

(** [P] holds of the value and of every value inside it, [K] of every
    key of a dict inside it. *)
Fixpoint value_all (P : pyval -> bool) (K : str -> bool) (v : pyval) : bool :=
  P v
  && match v with
     | PList l => forallb (value_all P K) l
     | PDict d => forallb (fun kv => K (fst kv) && value_all P K (snd kv)) d
     | _ => true
     end.

Definition on_str (K : str -> bool) (v : pyval) : bool :=
  match v with
  | PStr s => K s
  | _ => true
  end.

(** Every string and every key of the value satisfies [K]. *)
Definition strings_all (K : str -> bool) (v : pyval) : bool :=
  value_all (on_str K) K v.

Fixpoint distinct (ks : list str) : bool :=
  match ks with
  | [] => true
  | k :: r => negb (existsb (str_eqb k) r) && distinct r
  end.

(** The keys of every dict of the value are pairwise distinct. *)
Definition keys_distinct (v : pyval) : bool :=
  value_all (fun v => match v with
                      | PDict d => distinct (keys d)
                      | _ => true
                      end) (fun _ => true) v.

(** The floats of a value that [json.dumps] prints with [float.__repr__]:
    the finite ones. *)
Fixpoint finite_floats (v : pyval) : list spec_float :=
  match v with
  | PFloat (S754_zero s) => [S754_zero s]
  | PFloat (S754_finite s m e) => [S754_finite s m e]
  | PList l => flat_map finite_floats l
  | PDict d => flat_map (fun kv => finite_floats (snd kv)) d
  | _ => []
  end.

Definition is_empty (s : str) : bool :=
  match s with
  | [] => true
  | _ :: _ => false
  end.

Definition all_digits (ds : str) : bool :=
  negb (is_empty ds) && forallb is_digit ds.

(** The groups are those of a JSON number with a fraction or an
    exponent: an integer part without a leading zero, digits after the
    dot, digits in the exponent. *)
Definition float_literal (m : number_match) : bool :=
  match num_int m with
  | [] => false
  | c :: ds =>
    if c =? 48 then is_empty ds else is_digit c && forallb is_digit ds
  end
  && match num_frac m with Some fs => all_digits fs | None => true end
  && match num_exp m with Some (_, eds) => all_digits eds | None => true end
  && match num_frac m, num_exp m with None, None => false | _, _ => true end.

(** [float(repr(f)) == f], as the decoder reads it: [repr(f)] is the
    text of a JSON number with a fraction or an exponent, and the float
    of that number is [f]. *)
Definition reads_back (float_repr : spec_float -> str) (f : spec_float)
  : Prop :=
  exists m,
    float_repr f = render_number m
    /\ float_literal m = true
    /\ parse_float (num_neg m) (num_int m) (num_frac m) (num_exp m) = f.

(* ================================================================== *)
(** * The world of the pipeline *)
(* ================================================================== *)

(** What [pypdf] makes of a file: [PdfReader] raises on a file it cannot
    parse, otherwise [reader.pages] is a list of pages, and
    [page.extract_text()] is a text or [None]. *)
Inductive file : Type :=
| NotAPdf
| Pdf (pages : list (option str)).

(** [requests.post(url, json=payload)] *)
Record request : Type := { url : str; json : pyval }.

Record response : Type := { status_code : Z; text : str }.

(** The collaborators of a run: the file system ([None]: no such path)
    and the chat endpoint, which answers a request knowing the requests
    it received before ([None]: the connection fails). *)
Record env : Type := {
  fs : str -> option file;
  endpoint : list request -> request -> option response
}.

(** Computations that may raise and that send requests: the log of the
    requests sent so far is threaded through. *)
Definition io (A : Type) : Type := list request -> result A * list request.

Definition ret {A} (a : A) : io A := fun log => (Ok a, log).

Definition lift {A} (r : result A) : io A := fun log => (r, log).

Definition bind {A B} (m : io A) (k : A -> io B) : io B :=
  fun log =>
    match m log with
    | (Ok a, log') => k a log'
    | (Raise e, log') => (Raise e, log')
    end.

Notation "x <- m ;; k" := (bind m (fun x => k))
  (at level 61, m at next level, right associativity).

Definition requests_post (E : env) (u : str) (payload : pyval) : io response :=
  fun log =>
    let req := {| url := u; json := payload |} in
    match endpoint E log req with
    | Some r => (Ok r, log ++ [req])
    | None => (Raise ConnectionError, log ++ [req])
    end.

(** [response.raise_for_status()] *)
Definition raise_for_status (r : response) : result unit :=
  if ((400 <=? status_code r) && (status_code r <? 600))%Z
  then Raise (HTTPError (status_code r))
  else Ok tt.

(** [response.json()] *)
Definition response_json (r : response) : result pyval :=
  match json_loads (text r) with
  | Loaded data => Ok data
  | JSONDecodeError m => Raise (RequestsJSONDecodeError m)
  | Exhausted => Raise RecursionError
  end.

(** [v.get(k, default)]: only a [dict] has the method. *)
Definition get (v : pyval) (k : str) (default : pyval) : result pyval :=
  match v with
  | PDict d =>
    Ok (match dict_get d k with Some x => x | None => default end)
  | _ => Raise AttributeError
  end.

(** [v.strip()]: only a [str] has the method. *)
Definition strip_method (v : pyval) : result str :=
  match v with
  | PStr s => Ok (strip s)
  | _ => Raise AttributeError
  end.

(* ================================================================== *)
(** * The pipeline *)
(* ================================================================== *)

Definition OLLAMA_URL : str := py "http://localhost:11434/api/chat".
Definition MODEL_NAME : str := py "llama3.2".

(** [page.extract_text() or ""] *)
Definition text_or_empty (t : option str) : str :=
  match t with
  | Some (c :: r) => c :: r
  | Some [] => []
  | None => []
  end.

(** [extract_text_from_pdf(pdf_path)] *)
Definition extract_text_from_pdf (E : env) (pdf_path : str) : result str :=
  match fs E pdf_path with
  | None => Raise (FileNotFoundError pdf_path)
  | Some NotAPdf => Raise PdfReadError
  | Some (Pdf pages) =>
    let all_text :=
      fold_left (fun all_text page => all_text ++ [text_or_empty page])
                pages [] in
    Ok (strip (join [NL; NL] all_text))
  end.

(** The three double quotes that fence the document text. *)
Definition FENCE : str := [DQUOTE; DQUOTE; DQUOTE].

(** [build_prompt] of [invoiceextract.py] and [invoice_langsmith.py]. *)
Module Exact.

Definition PROMPT_HEAD : str := pyq "
You are an information extraction assistant.

You will be given the text content of a PDF document (such as an invoice, form, or statement).
Your task is to extract the following key fields and return a STRICT JSON object only, with no extra text:

Required keys:
- 'invoice_number'
- 'invoice_date'
- 'customer_name'
- 'total_amount'
- 'currency'

Rules:
- If a field is missing or not clearly available, set its value to null.
- Do NOT include any additional keys.
- Do NOT add explanations.
- Output must be valid JSON only.

PDF TEXT:
".

Definition build_prompt (pdf_text : str) : str :=
  PROMPT_HEAD ++ FENCE ++ pdf_text ++ FENCE ++ [NL].

End Exact.

(** [build_prompt] of [invoice_langsmith_v1.py]. *)
Module Synonyms.

Definition PROMPT_HEAD : str := pyq "
You are an expert invoice document extraction assistant.
Invoices come from different vendors and fields may appear with different label names, abbreviations, or synonyms.

Your task is to extract the required standardized fields below.
Map semantically similar terms to the correct JSON key even if the wording differs.

Standard JSON Keys & Example Synonyms:

1. 'invoice_number'  → Invoice No, INV No, Bill No, Invoice ID, INV ID, Reference No, Ref#
2. 'invoice_date'    → Date, Invoice Date, Bill Date, Issue Date
3. 'customer_name'   → Customer, Client, Buyer, Billed To, Sold To
4. 'total_amount'    → Total, Amount Due, Grand Total, Total Payable, Cost, Final Amount
5. 'tax_amount'      → GST, VAT, TAX Value, Tax Amount
6. 'currency'        → Currency, INR, USD, $, ₹ symbol in front of number

OUTPUT RULES:
- Output MUST be ONLY a valid JSON object containing the keys above.
- If a value is missing or unclear, return null.
- Do NOT include any explanation text outside JSON.
- Extract values based on semantic meaning, not keyword matching.

DOCUMENT CONTENT:
".

Definition build_prompt (pdf_text : str) : str :=
  PROMPT_HEAD ++ FENCE ++ pdf_text ++ FENCE ++ [NL].

End Synonyms.

(** The first line of the message of the [ValueError]. *)
Definition PREAMBLE : str := py "Model did not return valid JSON. Raw output:".

(** The [try] block of [call_ollama_llama32]: the parse of the stripped
    text of the model. *)
Definition parse_model_text (model_text : str) : result pyval :=
  match json_loads model_text with
  | Loaded result => Ok result
  | JSONDecodeError _ =>
    Raise (ValueError (PREAMBLE ++ [NL] ++ model_text))
  | Exhausted => Raise RecursionError
  end.

Definition payload (prompt : str) : pyval :=
  PDict
    [ (py "model", PStr MODEL_NAME);
      (py "messages",
       PList
         [ PDict [ (py "role", PStr (py "system"));
                   (py "content",
                    PStr (py "You extract structured data and respond ONLY with JSON.")) ];
           PDict [ (py "role", PStr (py "user"));
                   (py "content", PStr prompt) ] ]);
      (py "stream", PBool false) ].

(** [call_ollama_llama32(prompt)] *)
Definition call_ollama_llama32 (E : env) (prompt : str) : io pyval :=
  response <- requests_post E OLLAMA_URL (payload prompt) ;;
  _ <- lift (raise_for_status response) ;;
  data <- lift (response_json response) ;;
  message <- lift (get data (py "message") (PDict [])) ;;
  content <- lift (get message (py "content") (PStr [])) ;;
  model_text <- lift (strip_method content) ;;
  lift (parse_model_text model_text).

Section Pipeline.

(** The prompt builder of the file at hand. *)
Variable build_prompt : str -> str.

(** [extract_key_values_from_pdf(pdf_path)] *)
Definition extract_key_values_from_pdf (E : env) (pdf_path : str) : io pyval :=
  pdf_text <- lift (extract_text_from_pdf E pdf_path) ;;
  call_ollama_llama32 E (build_prompt pdf_text).

End Pipeline.

(** The parse step on the raw text of the model: [.strip()], then the
    [try] block. *)
Definition parse_response (content : str) : result pyval :=
  parse_model_text (strip content).

(** The endpoint answers the prompt with a success status and a body
    whose [message.content] is the text [content]. *)
Definition model_replies (E : env) (log : list request) (prompt content : str)
  : Prop :=
  exists r data message,
    endpoint E log {| url := OLLAMA_URL; json := payload prompt |} = Some r
    /\ raise_for_status r = Ok tt
    /\ response_json r = Ok data
    /\ get data (py "message") (PDict []) = Ok message
    /\ get message (py "content") (PStr []) = Ok (PStr content).

(* ================================================================== *)
(** * The entry point of [invoiceextract.py] *)
(* ================================================================== *)

(** The replacement of one character by [encode_basestring], the encoder
    of strings under [ensure_ascii=False]: [ESCAPE_DCT] for the quote,
    the backslash and the control characters, and every other character
    as it is. *)
Definition escape_raw (c : char) : str :=
  if c =? 34 then [BACKSLASH_CHAR; 34]
  else if c =? 92 then [BACKSLASH_CHAR; 92]
  else if c =? 10 then [BACKSLASH_CHAR; 110]
  else if c =? 13 then [BACKSLASH_CHAR; 114]
  else if c =? 9 then [BACKSLASH_CHAR; 116]
  else if c =? 8 then [BACKSLASH_CHAR; 98]
  else if c =? 12 then [BACKSLASH_CHAR; 102]
  else if c <? 32 then u_escape c
  else [c].

(** [encode_basestring(s)] *)
Definition encode_basestring (s : str) : str :=
  DQUOTE :: flat_map escape_raw s ++ [DQUOTE].

(** ['\n' + _indent * _current_indent_level], for an indent of two
    spaces. *)
Definition newline_indent (level : nat) : str := NL :: repeat 32 (2 * level).

(** What a run of the entry point raises: an exception of the pipeline,
    or the [UnicodeEncodeError] of a [print] whose text the encoding of
    the standard output does not have. *)
Inductive exception : Type :=
| Raised (e : exn)
| UnicodeEncodeError (text : str).

(** How a run of the entry point ends. *)
Inductive exit : Type :=
| Finished
| Uncaught (e : exception).

Section Main.

(** [float.__repr__] on finite floats. *)
Variable float_repr : spec_float -> str.

(** The encoding of the standard output has every character of the
    text. *)
Variable stdout_encodes : str -> bool.

(** [str(e)] for the exceptions whose message a library writes. *)
Variable library_message : exception -> str.

(** [_iterencode(o, _current_indent_level)] of
    [json.dumps(o, indent=2, ensure_ascii=False)]: the item separator is
    a comma, the key separator a colon and a space. *)
Fixpoint iterencode (level : nat) (o : pyval) {struct o} : str :=
  match o with
  | PNone => py "null"
  | PBool true => py "true"
  | PBool false => py "false"
  | PInt z => int_repr z
  | PFloat f => floatstr float_repr f
  | PStr s => encode_basestring s
  | PList l =>
    match l with
    | [] => py "[]"
    | _ :: _ =>
      91 :: newline_indent (S level)
      ++ join (44 :: newline_indent (S level)) (map (iterencode (S level)) l)
      ++ newline_indent level ++ [93]
    end
  | PDict d =>
    match d with
    | [] => py "{}"
    | _ :: _ =>
      123 :: newline_indent (S level)
      ++ join (44 :: newline_indent (S level))
              (map (fun kv => encode_basestring (fst kv)
                              ++ py ": " ++ iterencode (S level) (snd kv)) d)
      ++ newline_indent level ++ [125]
    end
  end.

(** [json.dumps(obj, indent=2, ensure_ascii=False)] *)
Definition json_dumps_indent (obj : pyval) : str := iterencode 0 obj.

(** [str(e)]: the message given to the constructor, for the two
    exceptions that the source raises itself; [str(Path(p))] is [p] for
    the file name of the entry point. *)
Definition str_of (e : exception) : str :=
  match e with
  | Raised (FileNotFoundError pdf_path) => py "PDF not found: " ++ pdf_path
  | Raised (ValueError msg) => msg
  | _ => library_message e
  end.

(** [print(text)]: the texts printed so far are threaded through, one
    entry for each call. *)
Definition print (text : str) (out : list str) : option exception * list str :=
  if stdout_encodes text then (None, out ++ [text])
  else (Some (UnicodeEncodeError text), out).

Definition PDF_FILE : str := py "invoice1.pdf".

(** The [try] block of the entry point. *)
Definition try_block (E : env) (log : list request) (out : list str)
  : option exception * list request * list str :=
  match extract_key_values_from_pdf Exact.build_prompt E PDF_FILE log with
  | (Raise e, log') => (Some (Raised e), log', out)
  | (Ok key_values, log') =>
    match print (py "Extracted key values:") out with
    | (Some e, out') => (Some e, log', out')
    | (None, out') =>
      match print (json_dumps_indent key_values) out' with
      | (r, out'') => (r, log', out'')
      end
    end
  end.

(** The block under [if __name__ == "__main__"]: every exception of the
    [try] block is an [Exception] and is caught; one that the [print] of
    the handler raises is not. *)
Definition main (E : env) (log : list request) (out : list str)
  : exit * list request * list str :=
  match try_block E log out with
  | (None, log', out') => (Finished, log', out')
  | (Some e, log', out') =>
    match print (py "Error: " ++ str_of e) out' with
    | (None, out'') => (Finished, log', out'')
    | (Some e', out'') => (Uncaught e', log', out'')
    end
  end.

End Main.

(* ================================================================== *)
(** * Vocabulary of the specification *)
(* ================================================================== *)

(** The five keys that the prompt of [Exact] asks for. *)
Definition FIVE_KEYS : list str :=
  [py "invoice_number"; py "invoice_date"; py "customer_name";
   py "total_amount"; py "currency"].

(** The keys [ks] are exactly those of the schema. *)
Definition same_key_set (ks schema : list str) : Prop :=
  forall k, In k ks <-> In k schema.

(** The contracts [parse(response, schema)] and [build_prompt(text, schema)]
    read on the source: no function of the source takes a schema, the keys
    are part of the prompt text only, so the schema argument of a contract
    does not reach the code. *)
Definition parse (response : str) (schema : list str) : result pyval :=
  parse_response response.

Definition build_prompt_with_schema (build_prompt : str -> str)
           (pdf_text : str) (schema : list str) : result str :=
  Ok (build_prompt pdf_text).

(** [a in s], decided. *)
Fixpoint contains (a s : str) : bool :=
  startswith a s ||
  match s with
  | [] => false
  | _ :: r => contains a r
  end.

(** The text has a character that is not whitespace. *)
Definition has_text (s : str) : bool := existsb (fun c => negb (isspace c)) s.

(** Number of pages that the separators of a text announce. *)
Definition page_count (s : str) : nat := S (count_blank_lines s).

(** The texts with the last one stripped of its trailing whitespace. *)
Fixpoint rstrip_last (texts : list str) : list str :=
  match texts with
  | [] => []
  | [t] => [rstrip t]
  | t :: rest => t :: rstrip_last rest
  end.

(** The page texts as they stand in the extracted text when the first
    and the last page have a character that is not whitespace: the first
    without its leading whitespace, the last without its trailing
    whitespace, the others as they are. *)
Definition shown (texts : list str) : list str :=
  match texts with
  | [] => []
  | t :: rest => rstrip_last (lstrip t :: rest)
  end.

(** No text holds a blank line, and no text that starts with a line
    feed comes after a text that ends with one, the empty texts between
    the two set aside; [after_nl] tells that the last text that was not
    empty ended with a line feed. *)
Fixpoint quiet (after_nl : bool) (texts : list str) : bool :=
  match texts with
  | [] => true
  | t :: rest =>
    (count_blank_lines t =? 0)%nat
    && negb (after_nl && (hd 0 t =? NL))
    && quiet (match t with
              | [] => after_nl
              | _ :: _ => last t 0 =? NL
              end) rest
  end.

(* ================================================================== *)
(** * Worlds and texts of the examples *)
(* ================================================================== *)

(** Every path holds the PDF with the given pages, and the endpoint
    answers every request with status 200 and the given body. *)
Definition pdf_world (pages : list (option str)) (body : str) : env :=
  {| fs := fun _ => Some (Pdf pages);
     endpoint := fun _ _ => Some {| status_code := 200; text := body |} |}.

(** The same with a PDF of one page. *)
Definition canned (page : str) (body : str) : env :=
  pdf_world [Some page] body.

(** No file at all, and the same endpoint. *)
Definition no_files (body : str) : env :=
  {| fs := fun _ => None;
     endpoint := fun _ _ => Some {| status_code := 200; text := body |} |}.

Definition PAGE : str := py "Invoice No: INV-001".

(** Two pages with text; the first holds a blank line. *)
Definition TWO_PAGES : list (option str) :=
  [Some (py "Item A" ++ [NL; NL] ++ py "Item B"); Some (py "Total 10")].

(** Answers of the model, each with a body of the endpoint that carries
    it as [message.content]. *)
Definition WRAPPED_TEXT : str := pyq "Here is the result: {'a':1} Thanks!".

Definition WRAPPED_BODY : str :=
  pyq "{'model':'llama3.2','message':{'role':'assistant','content':'Here is the result: {\'a\':1} Thanks!'},'done':true}".

Definition INVOICE_TEXT : str :=
  pyq "{'invoice_number': 'INV-001', 'invoice_date': null, 'customer_name': 'Acme', 'total_amount': 100.5, 'currency': 'USD'}".

Definition INVOICE_BODY : str :=
  pyq "{'model':'llama3.2','message':{'role':'assistant','content':'{\'invoice_number\': \'INV-001\', \'invoice_date\': null, \'customer_name\': \'Acme\', \'total_amount\': 100.5, \'currency\': \'USD\'}'},'done':true}".

(** The float [100.5], that is [201 * 2 ^ 45 * 2 ^ (-46)]. *)
Definition F100_5 : spec_float := S754_finite false 7072058789855232 (-46).

Definition INVOICE_OBJECT : pyval :=
  PDict [ (py "invoice_number", PStr (py "INV-001"));
          (py "invoice_date", PNone);
          (py "customer_name", PStr (py "Acme"));
          (py "total_amount", PFloat F100_5);
          (py "currency", PStr (py "USD")) ].

Definition OTHER_KEYS_TEXT : str := pyq "{'invoice_number': 'INV-001', 'vendor': 'Acme'}".

Definition OTHER_KEYS_BODY : str :=
  pyq "{'model':'llama3.2','message':{'role':'assistant','content':'{\'invoice_number\': \'INV-001\', \'vendor\': \'Acme\'}'},'done':true}".

Definition PADDED_PROSE : str := py "  I could not find any invoice fields.  ".

Definition PADDED_PROSE_BODY : str :=
  pyq "{'model':'llama3.2','message':{'role':'assistant','content':'  I could not find any invoice fields.  '},'done':true}".

Definition ARRAY_TEXT : str := py "[1, 2]".

Definition ARRAY_BODY : str :=
  pyq "{'model':'llama3.2','message':{'role':'assistant','content':'[1, 2]'},'done':true}".

Definition BARE_STRING_TEXT : str := pyq "'INV-001'".

(** A [float.__repr__] for the examples; it knows one float. *)
Definition repr_of_100_5 (f : spec_float) : str := py "100.5".

(** A quoted string made of a high surrogate and the escape of a low
    surrogate. *)
Definition SURROGATES_TEXT : str :=
  DQUOTE :: 55357 :: py "\ude00" ++ [DQUOTE].

(** Every path holds the given file, or none, and the endpoint gives
    every request the given answer, or none. *)
Definition world (f : option file) (answer : option response) : env :=
  {| fs := fun _ => f; endpoint := fun _ _ => answer |}.

(** A page without text and a page of blanks, around two pages with
    text. *)
Definition PADDED_PAGES : list (option str) :=
  [None; Some (py "   ")] ++ [Some (py "Item A"); Some (py "Total 10")]
  ++ [Some [NL]].

(** Three pages as a reader of PDF files gives them: lines that end with
    a line feed, and a page without text between two pages. *)
Definition LINE_PAGES : list (option str) :=
  [Some (py "Invoice No: INV-001" ++ [NL] ++ py "Date: 2024-01-05" ++ [NL]);
   None; Some (py "  Total: 100.50 USD " ++ [NL])].

(** Three pages; the first starts and the last ends with blanks. *)
Definition RAGGED_PAGES : list (option str) :=
  Some (py "  Item A ") :: [None; Some (py " Item B ")]
  ++ [Some (py " Total 10  ")].

(** A standard output in UTF-8: it has every character but the
    surrogates. *)
Definition utf8_encodes (t : str) : bool :=
  forallb (fun c => negb ((55296 <=? c) && (c <=? 57343))) t.

(** Messages of the exceptions of the libraries, for the examples. *)
Definition some_message (e : exception) : str := py "(message of a library)".

(** The answer of a model that is a list of two strings, the second with
    a line feed and an emoji, and a body that carries its text. *)
Definition NOTES : pyval :=
  PList [PStr (py "INV-001"); PStr (py "paid" ++ [NL; 128512])].

Definition NOTES_BODY : str :=
  pyq "{'message':{'role':'assistant','content':'[\'INV-001\', \'paid\\n\\ud83d\\ude00\']'}}".

(** A body whose text of the model is no JSON and starts with a lone
    surrogate, and a body whose text of the model is a JSON string that
    holds the escape of a lone surrogate. *)
Definition LONE_PROSE_BODY : str :=
  pyq "{'message':{'role':'assistant','content':'\ud800 is not an invoice'}}".

Definition LONE_VALUE_BODY : str :=
  pyq "{'message':{'role':'assistant','content':'\'\\ud800\''}}".

(* ================================================================== *)
(** * Vocabulary of the proofs *)
(* ================================================================== *)

(** A scanner consumes input when it returns a value, and is funded up to
    [k] when it does not run out of fuel on inputs shorter than [k]. *)
Definition consumes (f : str -> scan (pyval * str)) : Prop :=
  forall s v r, f s = Done (v, r) -> (length r < length s)%nat.

Definition funded (f : str -> scan (pyval * str)) (k : nat) : Prop :=
  forall s, (length s < k)%nat -> f s <> OutOfFuel.

(** The count of blank lines in one pass from the left; [pending] tells
    that the character before is a line feed that no blank line counted
    so far has used. *)
Fixpoint blank_lines_from (pending : bool) (s : str) : nat :=
  match s with
  | [] => O
  | c :: r =>
    if c =? NL then
      if pending then S (blank_lines_from false r)
      else blank_lines_from true r
    else blank_lines_from false r
  end.

(** Whether the pass ends on a line feed that no blank line has used. *)
Fixpoint pending_after (pending : bool) (s : str) : bool :=
  match s with
  | [] => pending
  | c :: r =>
    if c =? NL then pending_after (negb pending) r
    else pending_after false r
  end.

(** The blank lines that the texts themselves add to those of the
    separators, in a pass over the texts joined by separators. *)
Fixpoint spare (pending : bool) (texts : list str) : nat :=
  match texts with
  | [] => O
  | t :: rest =>
    (blank_lines_from pending t + spare (pending_after pending t) rest)%nat
  end.

(** What may follow the escape of a high surrogate without being taken
    for the second half of a pair. *)
Definition lone (r : list N) : Prop :=
  match r with
  | b :: u :: t =>
    if (b =? BACKSLASH_CHAR) && (u =? 117) then
      match t with
      | g1 :: g2 :: g3 :: g4 :: _ =>
        match decode_uXXXX g1 g2 g3 g4 with
        | Some uni2 => is_low_surrogate uni2 = false
        | None => False
        end
      | _ => False
      end
    else True
  | _ => True
  end.

(** The text after a number does not go on like a number. *)
Definition stops (t : list N) : bool :=
  match t with
  | [] => true
  | c :: _ =>
    negb (is_digit c) && negb (c =? 46) && negb (c =? 101) && negb (c =? 69)
  end.

(** The parts of the text of a number after its integer part. *)
Definition frac_text (frac : option (list N)) : list N :=
  match frac with Some fs => 46 :: fs | None => [] end.

Definition exp_text (exp : option (bool * list N)) : list N :=
  match exp with
  | Some (eneg, eds) => 101 :: (if eneg then 45 else 43) :: eds
  | None => []
  end.

(** The digits of an integer part: a single zero, or digits that do not
    start with a zero. *)
Definition int_literal (ds : list N) : bool :=
  match ds with
  | [] => false
  | c :: r => if c =? 48 then is_empty r else is_digit c && forallb is_digit r
  end.

(** The characters a JSON text of [json.dumps] can start with. *)
Definition value_head (c : N) : bool :=
  (c =? 34) || (c =? 123) || (c =? 91) || (c =? 110) || (c =? 116)
  || (c =? 102) || (c =? 78) || (c =? 73) || (c =? 45) || is_digit c.

(** A string that [json.dumps] writes and [json.loads] reads back: code
    points only, and no high surrogate right before a low one. *)
Definition plain_str (s : list N) : bool := py_str s && unpaired s.

(** A value that [json.dumps] writes and [json.loads] reads back. *)
Definition dumpable (float_repr : spec_float -> list N) (v : pyval) : Prop :=
  strings_all plain_str v = true
  /\ keys_distinct v = true
  /\ forall f, In f (finite_floats v) -> reads_back float_repr f.

(** What follows a value in the text of [json.dumps]: nothing, a comma,
    or a closing bracket or brace. *)
Definition delim (rest : list N) : bool :=
  match rest with
  | [] => true
  | c :: _ => (c =? 44) || (c =? 93) || (c =? 125)
  end.

(** A value read by [json.loads]: its strings are made of code points
    and the keys of each of its dicts are distinct. *)
Definition loaded_ok (v : pyval) : bool :=
  strings_all py_str v && keys_distinct v.

(** The same for an item of a dict. *)
Definition item_ok (kv : list N * pyval) : bool :=
  py_str (fst kv) && loaded_ok (snd kv).

(** A scanner is sound when the values it returns are well formed and
    what it leaves of a Python string is a Python string. *)
Definition sound (f : list N -> scan (pyval * list N)) : Prop :=
  forall s v r,
    py_str s = true -> f s = Done (v, r) ->
    loaded_ok v = true /\ py_str r = true.

(** The request that a call sends for a prompt. *)
Definition chat_request (prompt : str) : request :=
  {| url := OLLAMA_URL; json := payload prompt |}.

(** A value that [json.dumps] with an indent writes and [json.loads]
    reads back: the keys of each dict differ and each finite float is
    read back from its [repr]. *)
Definition printable (float_repr : spec_float -> list N) (v : pyval) : Prop :=
  keys_distinct v = true
  /\ forall f, In f (finite_floats v) -> reads_back float_repr f.

(** What follows a value in the text of [json.dumps] with an indent:
    nothing, a comma, or a line feed. *)
Definition follows (rest : list N) : bool :=
  match rest with
  | [] => true
  | c :: _ => (c =? 44) || (c =? 10)
  end.

(** The text of the items of a dict written with an indent, after the
    opening quote of the first key, up to the closing brace and what
    follows it. *)
Fixpoint items_indent (float_repr : spec_float -> list N) (level : nat)
         (d : list (list N * pyval)) (rest : list N) : list N :=
  match d with
  | [] => []
  | kv :: d' =>
    flat_map escape_raw (fst kv)
    ++ DQUOTE :: 58 :: 32 :: iterencode float_repr (S level) (snd kv)
    ++ match d' with
       | [] => newline_indent level ++ 125 :: rest
       | _ :: _ =>
         44 :: newline_indent (S level)
         ++ DQUOTE :: items_indent float_repr level d' rest
       end
  end.

(* ================================================================== *)
(** * Running the pipeline *)
(* ================================================================== *)

Lemma str_eqb_eq a b : str_eqb a b = true <-> a = b.
Proof. unfold str_eqb. destruct (list_eq_dec N.eq_dec a b); split; congruence. Qed.

Lemma str_eqb_refl a : str_eqb a a = true.
Proof. now apply str_eqb_eq. Qed.

Lemma str_eqb_neq a b : str_eqb a b = false <-> a <> b.
Proof. unfold str_eqb. destruct (list_eq_dec N.eq_dec a b); split; congruence. Qed.

Lemma fold_append_map (A B : Type) (f : A -> B) (l : list A) (acc : list B) :
  fold_left (fun a x => a ++ [f x]) l acc = acc ++ map f l.
Proof.
  revert acc. induction l as [|x l IH]; intro acc; simpl.
  - now rewrite app_nil_r.
  - rewrite IH, <- app_assoc. reflexivity.
Qed.

Lemma extract_text_pages (E : env) (pdf_path : str) (pages : list (option str)) :
  fs E pdf_path = Some (Pdf pages) ->
  extract_text_from_pdf E pdf_path
  = Ok (strip (join [NL; NL] (map text_or_empty pages))).
Proof.
  intro H. unfold extract_text_from_pdf. rewrite H.
  now rewrite fold_append_map.
Qed.

(** A call whose request is answered with the text [content] sends that
    one request and returns what the parse step makes of the text. *)
Lemma call_with_content (E : env) (log : list request) (prompt content : str) :
  model_replies E log prompt content ->
  call_ollama_llama32 E prompt log
  = (parse_response content,
     log ++ [{| url := OLLAMA_URL; json := payload prompt |}]).
Proof.
  intros (r & data & message & Hr & Hs & Hd & Hm & Hc).
  unfold call_ollama_llama32, bind, requests_post, lift.
  rewrite Hr, Hs, Hd, Hm, Hc. reflexivity.
Qed.

Lemma pipeline_with_content (bp : str -> str) (E : env) (pdf_path pdf_text : str)
      (log : list request) (content : str) :
  extract_text_from_pdf E pdf_path = Ok pdf_text ->
  model_replies E log (bp pdf_text) content ->
  extract_key_values_from_pdf bp E pdf_path log
  = (parse_response content,
     log ++ [{| url := OLLAMA_URL; json := payload (bp pdf_text) |}]).
Proof.
  intros Ht Hr. unfold extract_key_values_from_pdf, bind, lift.
  rewrite Ht. now apply call_with_content.
Qed.

(** Every call sends exactly one request, whatever comes back. *)
Lemma call_sends_one_request (E : env) (prompt : str) (log : list request) :
  snd (call_ollama_llama32 E prompt log)
  = log ++ [{| url := OLLAMA_URL; json := payload prompt |}].
Proof.
  unfold call_ollama_llama32, bind, requests_post, lift.
  destruct (endpoint E log _) as [r|]; [|reflexivity].
  destruct (raise_for_status r) as [[]|]; [|reflexivity].
  destruct (response_json r) as [data|]; [|reflexivity].
  destruct (get data _ _) as [message|]; [|reflexivity].
  destruct (get message _ _) as [content|]; [|reflexivity].
  destruct (strip_method content) as [model_text|]; [|reflexivity].
  destruct (parse_model_text model_text); reflexivity.
Qed.

(** The canned worlds answer with the content of their body. *)
Lemma canned_replies (page body : str) (data message : pyval) (content : str)
      (log : list request) (prompt : str) :
  json_loads body = Loaded data ->
  get data (py "message") (PDict []) = Ok message ->
  get message (py "content") (PStr []) = Ok (PStr content) ->
  model_replies (canned page body) log prompt content.
Proof.
  intros Hd Hm Hc. exists {| status_code := 200; text := body |}, data, message.
  repeat split; try assumption.
  unfold response_json. simpl. now rewrite Hd.
Qed.

(* ================================================================== *)
(** * Substrings *)
(* ================================================================== *)

Lemma startswith_app (a post : str) : startswith a (a ++ post) = true.
Proof.
  induction a as [|c a IH]; simpl; [reflexivity|].
  now rewrite N.eqb_refl, IH.
Qed.

Lemma contains_unfold (a s : str) :
  contains a s
  = startswith a s || match s with [] => false | _ :: r => contains a r end.
Proof. destruct s; reflexivity. Qed.

Lemma contains_complete (a s : str) : substring a s -> contains a s = true.
Proof.
  intros (pre & post & ->). induction pre as [|c pre IH].
  - rewrite contains_unfold. simpl app. now rewrite startswith_app.
  - change (contains a (c :: (pre ++ a ++ post)) = true).
    rewrite contains_unfold, IH. apply orb_true_r.
Qed.

(** The prompt of [Exact] names each of the five keys between double
    quotes, and the prompt of [Synonyms] names them too. *)
Lemma five_keys_in_the_prompts :
  forallb (fun k => contains (DQUOTE :: k ++ [DQUOTE]) Exact.PROMPT_HEAD)
          FIVE_KEYS = true
  /\ forallb (fun k => contains (DQUOTE :: k ++ [DQUOTE]) Synonyms.PROMPT_HEAD)
             (py "tax_amount" :: FIVE_KEYS) = true.
Proof. split; vm_compute; reflexivity. Qed.

(* ================================================================== *)
(** * The claims on files, prompts and the parse step *)
(* ================================================================== *)

(** C3: a run on a path that names no file raises [FileNotFoundError]
    and leaves the log of requests as it found it; started with an empty
    log, the run ends with zero requests sent to the endpoint. *)
Theorem C3_missing_file_sends_no_request
        (bp : str -> str) (E : env) (pdf_path : str) (log : list request) :
  fs E pdf_path = None ->
  extract_key_values_from_pdf bp E pdf_path log
  = (Raise (FileNotFoundError pdf_path), log)
  /\ length (snd (extract_key_values_from_pdf bp E pdf_path [])) = 0%nat.
Proof.
  intro H.
  assert (forall l, extract_key_values_from_pdf bp E pdf_path l
                    = (Raise (FileNotFoundError pdf_path), l)) as Hrun.
  { intro l. unfold extract_key_values_from_pdf, bind, lift, extract_text_from_pdf.
    now rewrite H. }
  split; [apply Hrun|]. now rewrite Hrun.
Qed.

Lemma C3_witness :
  fs (no_files ARRAY_BODY) (py "invoice.pdf") = None
  /\ (extract_key_values_from_pdf Exact.build_prompt (no_files ARRAY_BODY)
                                  (py "invoice.pdf") []
      = (Raise (FileNotFoundError (py "invoice.pdf")), [])
      /\ length (snd (extract_key_values_from_pdf Exact.build_prompt
                        (no_files ARRAY_BODY) (py "invoice.pdf") [])) = 0%nat).
Proof.
  split; [reflexivity|].
  apply (C3_missing_file_sends_no_request Exact.build_prompt
           (no_files ARRAY_BODY) (py "invoice.pdf") []).
  reflexivity.
Defined.

(** A document without pages, or whose pages are all blank, gives the
    empty text. *)
Lemma lstrip_blank (s : str) : has_text s = false -> lstrip s = [].
Proof.
  induction s as [|c s IH]; intro H; [reflexivity|].
  cbn [has_text existsb] in H. apply orb_false_elim in H.
  destruct H as [Hc Hs]. apply negb_false_iff in Hc.
  cbn [lstrip]. rewrite Hc. now apply IH.
Qed.

Lemma join_blank (texts : list str) :
  (forall t, In t texts -> has_text t = false) ->
  has_text (join [NL; NL] texts) = false.
Proof.
  induction texts as [|p [|q rest] IH]; intro H.
  - reflexivity.
  - apply H. now left.
  - change (join [NL; NL] (p :: q :: rest))
      with (p ++ [NL; NL] ++ join [NL; NL] (q :: rest)).
    unfold has_text in *. rewrite !existsb_app.
    rewrite (H p (or_introl eq_refl)), IH; [reflexivity|].
    intros t Ht. apply H. now right.
Qed.

Lemma extract_text_blank_document
      (E : env) (pdf_path : str) (pages : list (option str)) :
  fs E pdf_path = Some (Pdf pages) ->
  (forall page, In page pages -> has_text (text_or_empty page) = false) ->
  extract_text_from_pdf E pdf_path = Ok [].
Proof.
  intros Hfs Hblank. rewrite (extract_text_pages E pdf_path pages Hfs).
  unfold strip. rewrite lstrip_blank; [reflexivity|].
  apply join_blank. intros t Ht. apply in_map_iff in Ht.
  destruct Ht as (page & <- & Hin). now apply Hblank.
Qed.

(** C9, the claim as stated fails: called with a schema of zero keys, the
    prompt builder of the source returns a prompt, it does not fail. *)
Lemma C9_counterexample :
  build_prompt_with_schema Exact.build_prompt PAGE []
  = Ok (Exact.PROMPT_HEAD ++ FENCE ++ PAGE ++ FENCE ++ [NL])
  /\ ~ (exists e, build_prompt_with_schema Exact.build_prompt PAGE [] = Raise e).
Proof.
  split; [reflexivity|]. intros [e He]. discriminate He.
Qed.

(** C9, amended: the prompt builder is a total function of the document
    text alone; it has no schema argument and no failure mode; the prompt
    is the fixed head, then the text between two fences of three double
    quotes, then a line feed, so the text is a contiguous part of the
    prompt.  This holds for the builder with the exact field list and for
    the one with synonyms. *)
Theorem C9_build_prompt_fences_the_text (pdf_text : str) (schema : list str) :
  build_prompt_with_schema Exact.build_prompt pdf_text schema
  = Ok (Exact.PROMPT_HEAD ++ FENCE ++ pdf_text ++ FENCE ++ [NL])
  /\ build_prompt_with_schema Synonyms.build_prompt pdf_text schema
     = Ok (Synonyms.PROMPT_HEAD ++ FENCE ++ pdf_text ++ FENCE ++ [NL])
  /\ substring (FENCE ++ pdf_text ++ FENCE) (Exact.build_prompt pdf_text)
  /\ substring (FENCE ++ pdf_text ++ FENCE) (Synonyms.build_prompt pdf_text)
  /\ substring pdf_text (Exact.build_prompt pdf_text)
  /\ substring pdf_text (Synonyms.build_prompt pdf_text).
Proof.
  repeat split; try reflexivity.
  - exists Exact.PROMPT_HEAD, [NL]. unfold Exact.build_prompt.
    now rewrite <- !app_assoc.
  - exists Synonyms.PROMPT_HEAD, [NL]. unfold Synonyms.build_prompt.
    now rewrite <- !app_assoc.
  - exists (Exact.PROMPT_HEAD ++ FENCE), (FENCE ++ [NL]).
    unfold Exact.build_prompt. now rewrite <- !app_assoc.
  - exists (Synonyms.PROMPT_HEAD ++ FENCE), (FENCE ++ [NL]).
    unfold Synonyms.build_prompt. now rewrite <- !app_assoc.
Qed.

(* ================================================================== *)
(** * The decoder terminates *)
(* ================================================================== *)

Ltac break_match H :=
  match type of H with
  | context [match ?x with _ => _ end] =>
    first [ is_var x; destruct x | destruct x eqn:? ]
  end.

Ltac break_goal :=
  match goal with
  | |- context [match ?x with _ => _ end] =>
    first [ is_var x; destruct x | destruct x eqn:? ]
  end.

Lemma skip_ws_le (s : str) : (length (skip_ws s) <= length s)%nat.
Proof.
  induction s as [|c s IH]; simpl; [lia|].
  destruct (is_ws c); simpl; lia.
Qed.

Lemma scanstring_consumes (n : nat) :
  forall s chunks x r,
    (length s <= n)%nat -> scanstring s chunks = Done (x, r) ->
    (length r < length s)%nat.
Proof.
  induction n as [|n IH]; intros [|c s] chunks x r Hn H;
    try discriminate H; [simpl in Hn; lia|].
  simpl in H.
  repeat break_match H; try discriminate H; simpl in Hn |- *;
    try (injection H as <- <-; lia);
    try (apply IH in H; simpl in *; lia).
Qed.

Lemma scanstring_funded (n : nat) :
  forall s chunks, (length s <= n)%nat ->
    scanstring s chunks <> OutOfFuel /\ scanstring s chunks <> StopIteration.
Proof.
  induction n as [|n IH]; intros [|c s] chunks Hn;
    try (split; discriminate); [simpl in Hn; lia|].
  simpl.
  repeat break_goal; try (split; discriminate); simpl in Hn;
    apply IH; simpl; lia.
Qed.

Lemma span_digits_app (s : str) :
  forall ds t, span_digits s = (ds, t) -> s = ds ++ t.
Proof.
  induction s as [|c s IH]; simpl; intros ds t H.
  - now injection H as <- <-.
  - destruct (is_digit c).
    + destruct (span_digits s) as [ds' t'] eqn:E.
      injection H as <- <-. simpl. f_equal. now apply IH.
    + now injection H as <- <-.
Qed.

Lemma match_frac_le (s : str) (f : option str) (t : str) :
  match_frac s = (f, t) -> (length t <= length s)%nat.
Proof.
  unfold match_frac. intro H.
  repeat break_match H; injection H as <- <-; simpl; try lia.
  apply span_digits_app in Heqp. rewrite Heqp, length_app. simpl. lia.
Qed.

Lemma match_exp_le (s : str) (e : option (bool * str)) (t : str) :
  match_exp s = (e, t) -> (length t <= length s)%nat.
Proof.
  unfold match_exp. intro H.
  destruct s as [|c r]; [injection H as <- <-; lia|].
  destruct ((c =? 101) || (c =? 69)); [|injection H as <- <-; lia].
  destruct (match r with
            | [] => (false, r)
            | sg :: r' =>
              if sg =? 45 then (true, r')
              else if sg =? 43 then (false, r') else (false, r)
            end) as [neg r1] eqn:Er.
  assert (length r1 <= length r)%nat as Hr1.
  { destruct r as [|sg r']; [injection Er as <- <-; lia|].
    destruct (sg =? 45); [injection Er as <- <-; simpl; lia|].
    destruct (sg =? 43); injection Er as <- <-; simpl; lia. }
  destruct (span_digits r1) as [[|d ds] t'] eqn:Ed;
    injection H as <- <-; [lia|].
  apply span_digits_app in Ed. rewrite Ed, length_app in Hr1. simpl. lia.
Qed.

Lemma match_number_lt (s : str) (m : number_match) (t : str) :
  match_number s = Some (m, t) -> (length t < length s)%nat.
Proof.
  unfold match_number. intro H.
  destruct (match s with
            | [] => (false, s)
            | c :: r => if c =? 45 then (true, r) else (false, s)
            end) as [neg s1] eqn:Es.
  assert (length s1 <= length s)%nat as Hs1.
  { destruct s as [|c r]; [injection Es as <- <-; lia|].
    destruct (c =? 45); injection Es as <- <-; simpl; lia. }
  destruct s1 as [|c r]; [discriminate H|].
  assert (forall ds s2, (length s2 <= length r)%nat ->
            (let (frac, s3) := match_frac s2 in
             let (exp, s4) := match_exp s3 in
             Some ({| num_neg := neg; num_int := ds;
                      num_frac := frac; num_exp := exp |}, s4))
            = Some (m, t) -> (length t < length s)%nat) as Htail.
  { intros ds s2 Hs2 H'.
    destruct (match_frac s2) as [frac s3] eqn:Ef.
    destruct (match_exp s3) as [exp s4] eqn:Ee.
    injection H' as <- <-.
    apply match_frac_le in Ef. apply match_exp_le in Ee. simpl in Hs1. lia. }
  destruct (c =? 48).
  - apply (Htail [c] r); [lia | exact H].
  - destruct (is_digit c); [|discriminate H].
    destruct (span_digits r) as [ds t'] eqn:Ed.
    apply (Htail (c :: ds) t'); [|exact H].
    apply span_digits_app in Ed. rewrite Ed, length_app. lia.
Qed.

Lemma expect_length (lit s r : str) :
  expect lit s = Some r -> length s = (length lit + length r)%nat.
Proof.
  revert s. induction lit as [|a lit IH]; simpl; intros s H.
  - now injection H as <-.
  - destruct s as [|b s]; [discriminate|].
    destruct (a =? b); [|discriminate]. simpl. f_equal. now apply IH.
Qed.

Lemma scan_atom_consumes (s : str) (v : pyval) (r : str) :
  scan_atom s = Done (v, r) -> (length r < length s)%nat.
Proof.
  unfold scan_atom. intro H.
  repeat match type of H with
         | context [match expect ?l s with _ => _ end] =>
           let E := fresh "E" in
           destruct (expect l s) eqn:E;
             [apply expect_length in E; vm_compute (length l) in E|]
         | context [match match_number s with _ => _ end] =>
           let E := fresh "E" in
           destruct (match_number s) as [[m t]|] eqn:E;
             [apply match_number_lt in E|]
         end;
    try discriminate H;
    repeat break_match H; injection H as <- <-; lia.
Qed.

Lemma scan_atom_funded (s : str) : scan_atom s <> OutOfFuel.
Proof.
  unfold scan_atom. repeat break_goal; discriminate.
Qed.

Section ContainersTerminate.

Variable scan : str -> scan (pyval * str).
Hypothesis scan_consumes : consumes scan.

Lemma object_loop_consumes (n : nat) :
  forall s pairs v r,
    object_loop scan n s pairs = Done (v, r) -> (length r < length s)%nat.
Proof.
  induction n as [|n IH]; intros s pairs v r H; [discriminate H|].
  simpl in H.
  destruct (scanstring s []) as [[key s1]| | |] eqn:Ek; try discriminate H.
  apply scanstring_consumes with (n := length s) in Ek; [|lia].
  pose proof (skip_ws_le s1) as Hw1.
  destruct (skip_ws s1) as [|c s2]; [discriminate H|].
  destruct (c =? 58); [|discriminate H].
  pose proof (skip_ws_le s2) as Hw2.
  destruct (scan (skip_ws s2)) as [[value s3]| | |] eqn:Ev; try discriminate H.
  apply scan_consumes in Ev.
  pose proof (skip_ws_le s3) as Hw3.
  destruct (skip_ws s3) as [|nextchar s4]; [discriminate H|].
  simpl in Hw1, Hw3.
  destruct (nextchar =? 125); [injection H as <- <-; lia|].
  destruct (nextchar =? 44); [|discriminate H].
  pose proof (skip_ws_le s4) as Hw4.
  destruct (skip_ws s4) as [|q s5]; [discriminate H|].
  destruct (q =? DQUOTE); [|discriminate H].
  apply IH in H. simpl in Hw4. lia.
Qed.

Lemma JSONObject_consumes : consumes (JSONObject scan).
Proof.
  intros s v r H. unfold JSONObject in H.
  pose proof (skip_ws_le s) as Hw.
  destruct (skip_ws s) as [|nextchar t]; [discriminate H|]. simpl in Hw.
  destruct (nextchar =? 125); [injection H as <- <-; lia|].
  destruct (nextchar =? DQUOTE); [|discriminate H].
  apply object_loop_consumes in H. lia.
Qed.

Lemma array_loop_consumes (n : nat) :
  forall s values v r,
    array_loop scan n s values = Done (v, r) -> (length r < length s)%nat.
Proof.
  induction n as [|n IH]; intros s values v r H; [discriminate H|].
  simpl in H.
  destruct (scan s) as [[value s1]| | |] eqn:Ev; try discriminate H.
  apply scan_consumes in Ev.
  pose proof (skip_ws_le s1) as Hw1.
  destruct (skip_ws s1) as [|nextchar s2]; [discriminate H|]. simpl in Hw1.
  destruct (nextchar =? 93); [injection H as <- <-; lia|].
  destruct (nextchar =? 44); [|discriminate H].
  apply IH in H. pose proof (skip_ws_le s2). lia.
Qed.

Lemma JSONArray_consumes : consumes (JSONArray scan).
Proof.
  intros s v r H. unfold JSONArray in H.
  pose proof (skip_ws_le s) as Hw.
  destruct (skip_ws s) as [|nextchar t] eqn:E.
  - simpl in H. destruct (scan []) as [[value s1]| | |] eqn:Ev;
      try discriminate H.
    apply scan_consumes in Ev. simpl in Ev. lia.
  - simpl in Hw. destruct (nextchar =? 93); [injection H as <- <-; lia|].
    apply array_loop_consumes in H. simpl in H. lia.
Qed.

Variable k : nat.
Hypothesis scan_funded : funded scan k.

Lemma object_loop_funded (n : nat) :
  forall s pairs,
    (length s < n)%nat -> (length s <= k)%nat ->
    object_loop scan n s pairs <> OutOfFuel.
Proof.
  induction n as [|n IH]; intros s pairs Hn Hk; [lia|].
  simpl.
  destruct (scanstring s []) as [[key s1]| | |] eqn:Ek; try discriminate.
  2:{ destruct (scanstring_funded (length s) s [] (le_n _)); congruence. }
  apply scanstring_consumes with (n := length s) in Ek; [|lia].
  pose proof (skip_ws_le s1) as Hw1.
  destruct (skip_ws s1) as [|c s2]; [discriminate|]. simpl in Hw1.
  destruct (c =? 58); [|discriminate].
  pose proof (skip_ws_le s2) as Hw2.
  destruct (scan (skip_ws s2)) as [[value s3]| | |] eqn:Ev; try discriminate.
  2:{ exfalso. apply (scan_funded (skip_ws s2)); [lia|exact Ev]. }
  apply scan_consumes in Ev.
  pose proof (skip_ws_le s3) as Hw3.
  destruct (skip_ws s3) as [|nextchar s4]; [discriminate|]. simpl in Hw3.
  destruct (nextchar =? 125); [discriminate|].
  destruct (nextchar =? 44); [|discriminate].
  pose proof (skip_ws_le s4) as Hw4.
  destruct (skip_ws s4) as [|q s5]; [discriminate|]. simpl in Hw4.
  destruct (q =? DQUOTE); [|discriminate].
  apply IH; lia.
Qed.

Lemma JSONObject_funded (s : str) :
  (length s <= k)%nat -> JSONObject scan s <> OutOfFuel.
Proof.
  intro Hk. unfold JSONObject.
  pose proof (skip_ws_le s) as Hw.
  destruct (skip_ws s) as [|nextchar t]; [discriminate|]. simpl in Hw.
  destruct (nextchar =? 125); [discriminate|].
  destruct (nextchar =? DQUOTE); [|discriminate].
  apply object_loop_funded; lia.
Qed.

Lemma array_loop_funded (n : nat) :
  forall s values,
    (length s < n)%nat -> (length s < k)%nat ->
    array_loop scan n s values <> OutOfFuel.
Proof.
  induction n as [|n IH]; intros s values Hn Hk; [lia|].
  simpl.
  destruct (scan s) as [[value s1]| | |] eqn:Ev; try discriminate.
  2:{ exfalso. now apply (scan_funded s). }
  apply scan_consumes in Ev.
  pose proof (skip_ws_le s1) as Hw1.
  destruct (skip_ws s1) as [|nextchar s2]; [discriminate|]. simpl in Hw1.
  destruct (nextchar =? 93); [discriminate|].
  destruct (nextchar =? 44); [|discriminate].
  pose proof (skip_ws_le s2). apply IH; lia.
Qed.

Lemma JSONArray_funded (s : str) :
  (length s < k)%nat -> JSONArray scan s <> OutOfFuel.
Proof.
  intro Hk. unfold JSONArray.
  pose proof (skip_ws_le s) as Hw.
  destruct (skip_ws s) as [|nextchar t] eqn:E.
  - apply array_loop_funded; simpl; lia.
  - simpl in Hw. destruct (nextchar =? 93); [discriminate|].
    apply array_loop_funded; simpl; lia.
Qed.

End ContainersTerminate.

Lemma scan_once_consumes (fuel : nat) : consumes (scan_once fuel).
Proof.
  induction fuel as [|fuel IH]; intros s v r H; [discriminate H|].
  simpl in H. destruct s as [|nextchar rest]; [discriminate H|].
  destruct (nextchar =? DQUOTE).
  { destruct (scanstring rest []) as [[x t]| | |] eqn:Ex; try discriminate H.
    injection H as <- <-.
    apply scanstring_consumes with (n := length rest) in Ex; simpl; lia. }
  destruct (nextchar =? 123).
  { apply (JSONObject_consumes _ IH) in H. simpl. lia. }
  destruct (nextchar =? 91).
  { apply (JSONArray_consumes _ IH) in H. simpl. lia. }
  now apply scan_atom_consumes in H.
Qed.

Lemma scan_once_funded (fuel : nat) : funded (scan_once fuel) fuel.
Proof.
  induction fuel as [|fuel IH]; intros s Hs; [lia|].
  simpl. destruct s as [|nextchar rest]; [discriminate|]. simpl in Hs.
  destruct (nextchar =? DQUOTE).
  { destruct (scanstring rest []) as [[x t]| | |] eqn:Ex; try discriminate.
    destruct (scanstring_funded (length rest) rest [] (le_n _)); congruence. }
  destruct (nextchar =? 123).
  { apply (JSONObject_funded _ (scan_once_consumes fuel) _ IH). lia. }
  destruct (nextchar =? 91).
  { apply (JSONArray_funded _ (scan_once_consumes fuel) _ IH). lia. }
  apply scan_atom_funded.
Qed.

(** [json_loads] never runs out of fuel: it returns a value or raises
    [JSONDecodeError]. *)
Lemma json_loads_total (s : str) : json_loads s <> Exhausted.
Proof.
  unfold json_loads. destruct (startswith _ s); [discriminate|].
  destruct (scan_once _ _) as [[obj r]| | |] eqn:E; try discriminate.
  - destruct (skip_ws r); discriminate.
  - exfalso. apply (scan_once_funded (S (length (skip_ws s))) (skip_ws s));
      [lia|exact E].
Qed.

Lemma parse_response_outcome (content : str) :
  match json_loads (strip content) with
  | Loaded v => parse_response content = Ok v
  | JSONDecodeError _ =>
    parse_response content
    = Raise (ValueError (PREAMBLE ++ [NL] ++ strip content))
  | Exhausted => False
  end.
Proof.
  pose proof (json_loads_total (strip content)) as T.
  unfold parse_response, parse_model_text.
  destruct (json_loads (strip content)); [reflexivity|reflexivity|now elim T].
Qed.

Ltac canned_reply :=
  eapply canned_replies; lazy; reflexivity.

(** C1, the claim as stated fails: the model answers with an object that
    has a key outside the five keys of the prompt and lacks four of them;
    the parse step succeeds and returns the object with the two keys of
    the answer. *)
Lemma C1_counterexample :
  exists d,
    parse OTHER_KEYS_TEXT FIVE_KEYS = Ok (PDict d)
    /\ keys d = [py "invoice_number"; py "vendor"]
    /\ ~ same_key_set (keys d) FIVE_KEYS.
Proof.
  eexists. split; [vm_compute; reflexivity|]. split; [reflexivity|].
  intro H. destruct (H (py "vendor")) as [H1 _].
  assert (In (py "vendor") FIVE_KEYS) as Hin by (apply H1; vm_compute; tauto).
  vm_compute in Hin. intuition discriminate.
Qed.

(** C1, amended: when the stripped text of the model parses as JSON, the
    parse step succeeds with the very value [json.loads] read, whatever
    the schema: no key is dropped, none is filled in, and the run returns
    that value. *)
Theorem C1_parse_returns_the_value_read
        (bp : str -> str) (E : env) (pdf_path pdf_text : str)
        (log : list request) (response : str) (schema : list str) (v : pyval) :
  json_loads (strip response) = Loaded v ->
  extract_text_from_pdf E pdf_path = Ok pdf_text ->
  model_replies E log (bp pdf_text) response ->
  parse response schema = Ok v
  /\ fst (extract_key_values_from_pdf bp E pdf_path log) = Ok v.
Proof.
  intros Hv Ht Hr.
  assert (parse_response response = Ok v) as Hp.
  { pose proof (parse_response_outcome response) as O. now rewrite Hv in O. }
  split; [exact Hp|].
  rewrite (pipeline_with_content bp E pdf_path pdf_text log _ Ht Hr). exact Hp.
Qed.

Lemma C1_witness :
  json_loads (strip OTHER_KEYS_TEXT)
  = Loaded (PDict [ (py "invoice_number", PStr (py "INV-001"));
                    (py "vendor", PStr (py "Acme")) ])
  /\ extract_text_from_pdf (canned PAGE OTHER_KEYS_BODY) (py "invoice.pdf")
     = Ok PAGE
  /\ model_replies (canned PAGE OTHER_KEYS_BODY) []
                   (Exact.build_prompt PAGE) OTHER_KEYS_TEXT
  /\ parse OTHER_KEYS_TEXT FIVE_KEYS
     = Ok (PDict [ (py "invoice_number", PStr (py "INV-001"));
                   (py "vendor", PStr (py "Acme")) ])
  /\ fst (extract_key_values_from_pdf Exact.build_prompt
            (canned PAGE OTHER_KEYS_BODY) (py "invoice.pdf") [])
     = Ok (PDict [ (py "invoice_number", PStr (py "INV-001"));
                   (py "vendor", PStr (py "Acme")) ]).
Proof.
  assert (json_loads (strip OTHER_KEYS_TEXT)
          = Loaded (PDict [ (py "invoice_number", PStr (py "INV-001"));
                            (py "vendor", PStr (py "Acme")) ])) as H1
      by (vm_compute; reflexivity).
  assert (extract_text_from_pdf (canned PAGE OTHER_KEYS_BODY) (py "invoice.pdf")
          = Ok PAGE) as H2 by (vm_compute; reflexivity).
  assert (model_replies (canned PAGE OTHER_KEYS_BODY) []
                        (Exact.build_prompt PAGE) OTHER_KEYS_TEXT) as H3
      by canned_reply.
  split; [exact H1|]. split; [exact H2|]. split; [exact H3|].
  exact (C1_parse_returns_the_value_read Exact.build_prompt
           (canned PAGE OTHER_KEYS_BODY) (py "invoice.pdf") PAGE []
           OTHER_KEYS_TEXT FIVE_KEYS _ H1 H2 H3).
Defined.

(** C2, the claim as stated fails: on the text that wraps an object in
    prose the parse step raises [ValueError]; it does not recover the
    object, and a run whose model answers with that text ends with the
    error. *)
Lemma C2_counterexample :
  parse_response WRAPPED_TEXT
  = Raise (ValueError (PREAMBLE ++ [NL] ++ WRAPPED_TEXT))
  /\ parse_response WRAPPED_TEXT <> Ok (PDict [(py "a", PInt 1)])
  /\ model_replies (canned PAGE WRAPPED_BODY) [] (Exact.build_prompt PAGE)
                   WRAPPED_TEXT
  /\ fst (extract_key_values_from_pdf Exact.build_prompt
            (canned PAGE WRAPPED_BODY) (py "invoice.pdf") [])
     = Raise (ValueError (PREAMBLE ++ [NL] ++ WRAPPED_TEXT)).
Proof.
  assert (parse_response WRAPPED_TEXT
          = Raise (ValueError (PREAMBLE ++ [NL] ++ WRAPPED_TEXT))) as H
      by (vm_compute; reflexivity).
  split; [exact H|]. split; [rewrite H; discriminate|].
  split; [canned_reply|vm_compute; reflexivity].
Qed.

(** C2, amended: when [json.loads] fails on the stripped text, the parse
    step raises [ValueError] at once; there is no second attempt on the
    part of the text between the first and the last brace. *)
Theorem C2_no_recovery_after_a_failed_parse (response : str) (m : json_msg) :
  json_loads (strip response) = JSONDecodeError m ->
  parse_response response
  = Raise (ValueError (PREAMBLE ++ [NL] ++ strip response)).
Proof.
  intro H. pose proof (parse_response_outcome response) as O.
  now rewrite H in O.
Qed.

Lemma C2_witness :
  json_loads (strip WRAPPED_TEXT) = JSONDecodeError ExpectingValue
  /\ parse_response WRAPPED_TEXT
     = Raise (ValueError (PREAMBLE ++ [NL] ++ strip WRAPPED_TEXT)).
Proof.
  assert (json_loads (strip WRAPPED_TEXT) = JSONDecodeError ExpectingValue)
    as H by (vm_compute; reflexivity).
  split; [exact H|].
  exact (C2_no_recovery_after_a_failed_parse WRAPPED_TEXT _ H).
Defined.

(** C4: when the model answers with the invoice text of the scenario,
    the run returns the object that [json.loads] reads from it, as it
    is: the strings are strings, the null is [None], the amount is the
    float 100.5, and nothing is checked or converted. *)
Theorem C4_result_is_the_parsed_object
        (bp : str -> str) (E : env) (pdf_path pdf_text : str)
        (log : list request) :
  extract_text_from_pdf E pdf_path = Ok pdf_text ->
  model_replies E log (bp pdf_text) INVOICE_TEXT ->
  json_loads INVOICE_TEXT = Loaded INVOICE_OBJECT
  /\ parse INVOICE_TEXT FIVE_KEYS = Ok INVOICE_OBJECT
  /\ fst (extract_key_values_from_pdf bp E pdf_path log) = Ok INVOICE_OBJECT.
Proof.
  intros Ht Hr.
  assert (json_loads INVOICE_TEXT = Loaded INVOICE_OBJECT) as Hl
      by (vm_compute; reflexivity).
  assert (parse_response INVOICE_TEXT = Ok INVOICE_OBJECT) as Hp
      by (vm_compute; reflexivity).
  repeat split; try assumption.
  rewrite (pipeline_with_content bp E pdf_path pdf_text log _ Ht Hr). exact Hp.
Qed.

Lemma C4_witness :
  extract_text_from_pdf (canned PAGE INVOICE_BODY) (py "invoice.pdf") = Ok PAGE
  /\ model_replies (canned PAGE INVOICE_BODY) []
                   (Exact.build_prompt PAGE) INVOICE_TEXT
  /\ json_loads INVOICE_TEXT = Loaded INVOICE_OBJECT
  /\ parse INVOICE_TEXT FIVE_KEYS = Ok INVOICE_OBJECT
  /\ fst (extract_key_values_from_pdf Exact.build_prompt
            (canned PAGE INVOICE_BODY) (py "invoice.pdf") [])
     = Ok INVOICE_OBJECT.
Proof.
  assert (extract_text_from_pdf (canned PAGE INVOICE_BODY) (py "invoice.pdf")
          = Ok PAGE) as H1 by (vm_compute; reflexivity).
  assert (model_replies (canned PAGE INVOICE_BODY) []
                        (Exact.build_prompt PAGE) INVOICE_TEXT) as H2
      by canned_reply.
  split; [exact H1|]. split; [exact H2|].
  exact (C4_result_is_the_parsed_object Exact.build_prompt
           (canned PAGE INVOICE_BODY) (py "invoice.pdf") PAGE [] H1 H2).
Defined.

(** C5, the claim as stated fails: the model answers with prose that has
    blanks around it; the run raises [ValueError], and the message of the
    error does not contain the text as the model sent it. *)
Lemma C5_counterexample :
  exists msg,
    fst (extract_key_values_from_pdf Exact.build_prompt
           (canned PAGE PADDED_PROSE_BODY) (py "invoice.pdf") [])
    = Raise (ValueError msg)
    /\ model_replies (canned PAGE PADDED_PROSE_BODY) []
                     (Exact.build_prompt PAGE) PADDED_PROSE
    /\ ~ substring PADDED_PROSE msg.
Proof.
  eexists. split; [vm_compute; reflexivity|]. split; [canned_reply|].
  intro H. apply contains_complete in H. vm_compute in H. discriminate H.
Qed.

(** C5, amended: when [json.loads] fails on the stripped text of the
    model, the run raises [ValueError], and the message of the error ends
    with the text of the model stripped of the whitespace around it. *)
Theorem C5_error_carries_the_stripped_text
        (bp : str -> str) (E : env) (pdf_path pdf_text : str)
        (log : list request) (response : str) (m : json_msg) :
  extract_text_from_pdf E pdf_path = Ok pdf_text ->
  model_replies E log (bp pdf_text) response ->
  json_loads (strip response) = JSONDecodeError m ->
  fst (extract_key_values_from_pdf bp E pdf_path log)
  = Raise (ValueError (PREAMBLE ++ [NL] ++ strip response))
  /\ substring (strip response) (PREAMBLE ++ [NL] ++ strip response).
Proof.
  intros Ht Hr Hm. split.
  - rewrite (pipeline_with_content bp E pdf_path pdf_text log _ Ht Hr). simpl.
    pose proof (parse_response_outcome response) as O. now rewrite Hm in O.
  - exists (PREAMBLE ++ [NL]), []. now rewrite app_nil_r, <- app_assoc.
Qed.

Lemma C5_witness :
  extract_text_from_pdf (canned PAGE PADDED_PROSE_BODY) (py "invoice.pdf")
  = Ok PAGE
  /\ model_replies (canned PAGE PADDED_PROSE_BODY) []
                   (Exact.build_prompt PAGE) PADDED_PROSE
  /\ json_loads (strip PADDED_PROSE) = JSONDecodeError ExpectingValue
  /\ fst (extract_key_values_from_pdf Exact.build_prompt
            (canned PAGE PADDED_PROSE_BODY) (py "invoice.pdf") [])
     = Raise (ValueError (PREAMBLE ++ [NL] ++ strip PADDED_PROSE))
  /\ substring (strip PADDED_PROSE) (PREAMBLE ++ [NL] ++ strip PADDED_PROSE).
Proof.
  assert (extract_text_from_pdf (canned PAGE PADDED_PROSE_BODY)
                                (py "invoice.pdf") = Ok PAGE) as H1
      by (vm_compute; reflexivity).
  assert (model_replies (canned PAGE PADDED_PROSE_BODY) []
                        (Exact.build_prompt PAGE) PADDED_PROSE) as H2
      by canned_reply.
  assert (json_loads (strip PADDED_PROSE) = JSONDecodeError ExpectingValue)
    as H3 by (vm_compute; reflexivity).
  split; [exact H1|]. split; [exact H2|]. split; [exact H3|].
  exact (C5_error_carries_the_stripped_text Exact.build_prompt
           (canned PAGE PADDED_PROSE_BODY) (py "invoice.pdf") PAGE []
           PADDED_PROSE _ H1 H2 H3).
Defined.

(** C10: the parse step takes any JSON value.  When [json.loads] reads a
    value from the stripped text of the model, the run sends its one
    request and returns that value, be it an object or not, and the run
    returns no other value; the run raises the [ValueError] of the parse
    step, with the stripped text after the preamble, exactly when
    [json.loads] raises its [JSONDecodeError] on the stripped text.  An
    array and a bare string are read as the list and the string they
    denote, and a run that is answered with them returns these. *)
Theorem C10_any_json_value_is_accepted
        (bp : str -> str) (E : env) (pdf_path pdf_text : str)
        (log : list request) (response : str) :
  extract_text_from_pdf E pdf_path = Ok pdf_text ->
  model_replies E log (bp pdf_text) response ->
  (forall v,
      json_loads (strip response) = Loaded v ->
      extract_key_values_from_pdf bp E pdf_path log
      = (Ok v, log ++ [{| url := OLLAMA_URL; json := payload (bp pdf_text) |}]))
  /\ (forall v,
        fst (extract_key_values_from_pdf bp E pdf_path log) = Ok v ->
        json_loads (strip response) = Loaded v)
  /\ (fst (extract_key_values_from_pdf bp E pdf_path log)
      = Raise (ValueError (PREAMBLE ++ [NL] ++ strip response))
      <-> exists m, json_loads (strip response) = JSONDecodeError m)
  /\ (response = ARRAY_TEXT ->
      fst (extract_key_values_from_pdf bp E pdf_path log)
      = Ok (PList [PInt 1; PInt 2]))
  /\ (response = BARE_STRING_TEXT ->
      fst (extract_key_values_from_pdf bp E pdf_path log)
      = Ok (PStr (py "INV-001"))).
Proof.
  intros Ht Hr.
  rewrite (pipeline_with_content bp E pdf_path pdf_text log _ Ht Hr).
  cbn [fst]. unfold parse_response, parse_model_text.
  split; [|split; [|split; [|split]]].
  - intros v Hv. now rewrite Hv.
  - intros v. destruct (json_loads (strip response)) as [w|m|];
      intro H; [now injection H as ->|discriminate H|discriminate H].
  - destruct (json_loads (strip response)) as [w|m|]; split.
    + intro H; discriminate H.
    + intros [m H]; discriminate H.
    + intros _. now exists m.
    + reflexivity.
    + intro H; discriminate H.
    + intros [m H]; discriminate H.
  - intros ->. reflexivity.
  - intros ->. reflexivity.
Qed.

Lemma C10_witness :
  extract_text_from_pdf (canned PAGE ARRAY_BODY) (py "invoice.pdf") = Ok PAGE
  /\ model_replies (canned PAGE ARRAY_BODY) [] (Exact.build_prompt PAGE)
                   ARRAY_TEXT
  /\ json_loads (strip ARRAY_TEXT) = Loaded (PList [PInt 1; PInt 2])
  /\ extract_key_values_from_pdf Exact.build_prompt
       (canned PAGE ARRAY_BODY) (py "invoice.pdf") []
     = (Ok (PList [PInt 1; PInt 2]),
        [{| url := OLLAMA_URL; json := payload (Exact.build_prompt PAGE) |}]).
Proof.
  assert (extract_text_from_pdf (canned PAGE ARRAY_BODY) (py "invoice.pdf")
          = Ok PAGE) as H1 by (vm_compute; reflexivity).
  assert (model_replies (canned PAGE ARRAY_BODY) [] (Exact.build_prompt PAGE)
                        ARRAY_TEXT) as H2 by canned_reply.
  assert (json_loads (strip ARRAY_TEXT) = Loaded (PList [PInt 1; PInt 2]))
    as H3 by (vm_compute; reflexivity).
  split; [exact H1|]. split; [exact H2|]. split; [exact H3|].
  exact (proj1 (C10_any_json_value_is_accepted Exact.build_prompt
                  (canned PAGE ARRAY_BODY) (py "invoice.pdf") PAGE []
                  ARRAY_TEXT H1 H2) _ H3).
Defined.

(* ================================================================== *)
(** * Text and the whitespace around it *)
(* ================================================================== *)

(** A text that has a character other than whitespace splits into the
    whitespace [lstrip] removes and what is left, and [lstrip] removes
    the same whitespace when more text follows. *)
Lemma lstrip_has_text (a : str) :
  has_text a = true ->
  exists w c a',
    a = w ++ c :: a' /\ isspace c = false
    /\ forall b, lstrip (a ++ b) = c :: a' ++ b.
Proof.
  induction a as [|d a IH]; simpl; intro H; [discriminate H|].
  destruct (isspace d) eqn:Ed; simpl in H.
  - destruct (IH H) as (w & c & a' & -> & Hc & Hl).
    exists (d :: w), c, a'. split; [reflexivity|]. split; [exact Hc|exact Hl].
  - exists [], d, a. split; [reflexivity|]. split; [exact Ed|].
    intro b. reflexivity.
Qed.

Lemma has_text_rev (a : str) : has_text (rev a) = has_text a.
Proof.
  unfold has_text. induction a as [|c a IH]; [reflexivity|].
  simpl. rewrite existsb_app, IH. simpl. rewrite orb_false_r. apply orb_comm.
Qed.

Lemma rstrip_has_text (b : str) :
  has_text b = true ->
  exists b' c w,
    b = b' ++ c :: w /\ isspace c = false
    /\ forall a, rstrip (a ++ b) = a ++ b' ++ [c].
Proof.
  intro H. rewrite <- has_text_rev in H.
  destruct (lstrip_has_text (rev b) H) as (w & c & a' & E & Hc & Hl).
  exists (rev a'), c, (rev w). split; [|split; [exact Hc|]].
  - rewrite <- (rev_involutive b), E, rev_app_distr. simpl.
    now rewrite <- app_assoc.
  - intro a. unfold rstrip. rewrite rev_app_distr, Hl. simpl.
    rewrite rev_app_distr, rev_involutive. now rewrite <- app_assoc.
Qed.

(* ================================================================== *)
(** * Strings: the decoder reads back what the encoder writes *)
(* ================================================================== *)

Ltac Zify.zify_post_hook ::= Z.to_euclidean_division_equations.

Lemma below_16 (d : N) :
  d < 16 ->
  d = 0 \/ d = 1 \/ d = 2 \/ d = 3 \/ d = 4 \/ d = 5 \/ d = 6 \/ d = 7 \/
  d = 8 \/ d = 9 \/ d = 10 \/ d = 11 \/ d = 12 \/ d = 13 \/ d = 14 \/ d = 15.
Proof. lia. Qed.

Lemma hex_digit_hex_char (d : N) : d < 16 -> hex_digit (hex_char d) = Some d.
Proof.
  intro H. apply below_16 in H.
  repeat (destruct H as [->|H]; [reflexivity|]). now subst.
Qed.

Lemma decode_u_escape (n : N) :
  n < 65536 ->
  decode_uXXXX (hex_char (n / 4096 mod 16)) (hex_char (n / 256 mod 16))
               (hex_char (n / 16 mod 16)) (hex_char (n mod 16)) = Some n.
Proof.
  intro H. unfold decode_uXXXX.
  rewrite !hex_digit_hex_char by (apply N.mod_upper_bound; discriminate).
  f_equal. lia.
Qed.

Lemma scanstring_plain (c : N) (r chunks : list N) :
  (c =? DQUOTE) = false -> (c =? BACKSLASH_CHAR) = false -> (c <? 32) = false ->
  scanstring (c :: r) chunks = scanstring r (c :: chunks).
Proof. intros H1 H2 H3. simpl. now rewrite H1, H2, H3. Qed.

Lemma scanstring_short (esc ch : N) (r chunks : list N) :
  (esc =? 117) = false -> backslash esc = Some ch ->
  scanstring (BACKSLASH_CHAR :: esc :: r) chunks = scanstring r (ch :: chunks).
Proof. intros H1 H2. simpl. now rewrite H1, H2. Qed.

Lemma scanstring_u_single (h1 h2 h3 h4 uni : N) (r chunks : list N) :
  decode_uXXXX h1 h2 h3 h4 = Some uni -> is_high_surrogate uni = false ->
  scanstring (BACKSLASH_CHAR :: 117 :: h1 :: h2 :: h3 :: h4 :: r) chunks
  = scanstring r (uni :: chunks).
Proof. intros H1 H2. simpl. now rewrite H1, H2. Qed.

Lemma scanstring_u_lone (h1 h2 h3 h4 uni : N) (r chunks : list N) :
  decode_uXXXX h1 h2 h3 h4 = Some uni -> is_high_surrogate uni = true ->
  lone r ->
  scanstring (BACKSLASH_CHAR :: 117 :: h1 :: h2 :: h3 :: h4 :: r) chunks
  = scanstring r (uni :: chunks).
Proof.
  intros H1 H2 H3.
  change (scanstring (BACKSLASH_CHAR :: 117 :: h1 :: h2 :: h3 :: h4 :: r) chunks)
    with (match decode_uXXXX h1 h2 h3 h4 with
          | None => DecodeError InvalidUnicodeEscape
          | Some uni =>
            if is_high_surrogate uni then
              match r with
              | b :: r6 =>
                match r6 with
                | u :: r7 =>
                  if (b =? BACKSLASH_CHAR) && (u =? 117) then
                    match r7 with
                    | g1 :: g2 :: g3 :: g4 :: r11 =>
                      match decode_uXXXX g1 g2 g3 g4 with
                      | None => DecodeError InvalidUnicodeEscape
                      | Some uni2 =>
                        if is_low_surrogate uni2
                        then scanstring r11 (join_surrogates uni uni2 :: chunks)
                        else scanstring r (uni :: chunks)
                      end
                    | _ => DecodeError InvalidUnicodeEscape
                    end
                  else scanstring r (uni :: chunks)
                | [] => scanstring r (uni :: chunks)
                end
              | [] => scanstring r (uni :: chunks)
              end
            else scanstring r (uni :: chunks)
          end).
  rewrite H1, H2. unfold lone in H3.
  destruct r as [|b [|u t]]; try reflexivity.
  destruct ((b =? BACKSLASH_CHAR) && (u =? 117)); [|reflexivity].
  destruct t as [|g1 [|g2 [|g3 [|g4 r11]]]]; try contradiction.
  destruct (decode_uXXXX g1 g2 g3 g4); [|contradiction].
  now rewrite H3.
Qed.

Lemma scanstring_u_pair (h1 h2 h3 h4 g1 g2 g3 g4 uni uni2 : N)
      (r chunks : list N) :
  decode_uXXXX h1 h2 h3 h4 = Some uni -> is_high_surrogate uni = true ->
  decode_uXXXX g1 g2 g3 g4 = Some uni2 -> is_low_surrogate uni2 = true ->
  scanstring (BACKSLASH_CHAR :: 117 :: h1 :: h2 :: h3 :: h4
              :: BACKSLASH_CHAR :: 117 :: g1 :: g2 :: g3 :: g4 :: r) chunks
  = scanstring r (join_surrogates uni uni2 :: chunks).
Proof.
  intros H1 H2 H3 H4.
  change (scanstring (BACKSLASH_CHAR :: 117 :: h1 :: h2 :: h3 :: h4
                      :: BACKSLASH_CHAR :: 117 :: g1 :: g2 :: g3 :: g4 :: r)
                     chunks)
    with (match decode_uXXXX h1 h2 h3 h4 with
          | None => DecodeError InvalidUnicodeEscape
          | Some uni =>
            if is_high_surrogate uni then
              match decode_uXXXX g1 g2 g3 g4 with
              | None => DecodeError InvalidUnicodeEscape
              | Some uni2 =>
                if is_low_surrogate uni2
                then scanstring r (join_surrogates uni uni2 :: chunks)
                else scanstring (BACKSLASH_CHAR :: 117 :: g1 :: g2 :: g3 :: g4 :: r)
                                (uni :: chunks)
              end
            else scanstring (BACKSLASH_CHAR :: 117 :: g1 :: g2 :: g3 :: g4 :: r)
                            (uni :: chunks)
          end).
  now rewrite H1, H2, H3, H4.
Qed.

Lemma lor_low10 (x b : N) : b < 1024 -> N.lor (x * 1024) b = x * 1024 + b.
Proof.
  intro Hb.
  assert (N.land (x * 1024) b = 0) as Hland.
  { apply N.bits_inj. intro i. rewrite N.land_spec, N.bits_0.
    destruct (N.lt_ge_cases i 10) as [Hi|Hi].
    - change 1024 with (2 ^ 10). now rewrite N.mul_pow2_bits_low.
    - destruct (N.eq_dec b 0) as [->|Hb0];
        [now rewrite N.bits_0, andb_false_r|].
      rewrite (N.bits_above_log2 b i), andb_false_r; [reflexivity|].
      apply N.log2_lt_pow2; [lia|].
      apply N.lt_le_trans with (2 ^ 10); [exact Hb|].
      now apply N.pow_le_mono_r. }
  now rewrite (N.add_nocarry_lxor _ _ Hland), (N.lxor_lor _ _ Hland).
Qed.

(** The two halves that [escape_char] writes for a code point above the
    basic plane. *)
Lemma surrogates_of (c : N) :
  65536 <= c -> c < 1114112 ->
  let n := c - 65536 in
  let s1 := N.lor 55296 (N.land (N.shiftr n 10) 1023) in
  let s2 := N.lor 56320 (N.land n 1023) in
  s1 < 65536 /\ s2 < 65536
  /\ is_high_surrogate s1 = true /\ is_low_surrogate s2 = true
  /\ join_surrogates s1 s2 = c.
Proof.
  intros Hlo Hhi n s1 s2.
  assert (n < 1048576) as Hn by (unfold n; lia).
  assert (N.land (N.shiftr n 10) 1023 = n / 1024) as E1.
  { change 1023 with (N.ones 10). rewrite N.land_ones, N.shiftr_div_pow2.
    change (2 ^ 10) with 1024. apply N.mod_small. lia. }
  assert (N.land n 1023 = n mod 1024) as E2.
  { change 1023 with (N.ones 10). now rewrite N.land_ones. }
  assert (s1 = 55296 + n / 1024) as Es1.
  { unfold s1. rewrite E1. change 55296 with (54 * 1024).
    apply lor_low10. lia. }
  assert (s2 = 56320 + n mod 1024) as Es2.
  { unfold s2. rewrite E2. change 56320 with (55 * 1024).
    apply lor_low10. lia. }
  assert (n / 1024 < 1024) as Hq by lia.
  assert (n mod 1024 < 1024) as Hr by lia.
  split; [lia|]. split; [lia|].
  split; [unfold is_high_surrogate; apply andb_true_intro; split;
          apply N.leb_le; lia|].
  split; [unfold is_low_surrogate; apply andb_true_intro; split;
          apply N.leb_le; lia|].
  unfold join_surrogates. rewrite Es1, Es2.
  replace (55296 + n / 1024 - 55296) with (n / 1024) by lia.
  replace (56320 + n mod 1024 - 56320) with (n mod 1024) by lia.
  rewrite N.shiftl_mul_pow2. change (2 ^ 10) with 1024.
  rewrite lor_low10 by exact Hr. unfold n in *. lia.
Qed.

Lemma u_escape_cons (n : N) (t : list N) :
  u_escape n ++ t
  = BACKSLASH_CHAR :: 117 :: hex_char (n / 4096 mod 16)
      :: hex_char (n / 256 mod 16) :: hex_char (n / 16 mod 16)
      :: hex_char (n mod 16) :: t.
Proof. reflexivity. Qed.

(** One character: the decoder reads the escape of [c] as [c]. *)
Lemma scanstring_escape_char (c : N) (t chunks : list N) :
  code_point c = true ->
  (is_high_surrogate c = true -> lone t) ->
  scanstring (escape_char c ++ t) chunks = scanstring t (c :: chunks).
Proof.
  intros Hc Hlone. unfold escape_char.
  destruct (c =? 34) eqn:E34;
    [apply N.eqb_eq in E34; subst c; reflexivity|].
  destruct (c =? 92) eqn:E92;
    [apply N.eqb_eq in E92; subst c; reflexivity|].
  destruct (c =? 10) eqn:E10;
    [apply N.eqb_eq in E10; subst c; reflexivity|].
  destruct (c =? 13) eqn:E13;
    [apply N.eqb_eq in E13; subst c; reflexivity|].
  destruct (c =? 9) eqn:E9;
    [apply N.eqb_eq in E9; subst c; reflexivity|].
  destruct (c =? 8) eqn:E8;
    [apply N.eqb_eq in E8; subst c; reflexivity|].
  destruct (c =? 12) eqn:E12;
    [apply N.eqb_eq in E12; subst c; reflexivity|].
  destruct ((32 <=? c) && (c <=? 126)) eqn:Eplain.
  { apply andb_prop in Eplain. destruct Eplain as [Hlo _].
    apply N.leb_le in Hlo.
    apply scanstring_plain; [exact E34|exact E92|apply N.ltb_ge; exact Hlo]. }
  destruct (c <? 65536) eqn:Ebmp.
  { apply N.ltb_lt in Ebmp. rewrite u_escape_cons.
    destruct (is_high_surrogate c) eqn:Eh.
    - apply scanstring_u_lone;
        [now apply decode_u_escape|exact Eh|now apply Hlone].
    - apply scanstring_u_single; [now apply decode_u_escape|exact Eh]. }
  apply N.ltb_ge in Ebmp. apply N.ltb_lt in Hc.
  destruct (surrogates_of c Ebmp Hc) as (H1 & H2 & Hh & Hl & Hj).
  cbv zeta.
  set (s1 := N.lor 55296 _) in *. set (s2 := N.lor 56320 _) in *.
  rewrite <- app_assoc, !u_escape_cons.
  transitivity (scanstring t (join_surrogates s1 s2 :: chunks));
    [|now rewrite Hj].
  apply scanstring_u_pair;
    [now apply decode_u_escape|exact Hh|now apply decode_u_escape|exact Hl].
Qed.

Lemma lone_escaped (s rest : list N) :
  py_str s = true ->
  match s with d :: _ => is_low_surrogate d = false | [] => True end ->
  lone (flat_map escape_char s ++ DQUOTE :: rest).
Proof.
  intros Hs Hd. destruct s as [|d s'].
  - simpl. destruct rest; exact I.
  - simpl in Hs. apply andb_prop in Hs. destruct Hs as [Hc _].
    simpl flat_map. rewrite <- app_assoc.
    set (t := flat_map escape_char s' ++ DQUOTE :: rest).
    unfold escape_char.
    destruct (d =? 34); [exact I|]. destruct (d =? 92) eqn:E92; [exact I|].
    destruct (d =? 10); [exact I|]. destruct (d =? 13); [exact I|].
    destruct (d =? 9); [exact I|]. destruct (d =? 8); [exact I|].
    destruct (d =? 12); [exact I|].
    destruct ((32 <=? d) && (d <=? 126)).
    { simpl. destruct t; [exact I|].
      unfold BACKSLASH_CHAR. now rewrite E92. }
    destruct (d <? 65536) eqn:Ebmp.
    { apply N.ltb_lt in Ebmp. rewrite u_escape_cons. unfold lone.
      change ((BACKSLASH_CHAR =? BACKSLASH_CHAR) && (117 =? 117)) with true.
      cbv iota. now rewrite decode_u_escape. }
    apply N.ltb_ge in Ebmp. apply N.ltb_lt in Hc.
    destruct (surrogates_of d Ebmp Hc) as (H1 & _ & Hh & _).
    cbv zeta. set (s1 := N.lor 55296 _) in *. set (s2 := N.lor 56320 _) in *.
    rewrite <- app_assoc, u_escape_cons. unfold lone.
    change ((BACKSLASH_CHAR =? BACKSLASH_CHAR) && (117 =? 117)) with true.
    cbv iota. rewrite decode_u_escape by exact H1.
    unfold is_high_surrogate in Hh. unfold is_low_surrogate.
    apply andb_prop in Hh. destruct Hh as [_ Hh]. apply N.leb_le in Hh.
    apply andb_false_intro1. apply N.leb_gt. lia.
Qed.

(** [scanstring] reads the body of an encoded string back. *)
Lemma scanstring_escaped (s : list N) :
  forall chunks rest,
    py_str s = true -> unpaired s = true ->
    scanstring (flat_map escape_char s ++ DQUOTE :: rest) chunks
    = Done (rev chunks ++ s, rest).
Proof.
  induction s as [|c s IH]; intros chunks rest Hs Hu.
  - simpl. now rewrite app_nil_r.
  - simpl in Hs, Hu. apply andb_prop in Hs. destruct Hs as [Hc Hs].
    apply andb_prop in Hu. destruct Hu as [Hp Hu].
    simpl flat_map. rewrite <- app_assoc.
    rewrite scanstring_escape_char.
    + rewrite (IH _ _ Hs Hu). simpl. now rewrite <- app_assoc.
    + exact Hc.
    + intro Hh. rewrite Hh in Hp. simpl in Hp.
      apply lone_escaped; [exact Hs|].
      destruct s as [|d s']; [exact I|].
      now apply negb_true_iff in Hp.
Qed.

Lemma scan_once_string (fuel : nat) (s rest : list N) :
  py_str s = true -> unpaired s = true ->
  scan_once (S fuel) (encode_basestring_ascii s ++ rest) = Done (PStr s, rest).
Proof.
  intros Hs Hu. unfold encode_basestring_ascii.
  change (scan_once (S fuel) ((DQUOTE :: flat_map escape_char s ++ [DQUOTE]) ++ rest))
    with (match scanstring ((flat_map escape_char s ++ [DQUOTE]) ++ rest) [] with
          | Done (x, r) => Done (PStr x, r)
          | StopIteration => StopIteration
          | DecodeError m => DecodeError m
          | OutOfFuel => OutOfFuel
          end).
  rewrite <- app_assoc. simpl app. now rewrite scanstring_escaped.
Qed.

(* ================================================================== *)
(** * Numbers: the decoder reads back what the encoder writes *)
(* ================================================================== *)

Lemma digits_value_snoc (ds : list N) (d : N) :
  digits_value (ds ++ [d]) = digits_value ds * 10 + (d - 48).
Proof. unfold digits_value. now rewrite fold_left_app. Qed.

Lemma digits_of_spec (fuel : nat) :
  forall n acc,
    n < 2 ^ N.of_nat fuel -> (0 < fuel)%nat ->
    exists c ds,
      digits_of fuel n acc = (c :: ds) ++ acc
      /\ forallb is_digit (c :: ds) = true
      /\ digits_value (c :: ds) = n
      /\ (c =? 48) = (n =? 0)
      /\ (n = 0 -> ds = []).
Proof.
  induction fuel as [|fuel IH]; intros n acc Hn Hf; [lia|].
  cbn [digits_of]. destruct (n <? 10) eqn:E.
  - apply N.ltb_lt in E. exists (48 + n), [].
    split; [reflexivity|]. split.
    { cbn [forallb]. rewrite andb_true_r. unfold is_digit.
      apply andb_true_intro. split; apply N.leb_le; lia. }
    split; [unfold digits_value; cbn [fold_left]; lia|].
    split; [|reflexivity].
    destruct (N.eqb_spec n 0) as [->|Hn0]; [reflexivity|].
    apply N.eqb_neq. lia.
  - apply N.ltb_ge in E.
    rewrite Nat2N.inj_succ, N.pow_succ_r' in Hn.
    assert (n / 10 < 2 ^ N.of_nat fuel) as Hq by lia.
    assert (0 < fuel)%nat as Hf'.
    { destruct fuel; [change (2 ^ N.of_nat 0) with 1 in Hn; lia|lia]. }
    destruct (IH (n / 10) ((48 + n mod 10) :: acc) Hq Hf')
      as (c & ds & Hd & Hall & Hval & Hhead & _).
    exists c, (ds ++ [48 + n mod 10]).
    split; [rewrite Hd; cbn [app]; now rewrite <- app_assoc|].
    split.
    { change (c :: ds ++ [48 + n mod 10]) with ((c :: ds) ++ [48 + n mod 10]).
      rewrite forallb_app, Hall. cbn [forallb andb]. rewrite andb_true_r.
      unfold is_digit. apply andb_true_intro. split; apply N.leb_le; lia. }
    split.
    { change (c :: ds ++ [48 + n mod 10]) with ((c :: ds) ++ [48 + n mod 10]).
      rewrite digits_value_snoc, Hval. lia. }
    split; [|intro; lia].
    rewrite Hhead.
    destruct (N.eqb_spec (n / 10) 0) as [H0|H0]; [lia|].
    symmetry. apply N.eqb_neq. lia.
Qed.

Lemma span_digits_all (ds t : list N) :
  forallb is_digit ds = true ->
  match t with c :: _ => is_digit c = false | [] => True end ->
  span_digits (ds ++ t) = (ds, t).
Proof.
  intros Hds Ht. induction ds as [|d ds IH].
  - destruct t as [|c t']; [reflexivity|]. simpl. now rewrite Ht.
  - simpl in Hds. apply andb_prop in Hds. destruct Hds as [Hd Hds].
    simpl. rewrite Hd, (IH Hds). reflexivity.
Qed.

Lemma match_exp_text (exp : option (bool * list N)) (rest : list N) :
  match exp with Some (_, eds) => all_digits eds | None => true end = true ->
  stops rest = true ->
  match_exp (exp_text exp ++ rest) = (exp, rest).
Proof.
  intros Hexp Hrest.
  assert (match rest with c :: _ => is_digit c = false | [] => True end) as Hd.
  { destruct rest as [|c t]; [exact I|]. simpl in Hrest.
    destruct (is_digit c); [discriminate Hrest|reflexivity]. }
  destruct exp as [[eneg eds]|].
  - unfold all_digits in Hexp. apply andb_prop in Hexp.
    destruct Hexp as [Hne Hall].
    unfold match_exp. simpl exp_text. simpl app.
    change ((101 =? 101) || (101 =? 69)) with true. cbv iota.
    destruct eneg.
    + change (45 =? 45) with true. cbv iota.
      rewrite (span_digits_all eds rest Hall Hd).
      destruct eds; [discriminate Hne|reflexivity].
    + change (43 =? 45) with false. change (43 =? 43) with true. cbv iota.
      rewrite (span_digits_all eds rest Hall Hd).
      destruct eds; [discriminate Hne|reflexivity].
  - simpl. destruct rest as [|c t]; [reflexivity|].
    unfold match_exp. simpl in Hrest.
    destruct (c =? 101); [now rewrite !andb_false_r in Hrest|].
    destruct (c =? 69); [now rewrite !andb_false_r in Hrest|].
    reflexivity.
Qed.

Lemma match_frac_text (frac : option (list N)) (t : list N) :
  match frac with Some fs => all_digits fs | None => true end = true ->
  match t with
  | c :: _ => is_digit c = false /\ (c =? 46) = false
  | [] => True
  end ->
  match_frac (frac_text frac ++ t) = (frac, t).
Proof.
  intros Hfrac Ht.
  destruct frac as [fs|].
  - unfold all_digits in Hfrac. apply andb_prop in Hfrac.
    destruct Hfrac as [Hne Hall].
    unfold match_frac. simpl frac_text. simpl app.
    change (46 =? 46) with true. cbv iota.
    rewrite (span_digits_all fs t Hall).
    + destruct fs; [discriminate Hne|reflexivity].
    + destruct t; [exact I|apply Ht].
  - simpl. destruct t as [|c t']; [reflexivity|].
    unfold match_frac. destruct Ht as [_ Ht]. now rewrite Ht.
Qed.

(** [NUMBER_RE] matches the text of a number and returns its groups. *)
Lemma match_number_render (m : number_match) (rest : list N) :
  int_literal (num_int m) = true ->
  match num_frac m with Some fs => all_digits fs | None => true end = true ->
  match num_exp m with Some (_, eds) => all_digits eds | None => true end = true ->
  stops rest = true ->
  match_number (render_number m ++ rest) = Some (m, rest).
Proof.
  destruct m as [neg ds frac exp]. simpl. intros Hint Hfrac Hexp Hrest.
  fold (frac_text frac). fold (exp_text exp).
  set (t2 := exp_text exp ++ rest).
  set (t1 := frac_text frac ++ t2).
  assert (match t2 with
          | c :: _ => is_digit c = false /\ (c =? 46) = false
          | [] => True
          end) as Ht2.
  { unfold t2. destruct exp as [[eneg eds]|].
    - simpl. split; reflexivity.
    - simpl. destruct rest as [|c t]; [exact I|]. simpl in Hrest.
      destruct (is_digit c); [discriminate Hrest|].
      destruct (c =? 46); [discriminate Hrest|]. split; reflexivity. }
  assert (match t1 with c :: _ => is_digit c = false | [] => True end) as Ht1.
  { unfold t1. destruct frac as [fs|]; [reflexivity|].
    simpl. destruct t2; [exact I|apply Ht2]. }
  assert (((if neg then [45] else []) ++ ds ++ frac_text frac ++ exp_text exp)
            ++ rest
          = (if neg then [45] else []) ++ ds ++ t1) as E.
  { unfold t1, t2. now rewrite <- !app_assoc. }
  unfold render_number. cbn [num_neg num_int num_frac num_exp].
  fold (frac_text frac). fold (exp_text exp). rewrite E. clear E.
  destruct ds as [|c r]; [discriminate Hint|].
  assert (is_digit c = true) as Hc.
  { simpl in Hint. destruct (c =? 48) eqn:E48.
    - apply N.eqb_eq in E48. now subst c.
    - now apply andb_prop in Hint. }
  assert ((c =? 45) = false) as Hc45.
  { unfold is_digit in Hc. apply andb_prop in Hc. destruct Hc as [Hc _].
    apply N.leb_le in Hc. apply N.eqb_neq. lia. }
  assert (match_number ((if neg then [45] else []) ++ (c :: r) ++ t1)
          = (let after_int :=
                 if c =? 48 then Some ([c], r ++ t1)
                 else if is_digit c
                      then let (ds, t) := span_digits (r ++ t1) in
                           Some (c :: ds, t)
                      else None in
             match after_int with
             | None => None
             | Some (int_digits, s2) =>
               let (frac, s3) := match_frac s2 in
               let (exp, s4) := match_exp s3 in
               Some ({| num_neg := neg; num_int := int_digits;
                        num_frac := frac; num_exp := exp |}, s4)
             end)) as E.
  { destruct neg; unfold match_number; simpl app.
    - reflexivity.
    - cbv beta iota. now rewrite Hc45. }
  rewrite E. clear E. cbv zeta. simpl in Hint.
  destruct (c =? 48) eqn:E48.
  - destruct r; [|discriminate Hint]. simpl app.
    unfold t1. rewrite (match_frac_text frac t2 Hfrac Ht2).
    unfold t2. now rewrite (match_exp_text exp rest Hexp Hrest).
  - rewrite Hc. apply andb_prop in Hint. destruct Hint as [_ Hr].
    rewrite (span_digits_all r t1 Hr Ht1).
    unfold t1. rewrite (match_frac_text frac t2 Hfrac Ht2).
    unfold t2. now rewrite (match_exp_text exp rest Hexp Hrest).
Qed.

Lemma render_head (m : number_match) :
  int_literal (num_int m) = true ->
  exists c t, render_number m = c :: t /\ ((c =? 45) || is_digit c) = true.
Proof.
  destruct m as [neg ds frac exp]. unfold render_number.
  cbn [num_neg num_int num_frac num_exp]. intro Hint.
  destruct neg.
  - eexists _, _. split; [reflexivity|reflexivity].
  - destruct ds as [|c r]; [discriminate Hint|].
    eexists _, _. split; [reflexivity|].
    cbn [int_literal] in Hint. destruct (c =? 48) eqn:E.
    + apply N.eqb_eq in E. now subst c.
    + apply andb_prop in Hint. destruct Hint as [Hc _]. rewrite Hc.
      apply orb_true_r.
Qed.

Lemma number_head_bound (c : N) : ((c =? 45) || is_digit c) = true -> c <= 57.
Proof.
  intro H. apply orb_prop in H. destruct H as [H|H].
  - apply N.eqb_eq in H. lia.
  - unfold is_digit in H. apply andb_prop in H. destruct H as [_ H].
    now apply N.leb_le in H.
Qed.

(** A text that starts like a number reaches the number branch of the
    scanner. *)
Lemma scan_once_number (fuel : nat) (c : N) (t : list N)
      (m : number_match) (r : list N) :
  ((c =? 45) || is_digit c) = true ->
  match_number (c :: t) = Some (m, r) ->
  scan_once (S fuel) (c :: t)
  = match num_frac m, num_exp m with
    | None, None => Done (PInt (parse_int (num_neg m) (num_int m)), r)
    | frac, exp =>
      Done (PFloat (parse_float (num_neg m) (num_int m) frac exp), r)
    end.
Proof.
  intros Hc Hm. apply number_head_bound in Hc.
  assert ((c =? DQUOTE) = false) as E1.
  { apply N.eqb_neq. intro E. subst c.
    destruct t; cbv in Hm; discriminate Hm. }
  assert ((c =? 123) = false) as E2 by (apply N.eqb_neq; lia).
  assert ((c =? 91) = false) as E3 by (apply N.eqb_neq; lia).
  assert ((110 =? c) = false) as E4 by (apply N.eqb_neq; lia).
  assert ((116 =? c) = false) as E5 by (apply N.eqb_neq; lia).
  assert ((102 =? c) = false) as E6 by (apply N.eqb_neq; lia).
  cbn [scan_once]. rewrite E1, E2, E3. unfold scan_atom.
  change (py "null") with [110; 117; 108; 108].
  change (py "true") with [116; 114; 117; 101].
  change (py "false") with [102; 97; 108; 115; 101].
  cbn [expect]. rewrite E4, E5, E6, Hm. reflexivity.
Qed.

Lemma scan_once_render (fuel : nat) (m : number_match) (rest : list N) :
  int_literal (num_int m) = true ->
  match num_frac m with Some fs => all_digits fs | None => true end = true ->
  match num_exp m with Some (_, eds) => all_digits eds | None => true end = true ->
  stops rest = true ->
  scan_once (S fuel) (render_number m ++ rest)
  = match num_frac m, num_exp m with
    | None, None => Done (PInt (parse_int (num_neg m) (num_int m)), rest)
    | frac, exp =>
      Done (PFloat (parse_float (num_neg m) (num_int m) frac exp), rest)
    end.
Proof.
  intros Hint Hfrac Hexp Hrest.
  pose proof (match_number_render m rest Hint Hfrac Hexp Hrest) as Hm.
  destruct (render_head m Hint) as (c & t & E & Hc).
  rewrite E in *. now apply scan_once_number.
Qed.

Lemma int_repr_render (z : Z) :
  exists ds,
    int_repr z = render_number {| num_neg := (z <? 0)%Z; num_int := ds;
                                  num_frac := None; num_exp := None |}
    /\ int_literal ds = true
    /\ parse_int (z <? 0)%Z ds = z.
Proof.
  unfold int_repr.
  destruct (digits_of_spec (S (N.to_nat (N.size (Z.abs_N z)))) (Z.abs_N z) [])
    as (c & ds & Hd & Hall & Hval & Hhead & Hzero).
  { apply N.lt_le_trans with (2 ^ N.size (Z.abs_N z)); [apply N.size_gt|].
    apply N.pow_le_mono_r; [discriminate|]. lia. }
  { lia. }
  rewrite Hd, app_nil_r. exists (c :: ds). split; [|split].
  - unfold render_number. cbn [num_neg num_int num_frac num_exp].
    rewrite !app_nil_r. now destruct (z <? 0)%Z.
  - cbn [int_literal]. rewrite Hhead.
    destruct (N.eqb_spec (Z.abs_N z) 0) as [E|E].
    + now rewrite (Hzero E).
    + cbn [forallb] in Hall. exact Hall.
  - unfold parse_int. rewrite Hval, N2Z.inj_abs_N.
    destruct (Z.ltb_spec z 0); lia.
Qed.

Lemma scan_once_int (fuel : nat) (z : Z) (rest : list N) :
  stops rest = true ->
  scan_once (S fuel) (int_repr z ++ rest) = Done (PInt z, rest).
Proof.
  intro Hrest. destruct (int_repr_render z) as (ds & -> & Hint & Hz).
  rewrite scan_once_render; try assumption; try reflexivity.
  cbn [num_frac num_exp num_neg num_int]. now rewrite Hz.
Qed.

Lemma scan_once_float (float_repr : spec_float -> list N) (fuel : nat)
      (f : spec_float) (rest : list N) :
  reads_back float_repr f -> stops rest = true ->
  scan_once (S fuel) (float_repr f ++ rest) = Done (PFloat f, rest).
Proof.
  intros (m & -> & Hlit & Hf) Hrest. unfold float_literal in Hlit.
  apply andb_prop in Hlit. destruct Hlit as [Hlit Hsome].
  apply andb_prop in Hlit. destruct Hlit as [Hlit Hexp].
  apply andb_prop in Hlit. destruct Hlit as [Hint Hfrac].
  rewrite scan_once_render; try assumption.
  destruct m as [neg ds frac exp].
  cbn [num_neg num_int num_frac num_exp] in *.
  destruct frac, exp; try discriminate Hsome; now rewrite Hf.
Qed.

Lemma scan_once_constants (fuel : nat) (rest : list N) :
  scan_once (S fuel) (py "null" ++ rest) = Done (PNone, rest)
  /\ scan_once (S fuel) (py "true" ++ rest) = Done (PBool true, rest)
  /\ scan_once (S fuel) (py "false" ++ rest) = Done (PBool false, rest)
  /\ scan_once (S fuel) (py "NaN" ++ rest) = Done (PFloat S754_nan, rest)
  /\ scan_once (S fuel) (py "Infinity" ++ rest)
     = Done (PFloat (S754_infinity false), rest)
  /\ scan_once (S fuel) (py "-Infinity" ++ rest)
     = Done (PFloat (S754_infinity true), rest).
Proof.
  change (py "null") with [110; 117; 108; 108].
  change (py "true") with [116; 114; 117; 101].
  change (py "false") with [102; 97; 108; 115; 101].
  change (py "NaN") with [78; 97; 78].
  change (py "Infinity") with [73; 110; 102; 105; 110; 105; 116; 121].
  change (py "-Infinity") with [45; 73; 110; 102; 105; 110; 105; 116; 121].
  repeat split; reflexivity.
Qed.

(* ================================================================== *)
(** * Values: the decoder reads back what the encoder writes *)
(* ================================================================== *)

(** Induction on values, with the hypothesis for the elements of a list
    and for the values of a dict. *)
Lemma pyval_induction (P : pyval -> Prop) :
  P PNone ->
  (forall b, P (PBool b)) ->
  (forall z, P (PInt z)) ->
  (forall f, P (PFloat f)) ->
  (forall s, P (PStr s)) ->
  (forall l, Forall P l -> P (PList l)) ->
  (forall d, Forall (fun kv => P (snd kv)) d -> P (PDict d)) ->
  forall v, P v.
Proof.
  intros HN HB HI HF HS HL HD.
  fix IH 1. intros [| b | z | f | s | l | d].
  - exact HN.
  - apply HB.
  - apply HI.
  - apply HF.
  - apply HS.
  - apply HL. induction l as [|x l IHl]; constructor; [apply IH|exact IHl].
  - apply HD. induction d as [|[k x] d IHd]; constructor; [apply IH|exact IHd].
Qed.

Lemma value_head_cases (c : N) :
  value_head c = true ->
  (48 <= c /\ c <= 57)
  \/ c = 34 \/ c = 123 \/ c = 91 \/ c = 110 \/ c = 116 \/ c = 102
  \/ c = 78 \/ c = 73 \/ c = 45.
Proof.
  unfold value_head, is_digit. intro H.
  repeat (apply orb_prop in H; destruct H as [H|H]);
    try (apply N.eqb_eq in H; tauto).
  apply andb_prop in H. destruct H as [H1 H2].
  apply N.leb_le in H1. apply N.leb_le in H2. left. lia.
Qed.

Ltac head_cases H :=
  apply value_head_cases in H;
  destruct H as [[? ?]|H];
  [|repeat (destruct H as [->|H]; [reflexivity|]); subst; reflexivity].

Lemma value_head_not_space (c : N) : value_head c = true -> isspace c = false.
Proof.
  intro H. head_cases H. unfold isspace.
  repeat match goal with
         | |- context [?a <=? ?b] =>
           first [ rewrite (proj2 (N.leb_le a b)) by lia
                 | rewrite (proj2 (N.leb_gt a b)) by lia ]
         | |- context [?a =? ?b] => rewrite (proj2 (N.eqb_neq a b)) by lia
         end.
  reflexivity.
Qed.

Lemma value_head_not_ws (c : N) : value_head c = true -> is_ws c = false.
Proof.
  intro H. head_cases H. unfold is_ws.
  repeat match goal with
         | |- context [?a =? ?b] => rewrite (proj2 (N.eqb_neq a b)) by lia
         end.
  reflexivity.
Qed.

Lemma value_head_not_closing (c : N) :
  value_head c = true ->
  (c =? 93) = false /\ (c =? 125) = false /\ (65279 =? c) = false.
Proof.
  intro H. apply value_head_cases in H.
  assert (c < 93 \/ (93 < c /\ c < 125)) as Hc
      by (destruct H as [[? ?]|H]; [lia|];
          repeat (destruct H as [->|H]; [lia|]); lia).
  repeat split; apply N.eqb_neq; lia.
Qed.

Lemma skip_ws_head (c : N) (t : list N) :
  value_head c = true -> skip_ws (c :: t) = c :: t.
Proof. intro H. simpl. now rewrite (value_head_not_ws c H). Qed.

Lemma join_cons2 (sep p q : list N) (rest : list (list N)) :
  join sep (p :: q :: rest) = p ++ sep ++ join sep (q :: rest).
Proof. reflexivity. Qed.

Lemma join_length_in (sep : list N) (parts : list (list N)) (p : list N) :
  In p parts -> (length p <= length (join sep parts))%nat.
Proof.
  induction parts as [|a [|b rest] IH]; intro H.
  - destruct H.
  - destruct H as [->|[]]. simpl. lia.
  - rewrite join_cons2, !length_app. destruct H as [->|H]; [lia|].
    specialize (IH H). lia.
Qed.

Lemma join_length_count (sep : list N) (parts : list (list N)) :
  (forall p, In p parts -> p <> []) ->
  (length parts <= length (join sep parts))%nat.
Proof.
  induction parts as [|a [|b rest] IH]; intro H.
  - simpl. lia.
  - simpl. destruct a; [now elim (H [] (or_introl eq_refl))|simpl; lia].
  - rewrite join_cons2, !length_app.
    assert (a <> []) as Ha by (apply H; now left).
    assert (length (b :: rest) <= length (join sep (b :: rest)))%nat as Hr
        by (apply IH; intros p Hp; apply H; now right).
    destruct a; [contradiction|]. simpl in *. lia.
Qed.

(** [dict(pairs)] is the list of pairs itself when the keys differ. *)
Lemma dict_set_fresh (d : list (list N * pyval)) (k : list N) (v : pyval) :
  existsb (str_eqb k) (keys d) = false -> dict_set d k v = d ++ [(k, v)].
Proof.
  induction d as [|[k' v'] d IH]; intro H; [reflexivity|].
  simpl in H. apply orb_false_elim in H. destruct H as [H1 H2].
  simpl. rewrite H1. f_equal. now apply IH.
Qed.

Lemma existsb_str_eqb_app (k : list N) (ks : list (list N)) (k' : list N) :
  existsb (str_eqb k') (ks ++ [k]) = existsb (str_eqb k') ks || str_eqb k' k.
Proof. rewrite existsb_app. simpl. now rewrite orb_false_r. Qed.

Lemma str_eqb_sym (a b : list N) : str_eqb a b = str_eqb b a.
Proof.
  destruct (str_eqb a b) eqn:E; symmetry.
  - apply str_eqb_eq in E. subst. apply str_eqb_refl.
  - apply str_eqb_neq. apply str_eqb_neq in E. congruence.
Qed.

Lemma distinct_app_fresh (acc : list (list N)) (k : list N) (ks : list (list N)) :
  distinct (acc ++ k :: ks) = true ->
  existsb (str_eqb k) acc = false /\ distinct ((acc ++ [k]) ++ ks) = true.
Proof.
  intro H. split; [|now rewrite <- app_assoc].
  induction acc as [|a acc IH]; [reflexivity|].
  simpl in H. apply andb_prop in H. destruct H as [Ha H].
  simpl. rewrite (IH H), orb_false_r.
  apply negb_true_iff in Ha. rewrite existsb_app in Ha.
  apply orb_false_elim in Ha. destruct Ha as [_ Ha]. simpl in Ha.
  apply orb_false_elim in Ha. destruct Ha as [Ha _].
  now rewrite str_eqb_sym.
Qed.

Lemma dict_fold_distinct (pairs acc : list (list N * pyval)) :
  distinct (keys (acc ++ pairs)) = true ->
  fold_left (fun d kv => dict_set d (fst kv) (snd kv)) pairs acc = acc ++ pairs.
Proof.
  revert acc. induction pairs as [|[k v] pairs IH]; intros acc H.
  - simpl. now rewrite app_nil_r.
  - unfold keys in H. rewrite map_app in H. simpl in H.
    apply distinct_app_fresh in H. destruct H as [Hk H].
    simpl. rewrite dict_set_fresh by exact Hk.
    rewrite IH.
    + now rewrite <- app_assoc.
    + unfold keys. rewrite !map_app. simpl. exact H.
Qed.

Lemma dict_distinct (pairs : list (list N * pyval)) :
  distinct (keys pairs) = true -> dict pairs = pairs.
Proof. intro H. unfold dict. now rewrite dict_fold_distinct. Qed.

Lemma delim_stops (rest : list N) : delim rest = true -> stops rest = true.
Proof.
  destruct rest as [|c t]; [reflexivity|]. simpl. intro H.
  repeat (apply orb_prop in H; destruct H as [H|H]);
    apply N.eqb_eq in H; subst c; reflexivity.
Qed.

Section RoundTrip.

Variable float_repr : spec_float -> list N.

Local Abbreviation dumps := (json_dumps float_repr).

Lemma dumpable_list (l : list pyval) :
  dumpable float_repr (PList l) -> Forall (dumpable float_repr) l.
Proof.
  intros (Hs & Hk & Hf). apply Forall_forall. intros x Hx.
  unfold strings_all, keys_distinct in *. cbn [value_all on_str andb] in Hs, Hk.
  rewrite forallb_forall in Hs, Hk.
  split; [now apply Hs|]. split; [now apply Hk|].
  intros f Hin. apply Hf. cbn [finite_floats]. apply in_flat_map. now exists x.
Qed.

Lemma dumpable_dict (d : list (list N * pyval)) :
  dumpable float_repr (PDict d) ->
  distinct (keys d) = true
  /\ Forall (fun kv => plain_str (fst kv) = true
                       /\ dumpable float_repr (snd kv)) d.
Proof.
  intros (Hs & Hk & Hf).
  unfold strings_all, keys_distinct in *. cbn [value_all on_str andb] in Hs, Hk.
  apply andb_prop in Hk. destruct Hk as [Hd Hk]. split; [exact Hd|].
  rewrite forallb_forall in Hs, Hk.
  apply Forall_forall. intros kv Hin.
  specialize (Hs kv Hin). specialize (Hk kv Hin).
  apply andb_prop in Hs. destruct Hs as [Hs1 Hs2]. cbn [andb] in Hk.
  split; [exact Hs1|]. split; [exact Hs2|]. split; [exact Hk|].
  intros f Hf'. apply Hf. cbn [finite_floats]. apply in_flat_map. now exists kv.
Qed.

(** The text of a value starts with a character no whitespace is. *)
Lemma dumps_head (v : pyval) :
  dumpable float_repr v ->
  exists c t, dumps v = c :: t /\ value_head c = true.
Proof.
  intros (Hs & Hk & Hf). destruct v as [| [|] | z | f | s | l | d].
  - exists 110, [117; 108; 108]. now split.
  - exists 116, [114; 117; 101]. now split.
  - exists 102, [97; 108; 115; 101]. now split.
  - cbn [json_dumps]. destruct (int_repr_render z) as (ds & -> & Hint & _).
    destruct (render_head {| num_neg := (z <? 0)%Z; num_int := ds;
                             num_frac := None; num_exp := None |} Hint)
      as (c & t & -> & Hc).
    exists c, t. split; [reflexivity|]. unfold value_head.
    apply orb_prop in Hc. destruct Hc as [Hc|Hc]; rewrite Hc;
      now rewrite ?orb_true_r.
  - destruct f as [s | [|] | | s m e].
    + destruct (Hf (S754_zero s)) as (m & Hr & Hlit & _); [now left|].
      unfold float_literal in Hlit. rewrite <- !andb_assoc in Hlit.
      apply andb_prop in Hlit. destruct Hlit as [Hint _].
      destruct (render_head m Hint) as (c & t & E & Hc).
      exists c, t. cbn [json_dumps floatstr]. rewrite Hr.
      split; [exact E|]. unfold value_head.
      apply orb_prop in Hc. destruct Hc as [Hc|Hc]; rewrite Hc;
        now rewrite ?orb_true_r.
    + exists 45, [73; 110; 102; 105; 110; 105; 116; 121]. now split.
    + exists 73, [110; 102; 105; 110; 105; 116; 121]. now split.
    + exists 78, [97; 78]. now split.
    + destruct (Hf (S754_finite s m e)) as (m' & Hr & Hlit & _); [now left|].
      unfold float_literal in Hlit. rewrite <- !andb_assoc in Hlit.
      apply andb_prop in Hlit. destruct Hlit as [Hint _].
      destruct (render_head m' Hint) as (c & t & E & Hc).
      exists c, t. cbn [json_dumps floatstr]. rewrite Hr.
      split; [exact E|]. unfold value_head.
      apply orb_prop in Hc. destruct Hc as [Hc|Hc]; rewrite Hc;
        now rewrite ?orb_true_r.
  - eexists _, _. cbn [json_dumps]. unfold encode_basestring_ascii.
    split; reflexivity.
  - eexists _, _. cbn [json_dumps]. split; reflexivity.
  - eexists _, _. cbn [json_dumps]. split; reflexivity.
Qed.

Lemma dumps_nonempty (v : pyval) : dumpable float_repr v -> dumps v <> [].
Proof. intro H. destruct (dumps_head v H) as (c & t & -> & _). discriminate. Qed.

(** The loop of [JSONArray] on the text of the elements. *)
Lemma array_loop_dumps (scan : list N -> scan (pyval * list N)) (rest : list N) :
  forall l values n,
    l <> [] -> (length l <= n)%nat ->
    Forall (fun x => dumpable float_repr x
                     /\ forall rest', delim rest' = true ->
                          scan (dumps x ++ rest') = Done (x, rest')) l ->
    array_loop scan n (join (py ", ") (map dumps l) ++ 93 :: rest) values
    = Done (PList (values ++ l), rest).
Proof.
  change (py ", ") with [44; 32].
  induction l as [|x [|y l'] IH]; intros values n Hne Hn Hall.
  - contradiction.
  - destruct n as [|n]; [simpl in Hn; lia|].
    inversion Hall as [|? ? [_ Hx] _]; subst.
    cbn [map join array_loop]. rewrite Hx by reflexivity.
    reflexivity.
  - destruct n as [|n]; [simpl in Hn; lia|].
    inversion Hall as [|? ? [_ Hx] Hrest]; subst.
    change (map dumps (x :: y :: l')) with (dumps x :: map dumps (y :: l')).
    change (join [44; 32] (dumps x :: map dumps (y :: l')))
      with (dumps x ++ [44; 32] ++ join [44; 32] (map dumps (y :: l'))).
    rewrite <- !app_assoc. cbn [array_loop]. rewrite Hx by reflexivity.
    change (([44; 32] ++ join [44; 32] (map dumps (y :: l')) ++ 93 :: rest))
      with (44 :: 32 :: join [44; 32] (map dumps (y :: l')) ++ 93 :: rest).
    change (skip_ws (44 :: 32 :: join [44; 32] (map dumps (y :: l')) ++ 93 :: rest))
      with (44 :: 32 :: join [44; 32] (map dumps (y :: l')) ++ 93 :: rest).
    cbv beta iota.
    change (44 =? 93) with false. change (44 =? 44) with true. cbv iota.
    assert (skip_ws (32 :: join [44; 32] (map dumps (y :: l')) ++ 93 :: rest)
            = join [44; 32] (map dumps (y :: l')) ++ 93 :: rest) as Ews.
    { inversion Hrest as [|? ? [Hy _] _]; subst.
      destruct (dumps_head y Hy) as (c & t & E & Hc).
      change (skip_ws (32 :: ?s)) with (skip_ws s).
      destruct l' as [|z l''].
      - cbn [map join]. rewrite E. apply (skip_ws_head c _ Hc).
      - cbn [map]. rewrite join_cons2, E. apply (skip_ws_head c _ Hc). }
    rewrite Ews, IH; [|discriminate|simpl in Hn |- *; lia|exact Hrest].
    now rewrite <- app_assoc.
Qed.

Lemma items_text_join (d : list (list N * pyval)) (rest : list N) :
  d <> [] ->
  join (py ", ")
       (map (fun kv => encode_basestring_ascii (fst kv)
                       ++ py ": " ++ dumps (snd kv)) d)
  ++ 125 :: rest
  = DQUOTE :: items_text float_repr d rest.
Proof.
  change (py ", ") with [44; 32]. change (py ": ") with [58; 32].
  induction d as [|kv [|kv' d'] IH]; intro Hne.
  - contradiction.
  - cbn [map join items_text]. unfold encode_basestring_ascii.
    cbn [app]. now rewrite <- !app_assoc.
  - cbn [map]. rewrite join_cons2.
    cbn [map] in IH. rewrite <- !app_assoc, IH by discriminate.
    cbn [items_text]. unfold encode_basestring_ascii.
    cbn [app]. now rewrite <- !app_assoc.
Qed.

(** The loop of [JSONObject] on the text of the items. *)
Lemma object_loop_dumps (scan : list N -> scan (pyval * list N)) (rest : list N) :
  forall d pairs n,
    d <> [] -> (length d <= n)%nat ->
    Forall (fun kv => plain_str (fst kv) = true
                      /\ dumpable float_repr (snd kv)
                      /\ forall rest', delim rest' = true ->
                           scan (dumps (snd kv) ++ rest')
                           = Done (snd kv, rest')) d ->
    object_loop scan n (items_text float_repr d rest) pairs
    = Done (PDict (dict (pairs ++ d)), rest).
Proof.
  induction d as [|[k x] d' IH]; intros pairs n Hne Hn Hall; [contradiction|].
  destruct n as [|n]; [simpl in Hn; lia|].
  inversion Hall as [|? ? (Hk & Hx & Hscan) Hrest]; subst.
  cbn [fst snd] in Hk, Hx, Hscan.
  unfold plain_str in Hk. apply andb_prop in Hk. destruct Hk as [Hk1 Hk2].
  destruct (dumps_head x Hx) as (c & t & E & Hc).
  cbn [items_text fst snd object_loop].
  rewrite (scanstring_escaped k [] _ Hk1 Hk2). cbn [rev app].
  set (tail := match d' with
               | [] => 125 :: rest
               | _ :: _ => 44 :: 32 :: DQUOTE :: items_text float_repr d' rest
               end).
  change (skip_ws (58 :: 32 :: dumps x ++ tail))
    with (58 :: 32 :: dumps x ++ tail).
  cbv beta iota. change (58 =? 58) with true. cbv iota.
  change (skip_ws (32 :: dumps x ++ tail)) with (skip_ws (dumps x ++ tail)).
  rewrite E. cbn [app]. rewrite (skip_ws_head c _ Hc).
  change (c :: t ++ tail) with ((c :: t) ++ tail). rewrite <- E.
  assert (delim tail = true) as Hd by (unfold tail; now destruct d').
  rewrite (Hscan tail Hd). unfold tail.
  destruct d' as [|kv' d''].
  - reflexivity.
  - change (skip_ws (44 :: 32 :: DQUOTE :: items_text float_repr (kv' :: d'') rest))
      with (44 :: 32 :: DQUOTE :: items_text float_repr (kv' :: d'') rest).
    cbv beta iota.
    change (44 =? 125) with false. change (44 =? 44) with true. cbv iota.
    change (skip_ws (32 :: DQUOTE :: items_text float_repr (kv' :: d'') rest))
      with (DQUOTE :: items_text float_repr (kv' :: d'') rest).
    cbv beta iota. change (DQUOTE =? DQUOTE) with true. cbv iota.
    rewrite IH; [|discriminate|simpl in Hn |- *; lia|exact Hrest].
    now rewrite <- app_assoc.
Qed.

(** The scanner reads the text of a value back, when given more fuel
    than the text is long. *)
Theorem scan_once_dumps (v : pyval) :
  dumpable float_repr v ->
  forall fuel rest,
    (length (dumps v) < fuel)%nat -> delim rest = true ->
    scan_once fuel (dumps v ++ rest) = Done (v, rest).
Proof.
  induction v as [| b | z | f | s | l IHl | d IHd] using pyval_induction;
    intros Hv fuel rest Hfuel Hrest;
    (destruct fuel as [|fuel]; [lia|]).
  - apply scan_once_constants.
  - destruct b; apply scan_once_constants.
  - apply scan_once_int. now apply delim_stops.
  - destruct Hv as (_ & _ & Hf).
    destruct f as [sg | [|] | | sg m e]; cbn [json_dumps floatstr].
    + apply scan_once_float; [apply Hf; now left|now apply delim_stops].
    + apply scan_once_constants.
    + apply scan_once_constants.
    + apply scan_once_constants.
    + apply scan_once_float; [apply Hf; now left|now apply delim_stops].
  - destruct Hv as (Hs & _). unfold strings_all in Hs.
    cbn [value_all on_str] in Hs. rewrite andb_true_r in Hs.
    unfold plain_str in Hs. apply andb_prop in Hs. destruct Hs as [H1 H2].
    now apply scan_once_string.
  - pose proof (dumpable_list l Hv) as Hall.
    cbn [json_dumps] in Hfuel |- *.
    change ((91 :: join (py ", ") (map dumps l) ++ [93]) ++ rest)
      with (91 :: (join (py ", ") (map dumps l) ++ [93]) ++ rest).
    rewrite <- app_assoc. cbn [scan_once app].
    change (91 =? DQUOTE) with false. change (91 =? 123) with false.
    change (91 =? 91) with true. cbv iota.
    unfold JSONArray.
    destruct l as [|x l'].
    + reflexivity.
    + set (text := join (py ", ") (map dumps (x :: l')) ++ 93 :: rest).
      assert (exists c t, text = c :: t /\ value_head c = true) as (c & t & E & Hc).
      { inversion Hall as [|? ? Hx _]; subst.
        destruct (dumps_head x Hx) as (c & t & E & Hc).
        unfold text. destruct l' as [|y l''].
        - cbn [map join]. rewrite E. now exists c, (t ++ 93 :: rest).
        - cbn [map]. rewrite join_cons2, E. eexists c, _. now split. }
      rewrite E, (skip_ws_head c t Hc).
      destruct (value_head_not_closing c Hc) as (Hc93 & _). rewrite Hc93.
      rewrite <- E. unfold text.
      apply array_loop_dumps; [discriminate| |].
      * rewrite length_app.
        pose proof (join_length_count (py ", ") (map dumps (x :: l'))) as Hc'.
        rewrite length_map in Hc'.
        assert (forall p, In p (map dumps (x :: l')) -> p <> []) as Hne.
        { intros p Hp. apply in_map_iff in Hp. destruct Hp as (y & <- & Hy).
          rewrite Forall_forall in Hall. apply dumps_nonempty. now apply Hall. }
        specialize (Hc' Hne). lia.
      * rewrite Forall_forall in IHl, Hall |- *. intros y Hy.
        split; [now apply Hall|]. intros rest' Hr'.
        apply IHl; [exact Hy|now apply Hall| |exact Hr'].
        pose proof (join_length_in (py ", ") (map dumps (x :: l')) (dumps y)
                                   (in_map dumps _ _ Hy)) as Hlen.
        cbn [length] in Hfuel. rewrite length_app in Hfuel.
        cbn [length] in Hfuel. lia.
  - destruct (dumpable_dict d Hv) as (Hdist & Hall).
    cbn [json_dumps] in Hfuel |- *.
    set (items := map (fun kv => encode_basestring_ascii (fst kv)
                                 ++ py ": " ++ dumps (snd kv)) d) in *.
    change ((123 :: join (py ", ") items ++ [125]) ++ rest)
      with (123 :: (join (py ", ") items ++ [125]) ++ rest).
    rewrite <- app_assoc. cbn [scan_once app].
    change (123 =? DQUOTE) with false. change (123 =? 123) with true.
    cbv iota. unfold JSONObject.
    destruct d as [|kv d'].
    + reflexivity.
    + unfold items. rewrite items_text_join by discriminate.
      change (skip_ws (DQUOTE :: ?t)) with (DQUOTE :: t).
      cbv beta iota.
      change (DQUOTE =? 125) with false. change (DQUOTE =? DQUOTE) with true.
      cbv iota.
      rewrite object_loop_dumps; [now rewrite app_nil_l, dict_distinct|discriminate| |].
      * pose proof (items_text_join (kv :: d') rest) as Ej.
        assert (length (kv :: d')
                <= length (join (py ", ") items))%nat as Hcount.
        { pose proof (join_length_count (py ", ") items) as Hc'.
          unfold items in Hc' at 2. rewrite length_map in Hc'. apply Hc'.
          intros p Hp. unfold items in Hp. apply in_map_iff in Hp.
          destruct Hp as (y & <- & _). unfold encode_basestring_ascii.
          discriminate. }
        apply (f_equal (@length N)) in Ej; [|discriminate].
        fold items in Ej. rewrite length_app in Ej. cbn [length] in Ej.
        lia.
      * rewrite Forall_forall in IHd, Hall |- *. intros y Hy.
        destruct (Hall y Hy) as [Hk Hx].
        split; [exact Hk|]. split; [exact Hx|]. intros rest' Hr'.
        apply IHd; [exact Hy|exact Hx| |exact Hr'].
        pose proof (join_length_in (py ", ") items
                      (encode_basestring_ascii (fst y) ++ py ": " ++ dumps (snd y))) as Hlen.
        assert (In (encode_basestring_ascii (fst y) ++ py ": " ++ dumps (snd y))
                   items) as Hin.
        { unfold items. apply in_map_iff. now exists y. }
        specialize (Hlen Hin). rewrite !length_app in Hlen.
        cbn [length] in Hfuel. rewrite length_app in Hfuel.
        cbn [length] in Hfuel. lia.
Qed.

End RoundTrip.

Lemma is_digit_not_space (c : N) : is_digit c = true -> isspace c = false.
Proof.
  intro H. apply value_head_not_space. unfold value_head. rewrite H.
  now rewrite !orb_true_r.
Qed.

Lemma all_digits_last (ds : list N) :
  all_digits ds = true ->
  exists t c, ds = t ++ [c] /\ is_digit c = true.
Proof.
  unfold all_digits. intro H. apply andb_prop in H. destruct H as [Hne Hall].
  destruct (exists_last (l := ds)) as (t & c & ->).
  { intro E. subst ds. discriminate Hne. }
  exists t, c. split; [reflexivity|].
  rewrite forallb_app in Hall. apply andb_prop in Hall.
  destruct Hall as [_ Hc]. simpl in Hc. now rewrite andb_true_r in Hc.
Qed.

Lemma int_literal_digits (ds : list N) :
  int_literal ds = true -> all_digits ds = true.
Proof.
  destruct ds as [|c r]; [discriminate|]. cbn [int_literal]. intro H.
  unfold all_digits. cbn [is_empty negb forallb andb].
  destruct (c =? 48) eqn:E.
  - apply N.eqb_eq in E. subst c. now destruct r.
  - exact H.
Qed.

(** The text of a number ends with a digit. *)
Lemma render_last (m : number_match) :
  int_literal (num_int m) = true ->
  match num_frac m with Some fs => all_digits fs | None => true end = true ->
  match num_exp m with Some (_, eds) => all_digits eds | None => true end = true ->
  exists t c, render_number m = t ++ [c] /\ is_digit c = true.
Proof.
  destruct m as [neg ds frac exp]. unfold render_number.
  cbn [num_neg num_int num_frac num_exp]. intros Hint Hfrac Hexp.
  destruct exp as [[eneg eds]|].
  - destruct (all_digits_last eds Hexp) as (t & c & -> & Hc).
    eexists _, c. split; [|exact Hc].
    rewrite !app_assoc. rewrite app_comm_cons, app_comm_cons.
    rewrite !app_assoc. reflexivity.
  - rewrite app_nil_r. destruct frac as [fs|].
    + destruct (all_digits_last fs Hfrac) as (t & c & -> & Hc).
      eexists _, c. split; [|exact Hc].
      rewrite app_comm_cons, !app_assoc. reflexivity.
    + rewrite app_nil_r.
      destruct (all_digits_last ds (int_literal_digits ds Hint))
        as (t & c & -> & Hc).
      eexists _, c. split; [|exact Hc]. now rewrite app_assoc.
Qed.

Lemma strip_visible (c d : N) (t u : list N) :
  isspace c = false -> isspace d = false -> c :: t = u ++ [d] ->
  strip (c :: t) = c :: t.
Proof.
  intros Hc Hd E. unfold strip. cbn [lstrip]. rewrite Hc.
  unfold rstrip. rewrite E, rev_app_distr. cbn [rev app lstrip].
  rewrite Hd. cbn [rev]. now rewrite rev_involutive.
Qed.

Section Reload.

Variable float_repr : spec_float -> list N.

Local Abbreviation dumps := (json_dumps float_repr).

(** The text of a value ends with a character no whitespace is. *)
Lemma dumps_last (v : pyval) :
  dumpable float_repr v ->
  exists t c, dumps v = t ++ [c] /\ isspace c = false.
Proof.
  intros (Hs & Hk & Hf). destruct v as [| [|] | z | f | s | l | d].
  - exists [110; 117; 108], 108. now split.
  - exists [116; 114; 117], 101. now split.
  - exists [102; 97; 108; 115], 101. now split.
  - cbn [json_dumps]. destruct (int_repr_render z) as (ds & -> & Hint & _).
    destruct (render_last {| num_neg := (z <? 0)%Z; num_int := ds;
                             num_frac := None; num_exp := None |})
      as (t & c & -> & Hc); try reflexivity; [exact Hint|].
    exists t, c. split; [reflexivity|now apply is_digit_not_space].
  - assert (forall g, reads_back float_repr g ->
              exists t c, float_repr g = t ++ [c] /\ isspace c = false) as Hr.
    { intros g (m & -> & Hlit & _). unfold float_literal in Hlit.
      apply andb_prop in Hlit. destruct Hlit as [Hlit _].
      apply andb_prop in Hlit. destruct Hlit as [Hlit Hexp].
      apply andb_prop in Hlit. destruct Hlit as [Hint Hfrac].
      destruct (render_last m Hint Hfrac Hexp) as (t & c & -> & Hc).
      exists t, c. split; [reflexivity|now apply is_digit_not_space]. }
    destruct f as [s | [|] | | s m e]; cbn [json_dumps floatstr].
    + apply Hr, Hf. now left.
    + exists [45; 73; 110; 102; 105; 110; 105; 116], 121. now split.
    + exists [73; 110; 102; 105; 110; 105; 116], 121. now split.
    + exists [78; 97], 78. now split.
    + apply Hr, Hf. now left.
  - cbn [json_dumps]. unfold encode_basestring_ascii.
    exists (DQUOTE :: flat_map escape_char s), DQUOTE. now split.
  - cbn [json_dumps]. eexists (91 :: _), 93. split; reflexivity.
  - cbn [json_dumps]. eexists (123 :: _), 125. split; reflexivity.
Qed.

Lemma strip_dumps (v : pyval) :
  dumpable float_repr v -> strip (dumps v) = dumps v.
Proof.
  intro Hv. destruct (dumps_head float_repr v Hv) as (c & t & E & Hc).
  destruct (dumps_last v Hv) as (u & d & E' & Hd).
  rewrite E. rewrite E in E'.
  exact (strip_visible c d t u (value_head_not_space c Hc) Hd E').
Qed.

(** [json.loads] reads the text of [json.dumps] back. *)
Theorem json_loads_dumps (v : pyval) :
  dumpable float_repr v -> json_loads (dumps v) = Loaded v.
Proof.
  intro Hv. destruct (dumps_head float_repr v Hv) as (c & t & E & Hc).
  unfold json_loads. rewrite E.
  destruct (value_head_not_closing c Hc) as (_ & _ & Hbom).
  cbn [startswith]. rewrite Hbom. cbn [andb].
  rewrite (skip_ws_head c t Hc), <- E.
  rewrite <- (app_nil_r (dumps v)) at 2.
  rewrite (scan_once_dumps float_repr v Hv); [reflexivity|lia|reflexivity].
Qed.

Lemma parse_response_dumps (v : pyval) :
  dumpable float_repr v -> parse_response (dumps v) = Ok v.
Proof.
  intro Hv. unfold parse_response, parse_model_text.
  now rewrite (strip_dumps v Hv), (json_loads_dumps v Hv).
Qed.

End Reload.

(* ================================================================== *)
(** * What [json.loads] returns *)
(* ================================================================== *)

Lemma py_str_app (a b : list N) : py_str (a ++ b) = py_str a && py_str b.
Proof. apply forallb_app. Qed.

Lemma py_str_rev (a : list N) : py_str (rev a) = py_str a.
Proof.
  unfold py_str. induction a as [|c a IH]; [reflexivity|].
  cbn [rev forallb]. rewrite forallb_app, IH. cbn [forallb].
  rewrite andb_true_r. apply andb_comm.
Qed.

Lemma py_str_cons (c : N) (s : list N) :
  py_str (c :: s) = true <-> c < 1114112 /\ py_str s = true.
Proof.
  unfold py_str, code_point. cbn [forallb]. rewrite andb_true_iff, N.ltb_lt.
  tauto.
Qed.

Lemma skip_ws_py (s : list N) : py_str s = true -> py_str (skip_ws s) = true.
Proof.
  induction s as [|c s IH]; intro H; [reflexivity|].
  cbn [skip_ws]. destruct (is_ws c); [|exact H].
  apply IH. now apply py_str_cons in H.
Qed.

Lemma hex_digit_bound (c d : N) : hex_digit c = Some d -> d < 16.
Proof.
  unfold hex_digit. intro H.
  repeat match type of H with
         | context [if ?b then _ else _] => destruct b eqn:?
         end; try discriminate H; injection H as <-;
    repeat match goal with
           | E : _ && _ = true |- _ => apply andb_prop in E; destruct E
           | E : (_ <=? _) = true |- _ => apply N.leb_le in E
           end; lia.
Qed.

Lemma decode_bound (h1 h2 h3 h4 u : N) :
  decode_uXXXX h1 h2 h3 h4 = Some u -> u < 65536.
Proof.
  unfold decode_uXXXX. intro H.
  destruct (hex_digit h1) as [a|] eqn:E1; [|discriminate H].
  destruct (hex_digit h2) as [b|] eqn:E2; [|discriminate H].
  destruct (hex_digit h3) as [c|] eqn:E3; [|discriminate H].
  destruct (hex_digit h4) as [d|] eqn:E4; [|discriminate H].
  injection H as <-.
  apply hex_digit_bound in E1, E2, E3, E4. lia.
Qed.

Lemma backslash_bound (esc ch : N) : backslash esc = Some ch -> ch < 128.
Proof.
  unfold backslash. intro H.
  repeat match type of H with
         | context [if ?b then _ else _] => destruct b
         end; try discriminate H; injection H as <-; lia.
Qed.

Lemma join_surrogates_bound (u u2 : N) :
  is_high_surrogate u = true -> is_low_surrogate u2 = true ->
  join_surrogates u u2 < 1114112.
Proof.
  unfold is_high_surrogate, is_low_surrogate, join_surrogates.
  intros H1 H2. apply andb_prop in H1, H2.
  destruct H1 as [H1 H1'], H2 as [H2 H2'].
  apply N.leb_le in H1, H1', H2, H2'.
  rewrite N.shiftl_mul_pow2. change (2 ^ 10) with 1024.
  rewrite lor_low10 by lia. lia.
Qed.

Ltac split_py :=
  repeat match goal with
         | H : py_str (_ :: _) = true |- _ =>
           apply py_str_cons in H; destruct H
         end.

Lemma scanstring_py (n : nat) :
  forall s chunks x r,
    (length s <= n)%nat ->
    py_str s = true -> py_str chunks = true ->
    scanstring s chunks = Done (x, r) ->
    py_str x = true /\ py_str r = true.
Proof.
  induction n as [|n IH]; intros [|c s] chunks x r Hn Hs Hc H;
    try discriminate H; [simpl in Hn; lia|].
  simpl in H.
  repeat break_match H; try discriminate H; simpl in Hn; split_py;
    try (injection H as <- <-; split; [now rewrite py_str_rev|assumption]);
    (eapply IH; [| | |exact H];
     [cbn [length]; lia
     |repeat (apply py_str_cons; split; [assumption|]); assumption
     |apply py_str_cons; split; [|assumption]]);
    try assumption;
    try (apply N.lt_trans with 65536; [eapply decode_bound; eassumption|lia]);
    try (apply N.lt_trans with 128; [eapply backslash_bound; eassumption|lia]);
    try (apply join_surrogates_bound; assumption).
Qed.

Lemma expect_app (lit s r : list N) : expect lit s = Some r -> s = lit ++ r.
Proof.
  revert s. induction lit as [|a lit IH]; intros s H.
  - now injection H as <-.
  - destruct s as [|b s]; [discriminate H|]. cbn [expect] in H.
    destruct (a =? b) eqn:E; [|discriminate H].
    apply N.eqb_eq in E. subst b. cbn [app]. f_equal. now apply IH.
Qed.

Lemma py_str_suffix (pre r : list N) :
  py_str (pre ++ r) = true -> py_str r = true.
Proof. rewrite py_str_app. intro H. now apply andb_prop in H. Qed.

Lemma match_frac_py (s : list N) (f : option (list N)) (t : list N) :
  match_frac s = (f, t) -> py_str s = true -> py_str t = true.
Proof.
  unfold match_frac. intros H Hs.
  destruct s as [|c r]; [now injection H as <- <-|].
  destruct (c =? 46); [|now injection H as <- <-].
  destruct (span_digits r) as [[|d ds] t'] eqn:E;
    injection H as <- <-; [exact Hs|].
  apply span_digits_app in E. subst r. split_py.
  now apply (py_str_suffix (d :: ds)).
Qed.

Lemma match_exp_py (s : list N) (e : option (bool * list N)) (t : list N) :
  match_exp s = (e, t) -> py_str s = true -> py_str t = true.
Proof.
  unfold match_exp. intros H Hs.
  destruct s as [|c r]; [now injection H as <- <-|].
  destruct ((c =? 101) || (c =? 69)); [|now injection H as <- <-].
  destruct (match r with
            | [] => (false, r)
            | sg :: r' =>
              if sg =? 45 then (true, r')
              else if sg =? 43 then (false, r') else (false, r)
            end) as [neg r1] eqn:Er.
  assert (py_str r1 = true) as Hr1.
  { split_py. destruct r as [|sg r']; [now injection Er as <- <-|].
    destruct (sg =? 45); [injection Er as <- <-; now split_py|].
    destruct (sg =? 43); injection Er as <- <-; [now split_py|assumption]. }
  destruct (span_digits r1) as [[|d ds] t'] eqn:Ed;
    injection H as <- <-; [exact Hs|].
  apply span_digits_app in Ed. subst r1.
  now apply (py_str_suffix (d :: ds)).
Qed.

Lemma match_number_py (s : list N) (m : number_match) (t : list N) :
  match_number s = Some (m, t) -> py_str s = true -> py_str t = true.
Proof.
  unfold match_number. intros H Hs.
  destruct (match s with
            | [] => (false, s)
            | c :: r => if c =? 45 then (true, r) else (false, s)
            end) as [neg s1] eqn:Es.
  assert (py_str s1 = true) as Hs1.
  { destruct s as [|c r]; [now injection Es as <- <-|].
    destruct (c =? 45); injection Es as <- <-; [now split_py|assumption]. }
  destruct s1 as [|c r]; [discriminate H|]. split_py.
  assert (forall ds s2, py_str s2 = true ->
            (let (frac, s3) := match_frac s2 in
             let (exp, s4) := match_exp s3 in
             Some ({| num_neg := neg; num_int := ds;
                      num_frac := frac; num_exp := exp |}, s4))
            = Some (m, t) -> py_str t = true) as Htail.
  { intros ds s2 Hs2 H'.
    destruct (match_frac s2) as [frac s3] eqn:Ef.
    destruct (match_exp s3) as [exp s4] eqn:Ee.
    injection H' as <- <-.
    eapply match_exp_py; [exact Ee|]. eapply match_frac_py; eassumption. }
  destruct (c =? 48).
  - apply (Htail [c] r); assumption.
  - destruct (is_digit c); [|discriminate H].
    destruct (span_digits r) as [ds t'] eqn:Ed.
    apply (Htail (c :: ds) t'); [|exact H].
    apply span_digits_app in Ed. subst r. now apply (py_str_suffix ds).
Qed.

Lemma scan_atom_ok (s : list N) (v : pyval) (r : list N) :
  py_str s = true -> scan_atom s = Done (v, r) ->
  loaded_ok v = true /\ py_str r = true.
Proof.
  unfold scan_atom. intros Hs H.
  assert (forall lit t, expect lit s = Some t -> py_str t = true) as Hexp.
  { intros lit t E. apply expect_app in E. rewrite E in Hs.
    now apply py_str_suffix in Hs. }
  destruct (expect (py "null") s) eqn:E1;
    [injection H as <- <-; split; [reflexivity|now apply (Hexp _ _ E1)]|].
  destruct (expect (py "true") s) eqn:E2;
    [injection H as <- <-; split; [reflexivity|now apply (Hexp _ _ E2)]|].
  destruct (expect (py "false") s) eqn:E3;
    [injection H as <- <-; split; [reflexivity|now apply (Hexp _ _ E3)]|].
  destruct (match_number s) as [[m t]|] eqn:E4.
  { apply match_number_py in E4; [|exact Hs].
    destruct (num_frac m), (num_exp m); injection H as <- <-;
      split; try reflexivity; exact E4. }
  destruct (expect (py "NaN") s) eqn:E5;
    [injection H as <- <-; split; [reflexivity|now apply (Hexp _ _ E5)]|].
  destruct (expect (py "Infinity") s) eqn:E6;
    [injection H as <- <-; split; [reflexivity|now apply (Hexp _ _ E6)]|].
  destruct (expect (py "-Infinity") s) eqn:E7;
    [injection H as <- <-; split; [reflexivity|now apply (Hexp _ _ E7)]|].
  discriminate H.
Qed.

Lemma loaded_ok_list (l : list pyval) :
  forallb loaded_ok l = true -> loaded_ok (PList l) = true.
Proof.
  intro H. rewrite forallb_forall in H.
  unfold loaded_ok, strings_all, keys_distinct. cbn [value_all on_str andb].
  apply andb_true_intro. split; apply forallb_forall; intros x Hx;
    specialize (H x Hx); unfold loaded_ok in H; apply andb_prop in H;
    destruct H as [H1 H2]; assumption.
Qed.

Lemma loaded_ok_dict (d : list (list N * pyval)) :
  distinct (keys d) = true -> forallb item_ok d = true ->
  loaded_ok (PDict d) = true.
Proof.
  intros Hd H. rewrite forallb_forall in H.
  unfold loaded_ok, strings_all, keys_distinct. cbn [value_all on_str andb].
  rewrite Hd. cbn [andb].
  apply andb_true_intro. split; apply forallb_forall; intros x Hx;
    specialize (H x Hx); unfold item_ok, loaded_ok in H;
    apply andb_prop in H; destruct H as [H0 H]; apply andb_prop in H;
    destruct H as [H1 H2].
  - now rewrite H0.
  - exact H2.
Qed.

Lemma keys_dict_set (d : list (list N * pyval)) (k a : list N) (v : pyval) :
  existsb (str_eqb a) (keys (dict_set d k v))
  = existsb (str_eqb a) (keys d) || str_eqb a k.
Proof.
  induction d as [|[k' v'] d IH]; cbn [dict_set keys map fst existsb].
  - now rewrite orb_false_r.
  - destruct (str_eqb k k') eqn:E; cbn [keys map fst existsb].
    + apply str_eqb_eq in E. subst k'.
      destruct (str_eqb a k); [now rewrite ?orb_true_r|].
      now rewrite orb_false_r.
    + fold (keys (dict_set d k v)). rewrite IH. fold (keys d).
      now rewrite orb_assoc.
Qed.

Lemma dict_set_distinct (d : list (list N * pyval)) (k : list N) (v : pyval) :
  distinct (keys d) = true -> distinct (keys (dict_set d k v)) = true.
Proof.
  induction d as [|[k' v'] d IH]; intro H; [reflexivity|].
  cbn [keys map fst distinct] in H. apply andb_prop in H.
  destruct H as [Hk' Hd]. fold (keys d) in Hk', Hd.
  cbn [dict_set]. destruct (str_eqb k k') eqn:E.
  - apply str_eqb_eq in E. subst k'. cbn [keys map fst distinct].
    fold (keys d). now rewrite Hk', Hd.
  - cbn [keys map fst distinct]. fold (keys (dict_set d k v)).
    rewrite keys_dict_set, (IH Hd).
    apply negb_true_iff in Hk'. rewrite Hk'.
    rewrite str_eqb_sym, E. reflexivity.
Qed.

Lemma dict_set_items (d : list (list N * pyval)) (k : list N) (v : pyval) :
  forallb item_ok d = true -> item_ok (k, v) = true ->
  forallb item_ok (dict_set d k v) = true.
Proof.
  induction d as [|[k' v'] d IH]; intros H Hkv.
  - cbn [dict_set forallb]. now rewrite Hkv.
  - cbn [forallb] in H. apply andb_prop in H. destruct H as [H1 H2].
    cbn [dict_set]. destruct (str_eqb k k'); cbn [forallb].
    + now rewrite Hkv, H2.
    + now rewrite H1, (IH H2 Hkv).
Qed.

Lemma dict_ok (pairs : list (list N * pyval)) :
  forallb item_ok pairs = true -> loaded_ok (PDict (dict pairs)) = true.
Proof.
  intro H. unfold dict.
  assert (forall acc,
            distinct (keys acc) = true -> forallb item_ok acc = true ->
            distinct (keys (fold_left (fun d kv => dict_set d (fst kv) (snd kv))
                                      pairs acc)) = true
            /\ forallb item_ok (fold_left (fun d kv => dict_set d (fst kv) (snd kv))
                                          pairs acc) = true) as Hfold.
  { induction pairs as [|[k v] pairs IH]; intros acc Hd Ha; [now split|].
    cbn [forallb] in H. apply andb_prop in H. destruct H as [Hkv Hp].
    cbn [fold_left fst snd]. apply (IH Hp).
    - now apply dict_set_distinct.
    - now apply dict_set_items. }
  destruct (Hfold [] eq_refl eq_refl) as [Hd Hi].
  now apply loaded_ok_dict.
Qed.

Section ContainersSound.

Variable scan : list N -> scan (pyval * list N).
Hypothesis scan_sound : sound scan.

Lemma object_loop_sound (n : nat) :
  forall s pairs v r,
    py_str s = true -> forallb item_ok pairs = true ->
    object_loop scan n s pairs = Done (v, r) ->
    loaded_ok v = true /\ py_str r = true.
Proof.
  induction n as [|n IH]; intros s pairs v r Hs Hp H; [discriminate H|].
  cbn [object_loop] in H.
  destruct (scanstring s []) as [[key s1]| | |] eqn:Ek; try discriminate H.
  apply scanstring_py with (n := length s) in Ek;
    [|lia|exact Hs|reflexivity].
  destruct Ek as [Hkey Hs1]. apply skip_ws_py in Hs1.
  destruct (skip_ws s1) as [|c s2]; [discriminate H|].
  destruct (c =? 58); [|discriminate H]. split_py.
  destruct (scan (skip_ws s2)) as [[value s3]| | |] eqn:Ev; try discriminate H.
  apply scan_sound in Ev; [|now apply skip_ws_py].
  destruct Ev as [Hval Hs3]. apply skip_ws_py in Hs3.
  assert (forallb item_ok (pairs ++ [(key, value)]) = true) as Hp'.
  { rewrite forallb_app, Hp. cbn [forallb]. unfold item_ok. cbn [fst snd].
    now rewrite Hkey, Hval. }
  destruct (skip_ws s3) as [|nextchar s4]; [discriminate H|]. split_py.
  destruct (nextchar =? 125).
  { injection H as <- <-. split; [now apply dict_ok|assumption]. }
  destruct (nextchar =? 44); [|discriminate H].
  assert (py_str (skip_ws s4) = true) as Hs4 by now apply skip_ws_py.
  destruct (skip_ws s4) as [|q s5]; [discriminate H|].
  destruct (q =? DQUOTE); [|discriminate H]. split_py.
  eapply IH; [| |exact H]; assumption.
Qed.

Lemma JSONObject_sound : sound (JSONObject scan).
Proof.
  intros s v r Hs H. unfold JSONObject in H.
  apply skip_ws_py in Hs.
  destruct (skip_ws s) as [|nextchar t]; [discriminate H|]. split_py.
  destruct (nextchar =? 125); [injection H as <- <-; now split|].
  destruct (nextchar =? DQUOTE); [|discriminate H].
  eapply object_loop_sound; [| |exact H]; [assumption|reflexivity].
Qed.

Lemma array_loop_sound (n : nat) :
  forall s values v r,
    py_str s = true -> forallb loaded_ok values = true ->
    array_loop scan n s values = Done (v, r) ->
    loaded_ok v = true /\ py_str r = true.
Proof.
  induction n as [|n IH]; intros s values v r Hs Hp H; [discriminate H|].
  cbn [array_loop] in H.
  destruct (scan s) as [[value s1]| | |] eqn:Ev; try discriminate H.
  apply scan_sound in Ev; [|exact Hs]. destruct Ev as [Hval Hs1].
  apply skip_ws_py in Hs1.
  assert (forallb loaded_ok (values ++ [value]) = true) as Hp'.
  { rewrite forallb_app, Hp. cbn [forallb]. now rewrite Hval. }
  destruct (skip_ws s1) as [|nextchar s2]; [discriminate H|]. split_py.
  destruct (nextchar =? 93).
  { injection H as <- <-. split; [now apply loaded_ok_list|assumption]. }
  destruct (nextchar =? 44); [|discriminate H].
  eapply IH; [| |exact H]; [now apply skip_ws_py|assumption].
Qed.

Lemma JSONArray_sound : sound (JSONArray scan).
Proof.
  intros s v r Hs H. unfold JSONArray in H.
  pose proof (skip_ws_py s Hs) as Hw.
  destruct (skip_ws s) as [|nextchar t] eqn:E.
  - eapply array_loop_sound; [| |exact H]; reflexivity.
  - destruct (nextchar =? 93).
    + injection H as <- <-. split; [reflexivity|now split_py].
    + eapply array_loop_sound; [| |exact H]; [assumption|reflexivity].
Qed.

End ContainersSound.

Lemma scan_once_sound (fuel : nat) : sound (scan_once fuel).
Proof.
  induction fuel as [|fuel IH]; intros s v r Hs H; [discriminate H|].
  cbn [scan_once] in H. destruct s as [|nextchar rest]; [discriminate H|].
  destruct (nextchar =? DQUOTE).
  { destruct (scanstring rest []) as [[x t]| | |] eqn:Ex; try discriminate H.
    injection H as <- <-. split_py.
    apply scanstring_py with (n := length rest) in Ex;
      [|lia|assumption|reflexivity].
    destruct Ex as [Hx Ht]. split; [|exact Ht].
    unfold loaded_ok, strings_all, keys_distinct. cbn [value_all on_str].
    now rewrite Hx. }
  destruct (nextchar =? 123).
  { split_py. now apply (JSONObject_sound _ IH) in H. }
  destruct (nextchar =? 91).
  { split_py. now apply (JSONArray_sound _ IH) in H. }
  now apply scan_atom_ok in H.
Qed.

(** The value [json.loads] reads from a Python string is well formed. *)
Lemma json_loads_ok (s : list N) (v : pyval) :
  py_str s = true -> json_loads s = Loaded v -> loaded_ok v = true.
Proof.
  unfold json_loads. intros Hs H.
  destruct (startswith _ s); [discriminate H|].
  destruct (scan_once _ _) as [[obj r]| | |] eqn:E; try discriminate H.
  apply scan_once_sound in E; [|now apply skip_ws_py].
  destruct (skip_ws r); [|discriminate H]. injection H as <-. apply E.
Qed.

(* ================================================================== *)
(** * Equality of a loaded value with itself *)
(* ================================================================== *)

Lemma SFeqb_refl (f : spec_float) : f <> S754_nan -> SFeqb f f = true.
Proof.
  intro H. unfold SFeqb, SFcompare.
  destruct f as [s | s | | s m e]; try reflexivity.
  - now destruct s.
  - contradiction.
  - rewrite Z.compare_refl.
    change (Pos.compare_cont Eq m m) with (Pos.compare m m).
    rewrite Pos.compare_refl. now destruct s.
Qed.

Lemma dict_get_in (d : list (list N * pyval)) (k : list N) (v : pyval) :
  distinct (keys d) = true -> In (k, v) d -> dict_get d k = Some v.
Proof.
  induction d as [|[k' v'] d IH]; intros Hd Hin; [destruct Hin|].
  cbn [keys map fst distinct] in Hd. apply andb_prop in Hd.
  destruct Hd as [Hk' Hd]. fold (keys d) in Hk', Hd.
  cbn [dict_get]. destruct Hin as [E|Hin].
  - injection E as -> ->. now rewrite str_eqb_refl.
  - destruct (str_eqb k k') eqn:E; [|now apply IH].
    apply str_eqb_eq in E. subst k'. apply negb_true_iff in Hk'.
    assert (existsb (str_eqb k) (keys d) = true) as Hex.
    { apply existsb_exists. exists k. split; [|apply str_eqb_refl].
      unfold keys. apply in_map_iff. now exists (k, v). }
    congruence.
Qed.

Lemma all2_refl (A : Type) (f : A -> A -> bool) (l : list A) :
  Forall (fun a => f a a = true) l -> all2 f l l = true.
Proof.
  induction 1 as [|a l Ha _ IH]; [reflexivity|].
  cbn [all2]. now rewrite Ha, IH.
Qed.

(** A well-formed value equals itself, unless it is NaN. *)
Lemma py_eq_refl (v : pyval) :
  keys_distinct v = true -> is_nan v = true \/ py_eq v v = true.
Proof.
  induction v as [| b | z | f | s | l IHl | d IHd] using pyval_induction;
    intro Hk.
  - now right.
  - right. now destruct b.
  - right. apply Z.eqb_refl.
  - destruct f as [s | s | | s m e];
      try (right; now apply SFeqb_refl). now left.
  - right. apply str_eqb_refl.
  - right. cbn [py_eq]. apply all2_refl.
    unfold keys_distinct in Hk. cbn [value_all andb] in Hk.
    rewrite forallb_forall in Hk. rewrite Forall_forall in IHl |- *.
    intros x Hx. destruct (IHl x Hx (Hk x Hx)) as [Hn|He].
    + now rewrite Hn.
    + rewrite He. apply orb_true_r.
  - right. cbn [py_eq]. rewrite Nat.eqb_refl. cbn [andb].
    unfold keys_distinct in Hk. cbn [value_all] in Hk.
    apply andb_prop in Hk. destruct Hk as [Hd Hk].
    rewrite forallb_forall in Hk. rewrite Forall_forall in IHd.
    apply forallb_forall. intros [k x] Hin. cbn [fst snd].
    rewrite (dict_get_in d k x Hd Hin).
    specialize (Hk (k, x) Hin). cbn [fst snd andb] in Hk.
    destruct (IHd (k, x) Hin Hk) as [Hn|He]; cbn [snd] in *.
    + now rewrite Hn.
    + rewrite He. apply orb_true_r.
Qed.

Lemma strings_all_and (K1 K2 : list N -> bool) (v : pyval) :
  strings_all K1 v = true -> strings_all K2 v = true ->
  strings_all (fun s => K1 s && K2 s) v = true.
Proof.
  unfold strings_all.
  induction v as [| b | z | f | s | l IHl | d IHd] using pyval_induction;
    intros H1 H2; try reflexivity.
  - cbn [value_all on_str] in *. rewrite andb_true_r in *. now rewrite H1, H2.
  - cbn [value_all on_str andb] in *.
    rewrite forallb_forall in H1, H2. rewrite Forall_forall in IHl.
    apply forallb_forall. intros x Hx. now apply IHl; [|apply H1|apply H2].
  - cbn [value_all on_str andb] in *.
    rewrite forallb_forall in H1, H2. rewrite Forall_forall in IHd.
    apply forallb_forall. intros kv Hin.
    specialize (H1 kv Hin). specialize (H2 kv Hin).
    apply andb_prop in H1, H2. destruct H1 as [Ha Hb], H2 as [Hc Hd].
    now rewrite Ha, Hc, (IHd kv Hin Hb Hd).
Qed.

Lemma lstrip_py (s : list N) : py_str s = true -> py_str (lstrip s) = true.
Proof.
  induction s as [|c s IH]; intro H; [reflexivity|].
  cbn [lstrip]. destruct (isspace c); [|exact H].
  apply IH. now apply py_str_cons in H.
Qed.

Lemma strip_py (s : list N) : py_str s = true -> py_str (strip s) = true.
Proof.
  intro H. unfold strip, rstrip. rewrite py_str_rev. apply lstrip_py.
  rewrite py_str_rev. now apply lstrip_py.
Qed.

(* ================================================================== *)
(** * The claim on the round trip of the parse step *)
(* ================================================================== *)

(** C8, the claim as stated fails: the parse step accepts the text NaN;
    the text that [json.dumps] writes for the result is parsed again to
    NaN, and NaN is not equal to NaN. *)
Lemma C8_counterexample :
  exists v w,
    parse (py "NaN") FIVE_KEYS = Ok v
    /\ parse (json_dumps repr_of_100_5 v) FIVE_KEYS = Ok w
    /\ py_eq w v = false.
Proof.
  exists (PFloat S754_nan), (PFloat S754_nan).
  split; [vm_compute; reflexivity|]. split; [vm_compute; reflexivity|].
  reflexivity.
Qed.

(** The restriction on surrogates is needed as well: a lone high
    surrogate followed by the escape of a low one is read as two
    characters, written as two escapes, and read back as one character. *)
Lemma surrogate_halves_are_joined :
  parse SURROGATES_TEXT FIVE_KEYS = Ok (PStr [55357; 56832])
  /\ parse (json_dumps repr_of_100_5 (PStr [55357; 56832])) FIVE_KEYS
     = Ok (PStr [128512])
  /\ py_eq (PStr [128512]) (PStr [55357; 56832]) = false.
Proof. repeat split; vm_compute; reflexivity. Qed.

(** C8, amended: let the parse step succeed on a Python string [r] with a
    result [v] that is not NaN, in which no string has a high surrogate
    right before a low surrogate, and each finite float of which is read
    back from its [repr] (as Python guarantees for [float.__repr__]).
    Then the parse step succeeds on [json.dumps(v)] with the same value
    [v], and [v == v] holds. *)
Theorem C8_round_trip_of_the_parse
        (float_repr : spec_float -> list N) (r : list N)
        (schema : list (list N)) (v : pyval) :
  py_str r = true ->
  parse r schema = Ok v ->
  is_nan v = false ->
  strings_all unpaired v = true ->
  (forall f, In f (finite_floats v) -> reads_back float_repr f) ->
  parse (json_dumps float_repr v) schema = Ok v /\ py_eq v v = true.
Proof.
  intros Hr Hp Hnan Hun Hfl.
  assert (json_loads (strip r) = Loaded v) as Hl.
  { unfold parse, parse_response, parse_model_text in Hp.
    destruct (json_loads (strip r)); [now injection Hp as <-| |];
      discriminate Hp. }
  pose proof (json_loads_ok (strip r) v (strip_py r Hr) Hl) as Hok.
  unfold loaded_ok in Hok. apply andb_prop in Hok. destruct Hok as [Hs Hk].
  assert (dumpable float_repr v) as Hv.
  { split; [|split; assumption].
    unfold plain_str. now apply strings_all_and. }
  split.
  - unfold parse. now apply parse_response_dumps.
  - destruct (py_eq_refl v Hk) as [H|H]; [congruence|exact H].
Qed.

Lemma C8_witness :
  py_str INVOICE_TEXT = true
  /\ parse INVOICE_TEXT FIVE_KEYS = Ok INVOICE_OBJECT
  /\ is_nan INVOICE_OBJECT = false
  /\ strings_all unpaired INVOICE_OBJECT = true
  /\ (forall f, In f (finite_floats INVOICE_OBJECT) ->
        reads_back repr_of_100_5 f)
  /\ parse (json_dumps repr_of_100_5 INVOICE_OBJECT) FIVE_KEYS
     = Ok INVOICE_OBJECT
  /\ py_eq INVOICE_OBJECT INVOICE_OBJECT = true.
Proof.
  assert (py_str INVOICE_TEXT = true) as H1 by (vm_compute; reflexivity).
  assert (parse INVOICE_TEXT FIVE_KEYS = Ok INVOICE_OBJECT) as H2
      by (vm_compute; reflexivity).
  assert (is_nan INVOICE_OBJECT = false) as H3 by reflexivity.
  assert (strings_all unpaired INVOICE_OBJECT = true) as H4
      by (vm_compute; reflexivity).
  assert (forall f, In f (finite_floats INVOICE_OBJECT) ->
            reads_back repr_of_100_5 f) as H5.
  { intros f [<-|[]].
    exists {| num_neg := false; num_int := py "100";
              num_frac := Some (py "5"); num_exp := None |}.
    repeat split; vm_compute; reflexivity. }
  split; [exact H1|]. split; [exact H2|]. split; [exact H3|].
  split; [exact H4|]. split; [exact H5|].
  exact (C8_round_trip_of_the_parse repr_of_100_5 INVOICE_TEXT FIVE_KEYS
           INVOICE_OBJECT H1 H2 H3 H4 H5).
Defined.

(* ================================================================== *)
(** * Stripping *)
(* ================================================================== *)

Lemma lstrip_app_blank (w s : str) :
  has_text w = false -> lstrip (w ++ s) = lstrip s.
Proof.
  induction w as [|c w IH]; intro H; [reflexivity|].
  cbn [has_text existsb] in H. apply orb_false_elim in H.
  destruct H as [Hc Hw]. apply negb_false_iff in Hc.
  cbn [app lstrip]. rewrite Hc. now apply IH.
Qed.

Lemma lstrip_cases (s : str) :
  lstrip s = [] \/ exists c r, lstrip s = c :: r /\ isspace c = false.
Proof.
  induction s as [|c s IH]; [now left|].
  cbn [lstrip]. destruct (isspace c) eqn:E; [exact IH|].
  right. now exists c, s.
Qed.

Lemma lstrip_idem (s : str) : lstrip (lstrip s) = lstrip s.
Proof.
  destruct (lstrip_cases s) as [->|(c & r & -> & Hc)]; [reflexivity|].
  cbn [lstrip]. now rewrite Hc.
Qed.

Lemma rstrip_idem (s : str) : rstrip (rstrip s) = rstrip s.
Proof. unfold rstrip. now rewrite rev_involutive, lstrip_idem. Qed.

Lemma rstrip_app_blank (s w : str) :
  has_text w = false -> rstrip (s ++ w) = rstrip s.
Proof.
  intro H. unfold rstrip. rewrite rev_app_distr, lstrip_app_blank; [reflexivity|].
  now rewrite has_text_rev.
Qed.

(** [rstrip] leaves a first character that is not whitespace. *)
Lemma rstrip_cons_text (c : char) (r : str) :
  isspace c = false -> exists r', rstrip (c :: r) = c :: r'.
Proof.
  intro Hc. unfold rstrip. cbn [rev].
  destruct (has_text (rev r)) eqn:E.
  - destruct (lstrip_has_text (rev r) E) as (w & d & q & _ & _ & Hl).
    rewrite Hl. exists (rev q ++ [d]). cbn [rev]. rewrite rev_app_distr.
    reflexivity.
  - rewrite (lstrip_app_blank (rev r) [c] E). cbn [lstrip]. rewrite Hc.
    now exists [].
Qed.

(** A stripped text is empty, or starts and ends with a character that
    is not whitespace. *)
Lemma strip_cases (s : str) :
  strip s = []
  \/ (isspace (hd 0 (strip s)) = false /\ isspace (last (strip s) 0) = false).
Proof.
  unfold strip. destruct (lstrip_cases s) as [->|(c & r & -> & Hc)]; [now left|].
  right. destruct (rstrip_cons_text c r Hc) as [r' E]. split.
  - now rewrite E.
  - unfold rstrip in E |- *.
    destruct (lstrip_cases (rev (c :: r))) as [E'|(d & q & E' & Hd)].
    + rewrite E' in E. discriminate E.
    + rewrite E'. cbn [rev]. now rewrite last_last.
Qed.

Lemma strip_idem (s : str) : strip (strip s) = strip s.
Proof.
  unfold strip. destruct (lstrip_cases s) as [->|(c & r & -> & Hc)]; [reflexivity|].
  destruct (rstrip_cons_text c r Hc) as [r' E]. rewrite E.
  cbn [lstrip]. rewrite Hc, <- E. apply rstrip_idem.
Qed.

(** Whitespace around a text does not change what [strip] makes of it. *)
Lemma strip_pad (w1 s w2 : str) :
  has_text w1 = false -> has_text w2 = false ->
  strip (w1 ++ s ++ w2) = strip s.
Proof.
  intros H1 H2. unfold strip. rewrite (lstrip_app_blank w1 _ H1).
  destruct (has_text s) eqn:Es.
  - destruct (lstrip_has_text s Es) as (w & c & a & _ & _ & Hl).
    rewrite Hl. specialize (Hl []). rewrite !app_nil_r in Hl. rewrite Hl.
    change (c :: a ++ w2) with ((c :: a) ++ w2). now apply rstrip_app_blank.
  - now rewrite (lstrip_app_blank s w2 Es), (lstrip_blank w2 H2),
      (lstrip_blank s Es).
Qed.

Lemma strip_blank (s : str) : has_text s = false -> strip s = [].
Proof. intro H. unfold strip. now rewrite (lstrip_blank s H). Qed.

(** The text before the last part of a joined text does not depend on
    that part. *)
Lemma join_snoc (sep : str) (texts : list str) (q : str) :
  join sep (texts ++ [q]) = flat_map (fun t => t ++ sep) texts ++ q.
Proof.
  induction texts as [|p rest IH]; [reflexivity|].
  change ((p :: rest) ++ [q]) with (p :: (rest ++ [q])).
  destruct (rest ++ [q]) as [|x l] eqn:E; [now destruct rest|].
  rewrite join_cons2, IH. cbn [flat_map]. now rewrite <- !app_assoc.
Qed.

Lemma join_blank_prefix (front rest : list str) :
  (forall t, In t front -> has_text t = false) ->
  exists w,
    has_text w = false
    /\ join [NL; NL] (front ++ rest) = w ++ join [NL; NL] rest.
Proof.
  induction front as [|b front IH]; intro H; [now exists []|].
  destruct IH as (w & Hw & E); [intros t Ht; apply H; now right|].
  cbn [app]. destruct (front ++ rest) as [|x l] eqn:El.
  - exists b. split; [apply H; now left|].
    apply app_eq_nil in El. destruct El as [_ ->]. cbn [join].
    now rewrite app_nil_r.
  - exists (b ++ [NL; NL] ++ w). split.
    + pose proof (H b (or_introl eq_refl)) as Hb.
      unfold has_text in *. rewrite !existsb_app, Hb, Hw. reflexivity.
    + rewrite join_cons2, E. now rewrite <- !app_assoc.
Qed.

Lemma join_blank_suffix (texts back : list str) :
  (forall t, In t back -> has_text t = false) ->
  exists w,
    has_text w = false
    /\ join [NL; NL] (texts ++ back) = join [NL; NL] texts ++ w.
Proof.
  intro H. induction texts as [|p [|q rest] IH].
  - exists (join [NL; NL] back). split; [now apply join_blank|reflexivity].
  - destruct back as [|b back'].
    + exists []. split; [reflexivity|]. cbn [app join]. now rewrite app_nil_r.
    + exists ([NL; NL] ++ join [NL; NL] (b :: back')). split; [|reflexivity].
      pose proof (join_blank (b :: back') H) as Hj.
      unfold has_text in *. rewrite existsb_app, Hj. reflexivity.
  - destruct IH as (w & Hw & E). exists w. split; [exact Hw|].
    change ((p :: q :: rest) ++ back) with (p :: q :: (rest ++ back)).
    change ((q :: rest) ++ back) with (q :: (rest ++ back)) in E.
    rewrite !join_cons2, E. now rewrite <- !app_assoc.
Qed.

(* ================================================================== *)
(** * The claim on the text of the pages *)
(* ================================================================== *)

Lemma text_or_empty_text (page : option str) :
  text_or_empty page = match page with Some t => t | None => [] end.
Proof. destruct page as [[|c t]|]; reflexivity. Qed.

Lemma join_flat_map (sep p : str) (rest : list str) :
  join sep (p :: rest) = p ++ flat_map (fun q => sep ++ q) rest.
Proof.
  revert p. induction rest as [|q rest IH]; intro p.
  - cbn [join flat_map]. now rewrite app_nil_r.
  - rewrite join_cons2, IH. cbn [flat_map]. now rewrite <- !app_assoc.
Qed.

(** The joined text of the pages, written with the operations on lists
    alone. *)
Lemma joined_pages (pages : list (option str)) :
  join [NL; NL] (map text_or_empty pages)
  = match pages with
    | [] => []
    | first :: rest =>
      match first with Some t => t | None => [] end
      ++ flat_map (fun page =>
                     NL :: NL :: match page with Some t => t | None => [] end)
                  rest
    end.
Proof.
  destruct pages as [|first rest]; [reflexivity|].
  cbn [map]. rewrite join_flat_map, text_or_empty_text. f_equal.
  induction rest as [|page rest IH]; [reflexivity|].
  cbn [map flat_map]. now rewrite IH, text_or_empty_text.
Qed.

Lemma has_text_forallb (s : str) :
  has_text s = false <-> forallb isspace s = true.
Proof.
  unfold has_text. induction s as [|c s IH]; [now split|].
  cbn [existsb forallb]. destruct (isspace c); cbn [negb orb andb];
    [exact IH|split; discriminate].
Qed.

Lemma lstrip_split (s : str) :
  exists w, s = w ++ lstrip s /\ forallb isspace w = true.
Proof.
  induction s as [|c s (w & E & Hw)]; [now exists []|].
  cbn [lstrip]. destruct (isspace c) eqn:Hc.
  - exists (c :: w). split; [cbn [app]; now f_equal|].
    cbn [forallb]. now rewrite Hc, Hw.
  - now exists [].
Qed.

Lemma rstrip_split (s : str) :
  exists w, s = rstrip s ++ w /\ forallb isspace w = true.
Proof.
  destruct (lstrip_split (rev s)) as (w & E & Hw). exists (rev w). split.
  - unfold rstrip. rewrite <- rev_app_distr, <- E. now rewrite rev_involutive.
  - apply forallb_forall. intros c Hc. apply in_rev in Hc.
    rewrite forallb_forall in Hw. now apply Hw.
Qed.

(** What [strip] leaves of a text, and the whitespace it removes on the
    two sides. *)
Lemma strip_split (s : str) :
  exists before after,
    s = before ++ strip s ++ after
    /\ forallb isspace before = true /\ forallb isspace after = true.
Proof.
  destruct (lstrip_split s) as (b & Eb & Hb).
  destruct (rstrip_split (lstrip s)) as (a & Ea & Ha).
  exists b, a. split; [|now split]. unfold strip. now rewrite <- Ea.
Qed.

(** C6: for a file that [PdfReader] parses, the texts of the pages, in
    page order, with a blank line between two pages and nothing for a
    page without text, are the text that [extract_text_from_pdf]
    returns with whitespace alone before and after it; the returned text
    is empty or starts and ends with a character that is not
    whitespace, and it is empty when no page has such a character;
    whatever the text is, the empty one included, the run goes on to
    build the prompt from it and to send it to the model. *)
Theorem C6_extract_text_joins_pages
        (bp : str -> str) (E : env) (pdf_path : str)
        (pages : list (option str)) (log : list request) :
  fs E pdf_path = Some (Pdf pages) ->
  exists pdf_text before after,
    extract_text_from_pdf E pdf_path = Ok pdf_text
    /\ match pages with
       | [] => []
       | first :: rest =>
         match first with Some t => t | None => [] end
         ++ flat_map (fun page =>
                        NL :: NL
                        :: match page with Some t => t | None => [] end)
                     rest
       end = before ++ pdf_text ++ after
    /\ forallb isspace before = true
    /\ forallb isspace after = true
    /\ (pdf_text = []
        \/ (isspace (hd 0 pdf_text) = false
            /\ isspace (last pdf_text 0) = false))
    /\ ((forall page, In page pages ->
           forallb isspace (match page with Some t => t | None => [] end)
           = true) ->
        pdf_text = [])
    /\ extract_key_values_from_pdf bp E pdf_path log
       = call_ollama_llama32 E (bp pdf_text) log
    /\ snd (extract_key_values_from_pdf bp E pdf_path log)
       = log ++ [{| url := OLLAMA_URL; json := payload (bp pdf_text) |}].
Proof.
  intro H.
  pose proof (extract_text_pages E pdf_path pages H) as Ht.
  set (raw := join [NL; NL] (map text_or_empty pages)) in Ht.
  destruct (strip_split raw) as (before & after & Eraw & Hb & Ha).
  exists (strip raw), before, after.
  assert (extract_key_values_from_pdf bp E pdf_path log
          = call_ollama_llama32 E (bp (strip raw)) log) as Hrun.
  { unfold extract_key_values_from_pdf, bind, lift. now rewrite Ht. }
  split; [exact Ht|]. split; [now rewrite <- joined_pages|].
  split; [exact Hb|]. split; [exact Ha|]. split; [apply strip_cases|].
  split; [|split; [exact Hrun|rewrite Hrun; apply call_sends_one_request]].
  intro Hblank. apply strip_blank. apply join_blank.
  intros t Hin. apply in_map_iff in Hin. destruct Hin as (page & <- & Hin).
  apply has_text_forallb. rewrite text_or_empty_text. now apply Hblank.
Qed.

Lemma C6_witness :
  fs (pdf_world RAGGED_PAGES ARRAY_BODY) (py "invoice.pdf")
  = Some (Pdf RAGGED_PAGES)
  /\ extract_text_from_pdf (pdf_world RAGGED_PAGES ARRAY_BODY)
                           (py "invoice.pdf")
     = Ok (py "Item A " ++ [NL; NL; NL; NL] ++ py " Item B " ++ [NL; NL]
           ++ py " Total 10")
  /\ exists pdf_text before after,
       extract_text_from_pdf (pdf_world RAGGED_PAGES ARRAY_BODY)
                             (py "invoice.pdf") = Ok pdf_text
       /\ match RAGGED_PAGES with
          | [] => []
          | first :: rest =>
            match first with Some t => t | None => [] end
            ++ flat_map (fun page =>
                           NL :: NL
                           :: match page with Some t => t | None => [] end)
                        rest
          end = before ++ pdf_text ++ after
       /\ forallb isspace before = true
       /\ forallb isspace after = true
       /\ (pdf_text = []
           \/ (isspace (hd 0 pdf_text) = false
               /\ isspace (last pdf_text 0) = false))
       /\ ((forall page, In page RAGGED_PAGES ->
              forallb isspace (match page with Some t => t | None => [] end)
              = true) ->
           pdf_text = [])
       /\ extract_key_values_from_pdf Exact.build_prompt
            (pdf_world RAGGED_PAGES ARRAY_BODY) (py "invoice.pdf") []
          = call_ollama_llama32 (pdf_world RAGGED_PAGES ARRAY_BODY)
                                (Exact.build_prompt pdf_text) []
       /\ snd (extract_key_values_from_pdf Exact.build_prompt
                 (pdf_world RAGGED_PAGES ARRAY_BODY) (py "invoice.pdf") [])
          = [] ++ [{| url := OLLAMA_URL;
                      json := payload (Exact.build_prompt pdf_text) |}].
Proof.
  split; [reflexivity|]. split; [vm_compute; reflexivity|].
  apply (C6_extract_text_joins_pages Exact.build_prompt
           (pdf_world RAGGED_PAGES ARRAY_BODY) (py "invoice.pdf")
           RAGGED_PAGES []).
  reflexivity.
Defined.

(* ================================================================== *)
(** * The claim on the count of pages *)
(* ================================================================== *)

(** The count of the source is the count of the pass from the left. *)
Lemma count_from (s : str) :
  count_blank_lines s = blank_lines_from false s
  /\ forall c,
       count_blank_lines (c :: s)
       = if c =? NL then blank_lines_from true s else blank_lines_from false s.
Proof.
  induction s as [|b r [IH1 IH2]].
  - split; [reflexivity|]. intro c. cbn. now destruct (c =? NL).
  - assert (count_blank_lines (b :: r) = blank_lines_from false (b :: r)) as H1.
    { rewrite IH2. reflexivity. }
    split; [exact H1|]. intro c.
    change (count_blank_lines (c :: b :: r))
      with (if (c =? NL) && (b =? NL) then S (count_blank_lines r)
            else count_blank_lines (b :: r)).
    cbn [blank_lines_from].
    destruct (c =? NL); cbn [andb]; [|exact H1].
    destruct (b =? NL) eqn:Eb; [now rewrite IH1|].
    rewrite IH2, Eb. reflexivity.
Qed.

Lemma blank_lines_from_app (a b : str) :
  forall p,
    blank_lines_from p (a ++ b)
    = (blank_lines_from p a + blank_lines_from (pending_after p a) b)%nat.
Proof.
  induction a as [|c a IH]; intro p; [reflexivity|].
  cbn [app blank_lines_from pending_after].
  destruct (c =? NL); [|apply IH].
  destruct p; cbn [negb]; rewrite IH; reflexivity.
Qed.

Lemma pending_after_app (a b : str) :
  forall p, pending_after p (a ++ b) = pending_after (pending_after p a) b.
Proof.
  induction a as [|c a IH]; intro p; [reflexivity|].
  cbn [app pending_after]. destruct (c =? NL); apply IH.
Qed.

(** A separator counts for one blank line, and leaves the pass as it
    found it. *)
Lemma separator_counts_once (p : bool) (s : str) :
  blank_lines_from p ([NL; NL] ++ s) = S (blank_lines_from p s).
Proof. destruct p; reflexivity. Qed.

(** The blank lines of the joined texts: one for each separator, and
    those that the texts add. *)
Lemma blank_lines_from_join (texts : list str) :
  forall p,
    texts <> [] ->
    blank_lines_from p (join [NL; NL] texts)
    = (pred (length texts) + spare p texts)%nat.
Proof.
  induction texts as [|t [|u rest] IH]; intros p Hne.
  - contradiction.
  - cbn [join length pred spare]. lia.
  - rewrite join_cons2, blank_lines_from_app, separator_counts_once.
    rewrite IH by discriminate.
    cbn [length pred spare]. cbn [length pred] in IH. lia.
Qed.

(** The pass finds no blank line in a text exactly when the text holds
    none and does not go on a pending line feed with one of its own. *)
Lemma blank_lines_from_none (p : bool) (t : str) :
  blank_lines_from p t = O
  <-> count_blank_lines t = O /\ negb (p && (hd 0 t =? NL)) = true.
Proof.
  rewrite (proj1 (count_from t)). destruct p; cbn [andb negb].
  - destruct t as [|c r]; [now split|]. cbn [blank_lines_from hd].
    destruct (c =? NL); cbn [negb]; split; try tauto.
    + discriminate.
    + intros [_ H]. discriminate H.
  - split; [now split|tauto].
Qed.

(** After a text without a blank line the pass is pending exactly when
    the text ends with a line feed; an empty text changes nothing. *)
Lemma pending_after_none (t : str) :
  forall p,
    blank_lines_from p t = O ->
    pending_after p t
    = match t with
      | [] => p
      | _ :: _ => last t 0 =? NL
      end.
Proof.
  induction t as [|c r IH]; intros p H; [reflexivity|].
  cbn [blank_lines_from pending_after] in H |- *.
  destruct (c =? NL) eqn:Ec.
  - destruct p; [discriminate H|]. cbn [negb]. rewrite (IH true H).
    destruct r; [cbn [last]; now rewrite Ec|reflexivity].
  - rewrite (IH false H). destruct r; [cbn [last]; now rewrite Ec|reflexivity].
Qed.

Lemma quiet_spare (texts : list str) :
  forall p, spare p texts = O <-> quiet p texts = true.
Proof.
  induction texts as [|t rest IH]; intro p; [now split|].
  cbn [spare quiet]. split.
  - intro H. apply Nat.eq_add_0 in H. destruct H as [Ht Hrest].
    rewrite <- (pending_after_none t p Ht).
    apply blank_lines_from_none in Ht. destruct Ht as [H1 H2].
    rewrite H1, H2. cbn [Nat.eqb andb]. now apply IH.
  - intro H. apply andb_prop in H. destruct H as [H Hrest].
    apply andb_prop in H. destruct H as [H1 H2]. apply Nat.eqb_eq in H1.
    assert (blank_lines_from p t = O) as Ht
        by (apply blank_lines_from_none; now split).
    rewrite Ht. rewrite <- (pending_after_none t p Ht) in Hrest.
    apply IH in Hrest. now rewrite Hrest.
Qed.

Lemma rstrip_last_snoc (texts : list str) (q : str) :
  rstrip_last (texts ++ [q]) = texts ++ [rstrip q].
Proof.
  induction texts as [|t texts IH]; [reflexivity|].
  cbn [app]. destruct (texts ++ [q]) as [|u l] eqn:E; [now destruct texts|].
  change (rstrip_last (t :: u :: l)) with (t :: rstrip_last (u :: l)).
  now rewrite IH.
Qed.

Lemma length_shown (texts : list str) : length (shown texts) = length texts.
Proof.
  destruct texts as [|t rest]; [reflexivity|]. unfold shown.
  assert (forall l : list str, length (rstrip_last l) = length l) as H.
  { induction l as [|a [|b l'] IHl]; [reflexivity|reflexivity|].
    change (rstrip_last (a :: b :: l')) with (a :: rstrip_last (b :: l')).
    cbn [length] in IHl |- *. now rewrite IHl. }
  now rewrite H.
Qed.

(** Stripping the joined texts strips the first at the left and the
    last at the right, when both have a character that is not
    whitespace. *)
Lemma strip_join_shown (texts : list str) :
  has_text (hd [] texts) = true ->
  has_text (last texts []) = true ->
  strip (join [NL; NL] texts) = join [NL; NL] (shown texts).
Proof.
  intros Hfirst Hlast. destruct texts as [|p rest]; [discriminate Hfirst|].
  cbn [hd] in Hfirst.
  destruct rest as [|u rest'] using rev_ind; [reflexivity|]. clear IHrest'.
  rename rest' into mid, u into q.
  assert (last (p :: mid ++ [q]) [] = q) as Eq.
  { change (p :: mid ++ [q]) with ((p :: mid) ++ [q]). apply last_last. }
  rewrite Eq in Hlast.
  unfold shown. change (lstrip p :: mid ++ [q]) with ((lstrip p :: mid) ++ [q]).
  rewrite rstrip_last_snoc.
  assert (forall x y, join [NL; NL] (x :: mid ++ [y])
                      = x ++ [NL; NL]
                        ++ flat_map (fun t => t ++ [NL; NL]) mid ++ y)
    as Hjoin.
  { intros x y. rewrite <- (join_snoc [NL; NL] mid y).
    destruct (mid ++ [y]) as [|a l] eqn:El; [now destruct mid|].
    apply join_cons2. }
  change ((lstrip p :: mid) ++ [rstrip q]) with (lstrip p :: mid ++ [rstrip q]).
  rewrite !Hjoin. unfold strip.
  destruct (lstrip_has_text p Hfirst) as (w & c & a & _ & _ & Hl).
  rewrite Hl. specialize (Hl []). rewrite !app_nil_r in Hl. rewrite Hl.
  destruct (rstrip_has_text q Hlast) as (b & d & w' & _ & _ & Hr).
  set (sep := flat_map (fun t => t ++ [NL; NL]) mid).
  replace (c :: a ++ [NL; NL] ++ sep ++ q)
    with (((c :: a) ++ [NL; NL] ++ sep) ++ q)
    by (now rewrite <- !app_assoc).
  rewrite Hr. specialize (Hr []). rewrite !app_nil_l in Hr. rewrite Hr.
  now rewrite <- !app_assoc.
Qed.

(** C7, the claim as stated fails, in four ways.  Two pages with text,
    the first of which holds a blank line: the separators of the
    extracted text announce three pages.  Two pages with text, the first
    of which ends with a line feed and the second of which starts with
    one: three pages again.  A page without text before a page with
    text, or after it: the separator is stripped and one page is
    announced. *)
Lemma C7_counterexample :
  (exists pdf_text,
     extract_text_from_pdf (pdf_world TWO_PAGES ARRAY_BODY) (py "invoice.pdf")
     = Ok pdf_text
     /\ page_count pdf_text = 3%nat
     /\ length TWO_PAGES = 2%nat)
  /\ (exists pdf_text,
        extract_text_from_pdf
          (pdf_world [Some (py "Item A" ++ [NL]); Some (NL :: py "Total 10")]
                     ARRAY_BODY) (py "invoice.pdf")
        = Ok pdf_text
        /\ page_count pdf_text = 3%nat)
  /\ (exists pdf_text,
        extract_text_from_pdf
          (pdf_world [Some []; Some (py "Total 10")] ARRAY_BODY)
          (py "invoice.pdf")
        = Ok pdf_text
        /\ page_count pdf_text = 1%nat)
  /\ (exists pdf_text,
        extract_text_from_pdf
          (pdf_world [Some (py "Total 10"); None] ARRAY_BODY)
          (py "invoice.pdf")
        = Ok pdf_text
        /\ page_count pdf_text = 1%nat).
Proof.
  split; [|split; [|split]].
  - eexists. split; [vm_compute; reflexivity|]. split; reflexivity.
  - eexists. split; [vm_compute; reflexivity|]. reflexivity.
  - eexists. split; [vm_compute; reflexivity|]. reflexivity.
  - eexists. split; [vm_compute; reflexivity|]. reflexivity.
Qed.

(** C7, amended: for a parsed PDF whose first and last pages have a
    character that is not whitespace, the extracted text is the page
    texts as they stand in it (the first without its leading whitespace,
    the last without its trailing whitespace) joined by blank lines; the
    number of blank-line separators plus one is never less than the
    number of pages, and it is the number of pages if and only if none
    of these texts holds a blank line and none that starts with a line
    feed comes after one that ends with a line feed, the empty texts
    between the two set aside. *)
Theorem C7_page_count_of_the_pages
        (E : env) (pdf_path : str) (pages : list (option str)) :
  fs E pdf_path = Some (Pdf pages) ->
  has_text (text_or_empty (hd None pages)) = true ->
  has_text (text_or_empty (last pages None)) = true ->
  exists pdf_text,
    extract_text_from_pdf E pdf_path = Ok pdf_text
    /\ pdf_text = join [NL; NL] (shown (map text_or_empty pages))
    /\ (length pages <= page_count pdf_text)%nat
    /\ (page_count pdf_text = length pages
        <-> quiet false (shown (map text_or_empty pages)) = true).
Proof.
  intros Hfs Hfirst Hlast.
  set (texts := map text_or_empty pages).
  assert (pages <> []) as Hne by (intros ->; discriminate Hfirst).
  assert (hd [] texts = text_or_empty (hd None pages)) as Ehd
      by (unfold texts; destruct pages; [contradiction|reflexivity]).
  assert (last texts [] = text_or_empty (last pages None)) as Elast.
  { unfold texts. clear. induction pages as [|x [|y l] IH];
      [reflexivity|reflexivity|exact IH]. }
  assert (strip (join [NL; NL] texts) = join [NL; NL] (shown texts)) as Estrip
      by (apply strip_join_shown; [now rewrite Ehd|now rewrite Elast]).
  exists (join [NL; NL] (shown texts)).
  split; [rewrite <- Estrip; now apply extract_text_pages|].
  split; [reflexivity|].
  assert (shown texts <> []) as Hshown.
  { intro H. apply (f_equal (@length (list N))) in H.
    rewrite length_shown in H. unfold texts in H. rewrite length_map in H.
    destruct pages; [contradiction|discriminate H]. }
  assert (page_count (join [NL; NL] (shown texts))
          = (length pages + spare false (shown texts))%nat) as Ecount.
  { unfold page_count. rewrite (proj1 (count_from _)).
    rewrite (blank_lines_from_join (shown texts) false Hshown).
    rewrite length_shown. unfold texts. rewrite length_map.
    destruct pages; [contradiction|]. cbn [length pred]. lia. }
  rewrite Ecount. split; [lia|].
  rewrite <- quiet_spare. lia.
Qed.

Lemma C7_witness :
  fs (pdf_world LINE_PAGES ARRAY_BODY) (py "invoice.pdf")
  = Some (Pdf LINE_PAGES)
  /\ has_text (text_or_empty (hd None LINE_PAGES)) = true
  /\ has_text (text_or_empty (last LINE_PAGES None)) = true
  /\ quiet false (shown (map text_or_empty LINE_PAGES)) = true
  /\ exists pdf_text,
       extract_text_from_pdf (pdf_world LINE_PAGES ARRAY_BODY)
                             (py "invoice.pdf") = Ok pdf_text
       /\ pdf_text = join [NL; NL] (shown (map text_or_empty LINE_PAGES))
       /\ (length LINE_PAGES <= page_count pdf_text)%nat
       /\ (page_count pdf_text = length LINE_PAGES
           <-> quiet false (shown (map text_or_empty LINE_PAGES)) = true).
Proof.
  assert (has_text (text_or_empty (hd None LINE_PAGES)) = true) as H2
      by (vm_compute; reflexivity).
  assert (has_text (text_or_empty (last LINE_PAGES None)) = true) as H3
      by (vm_compute; reflexivity).
  split; [reflexivity|]. split; [exact H2|]. split; [exact H3|].
  split; [vm_compute; reflexivity|].
  exact (C7_page_count_of_the_pages (pdf_world LINE_PAGES ARRAY_BODY)
           (py "invoice.pdf") LINE_PAGES eq_refl H2 H3).
Defined.

(* ================================================================== *)
(** * The text of a document *)
(* ================================================================== *)

(** X1: the text that [extract_text_from_pdf] returns is stripped:
    stripping it again changes nothing, and it is empty or starts and
    ends with a character that is not whitespace. *)
Theorem X1_extracted_text_is_stripped (E : env) (pdf_path pdf_text : str) :
  extract_text_from_pdf E pdf_path = Ok pdf_text ->
  strip pdf_text = pdf_text
  /\ (pdf_text = []
      \/ (isspace (hd 0 pdf_text) = false
          /\ isspace (last pdf_text 0) = false)).
Proof.
  unfold extract_text_from_pdf. intro H.
  destruct (fs E pdf_path) as [[|pages]|]; try discriminate H.
  injection H as <-. split; [apply strip_idem|apply strip_cases].
Qed.

Lemma X1_witness :
  extract_text_from_pdf (pdf_world RAGGED_PAGES ARRAY_BODY) (py "invoice.pdf")
  = Ok (py "Item A " ++ [NL; NL; NL; NL] ++ py " Item B " ++ [NL; NL]
        ++ py " Total 10")
  /\ strip (py "Item A " ++ [NL; NL; NL; NL] ++ py " Item B " ++ [NL; NL]
            ++ py " Total 10")
     = py "Item A " ++ [NL; NL; NL; NL] ++ py " Item B " ++ [NL; NL]
       ++ py " Total 10"
  /\ (py "Item A " ++ [NL; NL; NL; NL] ++ py " Item B " ++ [NL; NL]
      ++ py " Total 10" = []
      \/ (isspace (hd 0 (py "Item A " ++ [NL; NL; NL; NL] ++ py " Item B "
                         ++ [NL; NL] ++ py " Total 10")) = false
          /\ isspace (last (py "Item A " ++ [NL; NL; NL; NL] ++ py " Item B "
                            ++ [NL; NL] ++ py " Total 10") 0) = false)).
Proof.
  split; [vm_compute; reflexivity|].
  apply (X1_extracted_text_is_stripped (pdf_world RAGGED_PAGES ARRAY_BODY)
           (py "invoice.pdf")).
  vm_compute. reflexivity.
Defined.

(** X2: pages without a character other than whitespace at the start
    and at the end of a document leave no trace: the extracted text is
    the one of the pages between them. *)
Theorem X2_blank_pages_at_the_ends_leave_no_trace
        (E : env) (pdf_path : str) (front pages back : list (option str)) :
  fs E pdf_path = Some (Pdf (front ++ pages ++ back)) ->
  (forall page, In page (front ++ back) ->
     has_text (text_or_empty page) = false) ->
  extract_text_from_pdf E pdf_path
  = Ok (strip (join [NL; NL] (map text_or_empty pages))).
Proof.
  intros Hfs Hblank. rewrite (extract_text_pages E pdf_path _ Hfs). f_equal.
  rewrite !map_app.
  destruct (join_blank_prefix (map text_or_empty front)
              (map text_or_empty pages ++ map text_or_empty back))
    as (w1 & H1 & E1).
  { intros t Ht. apply in_map_iff in Ht. destruct Ht as (page & <- & Hin).
    apply Hblank. apply in_or_app. now left. }
  destruct (join_blank_suffix (map text_or_empty pages)
              (map text_or_empty back)) as (w2 & H2 & E2).
  { intros t Ht. apply in_map_iff in Ht. destruct Ht as (page & <- & Hin).
    apply Hblank. apply in_or_app. now right. }
  rewrite E1, E2. now apply strip_pad.
Qed.

Lemma X2_witness :
  fs (pdf_world PADDED_PAGES ARRAY_BODY) (py "invoice.pdf")
  = Some (Pdf ([None; Some (py "   ")]
               ++ [Some (py "Item A"); Some (py "Total 10")] ++ [Some [NL]]))
  /\ (forall page, In page ([None; Some (py "   ")] ++ [Some [NL]]) ->
        has_text (text_or_empty page) = false)
  /\ extract_text_from_pdf (pdf_world PADDED_PAGES ARRAY_BODY)
                           (py "invoice.pdf")
     = Ok (strip (join [NL; NL]
                       (map text_or_empty
                            [Some (py "Item A"); Some (py "Total 10")]))).
Proof.
  assert (forall page, In page ([None; Some (py "   ")] ++ [Some [NL]]) ->
            has_text (text_or_empty page) = false) as H.
  { intros page [<-|[<-|[<-|[]]]]; vm_compute; reflexivity. }
  split; [reflexivity|]. split; [exact H|].
  exact (X2_blank_pages_at_the_ends_leave_no_trace
           (pdf_world PADDED_PAGES ARRAY_BODY) (py "invoice.pdf")
           [None; Some (py "   ")] [Some (py "Item A"); Some (py "Total 10")]
           [Some [NL]] eq_refl H).
Defined.

(** X3: when the first and the last page of a document of two pages or
    more have a character other than whitespace, stripping touches the
    two ends only: the extracted text is the first page without its
    leading whitespace, the pages between as they are, and the last page
    without its trailing whitespace, joined with blank lines. *)
Theorem X3_strip_touches_the_two_ends_only
        (E : env) (pdf_path : str) (first final : option str)
        (between : list (option str)) :
  fs E pdf_path = Some (Pdf (first :: between ++ [final])) ->
  has_text (text_or_empty first) = true ->
  has_text (text_or_empty final) = true ->
  extract_text_from_pdf E pdf_path
  = Ok (join [NL; NL]
             (lstrip (text_or_empty first)
              :: map text_or_empty between ++ [rstrip (text_or_empty final)])).
Proof.
  intros Hfs Hfirst Hfinal. rewrite (extract_text_pages E pdf_path _ Hfs).
  f_equal. cbn [map]. rewrite map_app. cbn [map].
  set (p := text_or_empty first) in *. set (q := text_or_empty final) in *.
  set (mid := map text_or_empty between).
  assert (forall x y, join [NL; NL] (x :: mid ++ [y])
                      = x ++ [NL; NL] ++ flat_map (fun t => t ++ [NL; NL]) mid ++ y)
    as Hjoin.
  { intros x y. rewrite <- (join_snoc [NL; NL] mid y).
    destruct (mid ++ [y]) as [|a l] eqn:El; [now destruct mid|].
    apply join_cons2. }
  rewrite !Hjoin. unfold strip.
  destruct (lstrip_has_text p Hfirst) as (w & c & a & _ & _ & Hl).
  rewrite Hl. specialize (Hl []). rewrite !app_nil_r in Hl. rewrite Hl.
  destruct (rstrip_has_text q Hfinal) as (b & d & w' & _ & _ & Hr).
  set (sep := flat_map (fun t => t ++ [NL; NL]) mid).
  replace (c :: a ++ [NL; NL] ++ sep ++ q)
    with (((c :: a) ++ [NL; NL] ++ sep) ++ q)
    by (now rewrite <- !app_assoc).
  rewrite Hr. specialize (Hr []). rewrite !app_nil_l in Hr. rewrite Hr.
  now rewrite <- !app_assoc.
Qed.

Lemma X3_witness :
  fs (pdf_world RAGGED_PAGES ARRAY_BODY) (py "invoice.pdf")
  = Some (Pdf (Some (py "  Item A ") :: [None; Some (py " Item B ")]
               ++ [Some (py " Total 10  ")]))
  /\ has_text (text_or_empty (Some (py "  Item A "))) = true
  /\ has_text (text_or_empty (Some (py " Total 10  "))) = true
  /\ extract_text_from_pdf (pdf_world RAGGED_PAGES ARRAY_BODY)
                           (py "invoice.pdf")
     = Ok (join [NL; NL]
                (lstrip (text_or_empty (Some (py "  Item A ")))
                 :: map text_or_empty [None; Some (py " Item B ")]
                 ++ [rstrip (text_or_empty (Some (py " Total 10  ")))])).
Proof.
  assert (has_text (text_or_empty (Some (py "  Item A "))) = true) as H1
      by (vm_compute; reflexivity).
  assert (has_text (text_or_empty (Some (py " Total 10  "))) = true) as H2
      by (vm_compute; reflexivity).
  split; [reflexivity|]. split; [exact H1|]. split; [exact H2|].
  exact (X3_strip_touches_the_two_ends_only
           (pdf_world RAGGED_PAGES ARRAY_BODY) (py "invoice.pdf")
           (Some (py "  Item A ")) (Some (py " Total 10  "))
           [None; Some (py " Item B ")] eq_refl H1 H2).
Defined.

(** X4: when the extraction of the text raises an exception, the run
    raises that same exception and sends no request, whatever the prompt
    of the file at hand and whatever the endpoint would have answered. *)
Theorem X4_extraction_failure_stops_the_run
        (bp : str -> str) (E E' : env) (pdf_path : str) (e : exn)
        (log : list request) :
  extract_text_from_pdf E pdf_path = Raise e ->
  fs E' pdf_path = fs E pdf_path ->
  extract_key_values_from_pdf bp E' pdf_path log = (Raise e, log).
Proof.
  intros H Hfs.
  assert (extract_text_from_pdf E' pdf_path = Raise e) as H'
      by (unfold extract_text_from_pdf in H |- *; now rewrite Hfs).
  unfold extract_key_values_from_pdf, bind, lift. now rewrite H'.
Qed.

Lemma X4_witness :
  extract_text_from_pdf (world (Some NotAPdf) None) (py "notes.txt")
  = Raise PdfReadError
  /\ fs (world (Some NotAPdf)
               (Some {| status_code := 200; text := ARRAY_BODY |}))
        (py "notes.txt")
     = fs (world (Some NotAPdf) None) (py "notes.txt")
  /\ extract_key_values_from_pdf Synonyms.build_prompt
       (world (Some NotAPdf)
              (Some {| status_code := 200; text := ARRAY_BODY |}))
       (py "notes.txt") []
     = (Raise PdfReadError, []).
Proof.
  split; [reflexivity|]. split; [reflexivity|].
  apply (X4_extraction_failure_stops_the_run Synonyms.build_prompt
           (world (Some NotAPdf) None)
           (world (Some NotAPdf)
                  (Some {| status_code := 200; text := ARRAY_BODY |}))
           (py "notes.txt") PdfReadError []); reflexivity.
Defined.

(* ================================================================== *)
(** * The outcomes of a call *)
(* ================================================================== *)

Lemma call_unanswered (E : env) (prompt : str) (log : list request) :
  endpoint E log (chat_request prompt) = None ->
  call_ollama_llama32 E prompt log
  = (Raise ConnectionError, log ++ [chat_request prompt]).
Proof.
  unfold chat_request. intro H.
  unfold call_ollama_llama32, bind, requests_post. now rewrite H.
Qed.

(** What a call makes of the answer of the endpoint. *)
Lemma call_answered (E : env) (prompt : str) (log : list request)
      (r : response) :
  endpoint E log (chat_request prompt) = Some r ->
  call_ollama_llama32 E prompt log
  = (match raise_for_status r with
     | Raise e => Raise e
     | Ok _ =>
       match response_json r with
       | Raise e => Raise e
       | Ok data =>
         match get data (py "message") (PDict []) with
         | Raise e => Raise e
         | Ok message =>
           match get message (py "content") (PStr []) with
           | Raise e => Raise e
           | Ok content =>
             match strip_method content with
             | Raise e => Raise e
             | Ok model_text => parse_model_text model_text
             end
           end
         end
       end
     end, log ++ [chat_request prompt]).
Proof.
  unfold chat_request. intro H.
  unfold call_ollama_llama32, bind, requests_post, lift. rewrite H.
  destruct (raise_for_status r) as [[]|]; [|reflexivity].
  destruct (response_json r) as [data|]; [|reflexivity].
  destruct (get data _ _) as [message|]; [|reflexivity].
  destruct (get message _ _) as [content|]; [|reflexivity].
  destruct (strip_method content) as [model_text|]; [|reflexivity].
  destruct (parse_model_text model_text); reflexivity.
Qed.

Lemma raise_for_status_ok (r : response) :
  raise_for_status r = Ok tt <-> ~ (400 <= status_code r < 600)%Z.
Proof.
  unfold raise_for_status.
  destruct ((400 <=? status_code r)%Z) eqn:E1;
    destruct ((status_code r <? 600)%Z) eqn:E2; cbn [andb];
    try apply Z.leb_le in E1; try apply Z.leb_gt in E1;
    try apply Z.ltb_lt in E2; try apply Z.ltb_ge in E2;
    split; intro H; try reflexivity; try discriminate H; lia.
Qed.

Lemma raise_for_status_error (r : response) (e : exn) :
  raise_for_status r = Raise e <->
  e = HTTPError (status_code r) /\ (400 <= status_code r < 600)%Z.
Proof.
  unfold raise_for_status.
  destruct ((400 <=? status_code r)%Z && (status_code r <? 600)%Z) eqn:E.
  - apply andb_prop in E. destruct E as [E1 E2].
    apply Z.leb_le in E1. apply Z.ltb_lt in E2. split.
    + intro H. injection H as <-. split; [reflexivity|lia].
    + intros [-> _]. reflexivity.
  - split; [discriminate|]. intros [_ H]. apply andb_false_iff in E.
    destruct E as [E|E]; [apply Z.leb_gt in E|apply Z.ltb_ge in E]; lia.
Qed.

Lemma response_json_ok (r : response) (data : pyval) :
  response_json r = Ok data <-> json_loads (text r) = Loaded data.
Proof.
  unfold response_json.
  destruct (json_loads (text r)); split; intro H;
    try discriminate H; injection H as <-; reflexivity.
Qed.

Lemma response_json_error (r : response) (e : exn) :
  response_json r = Raise e ->
  exists m, json_loads (text r) = JSONDecodeError m
            /\ e = RequestsJSONDecodeError m.
Proof.
  pose proof (json_loads_total (text r)) as T. unfold response_json.
  destruct (json_loads (text r)) as [v|m|]; intro H;
    [discriminate H| |now elim T].
  injection H as <-. now exists m.
Qed.

Lemma get_error (v : pyval) (k : str) (default : pyval) (e : exn) :
  get v k default = Raise e -> e = AttributeError.
Proof. destruct v; intro H; try discriminate H; now injection H. Qed.

Lemma strip_method_ok (v : pyval) (t : str) :
  strip_method v = Ok t -> exists content, v = PStr content /\ t = strip content.
Proof.
  destruct v as [| | | |s| |]; intro H; try discriminate H.
  injection H as <-. now exists s.
Qed.

Lemma strip_method_error (v : pyval) (e : exn) :
  strip_method v = Raise e -> e = AttributeError.
Proof. destruct v; intro H; try discriminate H; now injection H. Qed.

Lemma parse_model_text_ok (t : str) (v : pyval) :
  parse_model_text t = Ok v <-> json_loads t = Loaded v.
Proof.
  unfold parse_model_text.
  destruct (json_loads t); split; intro H;
    try discriminate H; injection H as <-; reflexivity.
Qed.

Lemma parse_model_text_error (t : str) (e : exn) :
  parse_model_text t = Raise e ->
  exists m, json_loads t = JSONDecodeError m
            /\ e = ValueError (PREAMBLE ++ [NL] ++ t).
Proof.
  pose proof (json_loads_total t) as T. unfold parse_model_text.
  destruct (json_loads t) as [v|m|]; intro H;
    [discriminate H| |now elim T].
  injection H as <-. now exists m.
Qed.

Lemma parse_model_text_empty :
  parse_model_text [] = Raise (ValueError (PREAMBLE ++ [NL])).
Proof. reflexivity. Qed.

(** A call raises the exception of a library, or comes to the parse
    step with the text [content] of the reply. *)
Lemma call_parsing (E : env) (prompt : str) (log : list request) :
  (exists e,
     fst (call_ollama_llama32 E prompt log) = Raise e
     /\ (e = ConnectionError \/ (exists z, e = HTTPError z)
         \/ (exists m, e = RequestsJSONDecodeError m) \/ e = AttributeError))
  \/ exists content,
       model_replies E log prompt content
       /\ fst (call_ollama_llama32 E prompt log) = parse_response content.
Proof.
  destruct (endpoint E log (chat_request prompt)) as [r|] eqn:Er.
  2:{ rewrite (call_unanswered E prompt log Er). left.
      exists ConnectionError. split; [reflexivity|now left]. }
  rewrite (call_answered E prompt log r Er). cbn [fst].
  destruct (raise_for_status r) as [[]|e1] eqn:Es.
  2:{ left. exists e1. split; [reflexivity|].
      apply raise_for_status_error in Es. destruct Es as [-> _].
      right. left. now eexists. }
  destruct (response_json r) as [data|e2] eqn:Ed.
  2:{ left. exists e2. split; [reflexivity|].
      apply response_json_error in Ed. destruct Ed as (m & _ & ->).
      right. right. left. now exists m. }
  destruct (get data (py "message") (PDict [])) as [message|e3] eqn:Em.
  2:{ left. exists e3. split; [reflexivity|].
      apply get_error in Em. now repeat right. }
  destruct (get message (py "content") (PStr [])) as [content|e4] eqn:Ec.
  2:{ left. exists e4. split; [reflexivity|].
      apply get_error in Ec. now repeat right. }
  destruct (strip_method content) as [model_text|e5] eqn:Et.
  2:{ left. exists e5. split; [reflexivity|].
      apply strip_method_error in Et. now repeat right. }
  apply strip_method_ok in Et. destruct Et as (c & -> & ->).
  right. exists c. split; [|reflexivity].
  exists r, data, message. repeat split; assumption.
Qed.

(** X5: a failure before the answer of the model is read is raised as
    the library raised it, after the one request was sent: a connection
    that fails, a status from 400 to 599, whatever the body, and a body
    that is not JSON. *)
Theorem X5_transport_failures_are_raised_as_they_are
        (E : env) (prompt : str) (log : list request) (e : exn) :
  (endpoint E log (chat_request prompt) = None /\ e = ConnectionError)
  \/ (exists r, endpoint E log (chat_request prompt) = Some r
         /\ (400 <= status_code r < 600)%Z
         /\ e = HTTPError (status_code r))
  \/ (exists r m, endpoint E log (chat_request prompt) = Some r
         /\ ~ (400 <= status_code r < 600)%Z
         /\ json_loads (text r) = JSONDecodeError m
         /\ e = RequestsJSONDecodeError m) ->
  call_ollama_llama32 E prompt log = (Raise e, log ++ [chat_request prompt]).
Proof.
  intros [[H ->]|[(r & H & Hs & ->)|(r & m & H & Hs & Hj & ->)]].
  - now apply call_unanswered.
  - rewrite (call_answered E prompt log r H).
    assert (raise_for_status r = Raise (HTTPError (status_code r))) as ->
        by (now apply raise_for_status_error).
    reflexivity.
  - rewrite (call_answered E prompt log r H).
    apply raise_for_status_ok in Hs. rewrite Hs.
    unfold response_json. now rewrite Hj.
Qed.

Lemma X5_witness :
  ((endpoint (world None (Some {| status_code := 200; text := py "<html>" |}))
             [] (chat_request PAGE) = None
    /\ RequestsJSONDecodeError ExpectingValue = ConnectionError)
   \/ (exists r,
         endpoint (world None (Some {| status_code := 200; text := py "<html>" |}))
                  [] (chat_request PAGE) = Some r
         /\ (400 <= status_code r < 600)%Z
         /\ RequestsJSONDecodeError ExpectingValue = HTTPError (status_code r))
   \/ (exists r m,
         endpoint (world None (Some {| status_code := 200; text := py "<html>" |}))
                  [] (chat_request PAGE) = Some r
         /\ ~ (400 <= status_code r < 600)%Z
         /\ json_loads (text r) = JSONDecodeError m
         /\ RequestsJSONDecodeError ExpectingValue = RequestsJSONDecodeError m))
  /\ call_ollama_llama32
       (world None (Some {| status_code := 200; text := py "<html>" |}))
       PAGE []
     = (Raise (RequestsJSONDecodeError ExpectingValue), [chat_request PAGE]).
Proof.
  assert (exists r m,
            endpoint (world None (Some {| status_code := 200;
                                          text := py "<html>" |}))
                     [] (chat_request PAGE) = Some r
            /\ ~ (400 <= status_code r < 600)%Z
            /\ json_loads (text r) = JSONDecodeError m
            /\ RequestsJSONDecodeError ExpectingValue
               = RequestsJSONDecodeError m) as H.
  { exists {| status_code := 200; text := py "<html>" |}, ExpectingValue.
    split; [reflexivity|]. split; [cbn [status_code]; lia|].
    split; [vm_compute; reflexivity|reflexivity]. }
  split; [right; right; exact H|].
  apply (X5_transport_failures_are_raised_as_they_are
           (world None (Some {| status_code := 200; text := py "<html>" |}))
           PAGE [] (RequestsJSONDecodeError ExpectingValue)).
  right. right. exact H.
Defined.

(** X6: an answer of the wrong shape raises [AttributeError], not the
    [ValueError] of the parse step: a body that is JSON but not an
    object, a [message] that is not an object, a [content] that is not a
    string. *)
Theorem X6_an_answer_of_the_wrong_shape_raises_AttributeError
        (E : env) (prompt : str) (log : list request) (r : response)
        (data : pyval) :
  endpoint E log (chat_request prompt) = Some r ->
  raise_for_status r = Ok tt ->
  json_loads (text r) = Loaded data ->
  (forall d, data <> PDict d)
  \/ (exists d message,
         data = PDict d /\ dict_get d (py "message") = Some message
         /\ forall d', message <> PDict d')
  \/ (exists d content,
         get data (py "message") (PDict []) = Ok (PDict d)
         /\ dict_get d (py "content") = Some content
         /\ forall s, content <> PStr s) ->
  call_ollama_llama32 E prompt log
  = (Raise AttributeError, log ++ [chat_request prompt]).
Proof.
  intros H Hs Hj Hshape. rewrite (call_answered E prompt log r H), Hs.
  apply response_json_ok in Hj. rewrite Hj.
  destruct Hshape as [Hd|[(d & m & -> & Hm & Hd)|(d & c & Hm & Hc & Hd)]].
  - destruct data; try reflexivity. now elim (Hd d).
  - cbn [get]. rewrite Hm. destruct m; try reflexivity. now elim (Hd d0).
  - rewrite Hm. cbn [get]. rewrite Hc. destruct c; try reflexivity.
    now elim (Hd s).
Qed.

Lemma X6_witness :
  endpoint (world None (Some {| status_code := 200;
                                text := pyq "{'message': {'content': null}}" |}))
           [] (chat_request PAGE)
  = Some {| status_code := 200; text := pyq "{'message': {'content': null}}" |}
  /\ raise_for_status {| status_code := 200;
                         text := pyq "{'message': {'content': null}}" |} = Ok tt
  /\ json_loads (pyq "{'message': {'content': null}}")
     = Loaded (PDict [(py "message", PDict [(py "content", PNone)])])
  /\ call_ollama_llama32
       (world None (Some {| status_code := 200;
                            text := pyq "{'message': {'content': null}}" |}))
       PAGE []
     = (Raise AttributeError, [chat_request PAGE]).
Proof.
  assert (json_loads (pyq "{'message': {'content': null}}")
          = Loaded (PDict [(py "message", PDict [(py "content", PNone)])]))
    as Hj by (vm_compute; reflexivity).
  split; [reflexivity|]. split; [reflexivity|]. split; [exact Hj|].
  apply (X6_an_answer_of_the_wrong_shape_raises_AttributeError
           (world None (Some {| status_code := 200;
                                text := pyq "{'message': {'content': null}}" |}))
           PAGE []
           {| status_code := 200; text := pyq "{'message': {'content': null}}" |}
           (PDict [(py "message", PDict [(py "content", PNone)])])
           eq_refl eq_refl Hj).
  right. right. exists [(py "content", PNone)], PNone.
  split; [vm_compute; reflexivity|]. split; [vm_compute; reflexivity|].
  discriminate.
Defined.

(** X7: an answer without text is reported as an empty raw output: when
    the body has no [message], or the [message] has no [content], or the
    [content] is made of whitespace only, the call raises the
    [ValueError] whose message ends right after the line of the
    preamble. *)
Theorem X7_an_answer_without_text_is_reported_as_empty
        (E : env) (prompt : str) (log : list request) (r : response)
        (d : list (str * pyval)) :
  endpoint E log (chat_request prompt) = Some r ->
  raise_for_status r = Ok tt ->
  json_loads (text r) = Loaded (PDict d) ->
  dict_get d (py "message") = None
  \/ (exists message,
        dict_get d (py "message") = Some (PDict message)
        /\ dict_get message (py "content") = None)
  \/ (exists message content,
        dict_get d (py "message") = Some (PDict message)
        /\ dict_get message (py "content") = Some (PStr content)
        /\ has_text content = false) ->
  call_ollama_llama32 E prompt log
  = (Raise (ValueError (PREAMBLE ++ [NL])), log ++ [chat_request prompt]).
Proof.
  intros H Hs Hj Hempty. rewrite (call_answered E prompt log r H), Hs.
  apply response_json_ok in Hj. rewrite Hj. cbn [get].
  destruct Hempty as [Hm|[(m & Hm & Hc)|(m & c & Hm & Hc & Hb)]];
    rewrite Hm; cbn [get dict_get]; try rewrite Hc; cbn [strip_method].
  - change (strip []) with (@nil N). now rewrite parse_model_text_empty.
  - change (strip []) with (@nil N). now rewrite parse_model_text_empty.
  - now rewrite (strip_blank c Hb), parse_model_text_empty.
Qed.

Lemma X7_witness :
  endpoint (world None (Some {| status_code := 200;
                                text := pyq "{'done': true}" |}))
           [] (chat_request PAGE)
  = Some {| status_code := 200; text := pyq "{'done': true}" |}
  /\ raise_for_status {| status_code := 200; text := pyq "{'done': true}" |}
     = Ok tt
  /\ json_loads (pyq "{'done': true}") = Loaded (PDict [(py "done", PBool true)])
  /\ call_ollama_llama32
       (world None (Some {| status_code := 200;
                            text := pyq "{'done': true}" |}))
       PAGE []
     = (Raise (ValueError (PREAMBLE ++ [NL])), [chat_request PAGE]).
Proof.
  assert (json_loads (pyq "{'done': true}")
          = Loaded (PDict [(py "done", PBool true)])) as Hj
      by (vm_compute; reflexivity).
  split; [reflexivity|]. split; [reflexivity|]. split; [exact Hj|].
  apply (X7_an_answer_without_text_is_reported_as_empty
           (world None (Some {| status_code := 200;
                                text := pyq "{'done': true}" |}))
           PAGE [] {| status_code := 200; text := pyq "{'done': true}" |}
           [(py "done", PBool true)] eq_refl eq_refl Hj).
  left. vm_compute. reflexivity.
Defined.

(** X8: whitespace around the text of the model changes nothing: the
    parse step returns the same value, or raises the same [ValueError]
    with the same raw output, as on the text without it. *)
Theorem X8_whitespace_around_the_answer_is_ignored (w1 content w2 : str) :
  has_text w1 = false -> has_text w2 = false ->
  parse_response (w1 ++ content ++ w2) = parse_response content.
Proof.
  intros H1 H2. unfold parse_response. now rewrite (strip_pad w1 content w2 H1 H2).
Qed.

Lemma X8_witness :
  has_text [NL; 32] = false /\ has_text [32; 9; NL] = false
  /\ parse_response ([NL; 32] ++ ARRAY_TEXT ++ [32; 9; NL])
     = parse_response ARRAY_TEXT.
Proof.
  split; [reflexivity|]. split; [reflexivity|].
  apply (X8_whitespace_around_the_answer_is_ignored [NL; 32] ARRAY_TEXT
           [32; 9; NL]); reflexivity.
Defined.

(** X9: a call returns a value in one way only: the endpoint replied
    with a success status and a JSON object whose [message.content] is a
    string, and [json.loads] read the value from the stripped string. *)
Theorem X9_a_call_returns_only_what_it_parsed
        (E : env) (prompt : str) (log : list request) (v : pyval) :
  fst (call_ollama_llama32 E prompt log) = Ok v
  <-> exists content,
        model_replies E log prompt content
        /\ json_loads (strip content) = Loaded v.
Proof.
  split.
  - intro H.
    destruct (call_parsing E prompt log) as [(e & He & _)|(c & Hr & Hp)];
      [congruence|].
    exists c. split; [exact Hr|].
    rewrite H in Hp. symmetry in Hp. unfold parse_response in Hp.
    now apply parse_model_text_ok in Hp.
  - intros (c & Hr & Hl). rewrite (call_with_content E log prompt c Hr).
    cbn [fst]. unfold parse_response. now apply parse_model_text_ok.
Qed.

Lemma X9_witness :
  (exists content,
     model_replies (canned PAGE INVOICE_BODY) [] PAGE content
     /\ json_loads (strip content) = Loaded INVOICE_OBJECT)
  /\ fst (call_ollama_llama32 (canned PAGE INVOICE_BODY) PAGE [])
     = Ok INVOICE_OBJECT.
Proof.
  assert (exists content,
            model_replies (canned PAGE INVOICE_BODY) [] PAGE content
            /\ json_loads (strip content) = Loaded INVOICE_OBJECT) as H.
  { exists INVOICE_TEXT. split; [canned_reply|vm_compute; reflexivity]. }
  split; [exact H|].
  exact (proj2 (X9_a_call_returns_only_what_it_parsed
                  (canned PAGE INVOICE_BODY) PAGE [] INVOICE_OBJECT) H).
Defined.






Lemma dict_get_some (d : list (str * pyval)) (k : str) (x : pyval) :
  dict_get d k = Some x -> exists k', In (k', x) d.
Proof.
  induction d as [|[k' v] d IH]; intro H; [discriminate H|].
  cbn [dict_get] in H. destruct (str_eqb k k').
  - injection H as ->. exists k'. now left.
  - destruct (IH H) as [k'' Hin]. exists k''. now right.
Qed.

Lemma loaded_ok_item (d : list (str * pyval)) (k : str) (x : pyval) :
  loaded_ok (PDict d) = true -> In (k, x) d -> loaded_ok x = true.
Proof.
  unfold loaded_ok, strings_all, keys_distinct. cbn [value_all on_str andb].
  intros H Hin. apply andb_prop in H. destruct H as [Hs Hk].
  apply andb_prop in Hk. destruct Hk as [_ Hk].
  rewrite forallb_forall in Hs, Hk.
  specialize (Hs (k, x) Hin). specialize (Hk (k, x) Hin).
  cbn [fst snd andb] in Hs, Hk. apply andb_prop in Hs. destruct Hs as [_ Hs].
  now rewrite Hs, Hk.
Qed.

Lemma get_loaded_ok (v : pyval) (k : str) (default x : pyval) :
  loaded_ok v = true -> loaded_ok default = true ->
  get v k default = Ok x -> loaded_ok x = true.
Proof.
  intros Hv Hd H. destruct v as [| | | | | |d]; try discriminate H.
  cbn [get] in H. injection H as <-.
  destruct (dict_get d k) as [y|] eqn:E; [|exact Hd].
  destruct (dict_get_some d k y E) as [k' Hin].
  exact (loaded_ok_item d k' y Hv Hin).
Qed.

(** The value that a call reads from a reply that is a Python string
    is well formed. *)
Lemma call_loaded_ok (E : env) (prompt : str) (log : list request)
      (r : response) (v : pyval) :
  endpoint E log (chat_request prompt) = Some r ->
  py_str (text r) = true ->
  fst (call_ollama_llama32 E prompt log) = Ok v ->
  loaded_ok v = true.
Proof.
  intros Hr Hpy H.
  rewrite (call_answered E prompt log r Hr) in H. cbn [fst] in H.
  destruct (raise_for_status r) as [[]|]; [|discriminate H].
  destruct (response_json r) as [data|] eqn:Ed; [|discriminate H].
  apply response_json_ok in Ed.
  pose proof (json_loads_ok (text r) data Hpy Ed) as Hdata.
  destruct (get data _ _) as [message|] eqn:Em; [|discriminate H].
  pose proof (get_loaded_ok data (py "message") (PDict []) message
                            Hdata eq_refl Em) as Hmessage.
  destruct (get message _ _) as [content|] eqn:Ec; [|discriminate H].
  pose proof (get_loaded_ok message (py "content") (PStr []) content
                            Hmessage eq_refl Ec) as Hcontent.
  destruct (strip_method content) as [t|] eqn:Et; [|discriminate H].
  apply strip_method_ok in Et. destruct Et as (c & -> & ->).
  apply parse_model_text_ok in H.
  apply (json_loads_ok (strip c) v); [|exact H].
  apply strip_py. unfold loaded_ok, strings_all in Hcontent.
  cbn [value_all on_str] in Hcontent.
  apply andb_prop in Hcontent. destruct Hcontent as [Hc _].
  apply andb_prop in Hc. now destruct Hc as [Hc _].
Qed.

(** X11: the value that a call returns for a reply that is a Python
    string is well formed: every string and every key in it is made of
    code points, and the keys of every dict in it are pairwise distinct,
    whatever keys the text of the model repeats. *)
Theorem X11_the_value_of_a_call_is_well_formed
        (E : env) (prompt : str) (log : list request) (r : response)
        (v : pyval) :
  endpoint E log (chat_request prompt) = Some r ->
  py_str (text r) = true ->
  fst (call_ollama_llama32 E prompt log) = Ok v ->
  strings_all py_str v = true /\ keys_distinct v = true.
Proof.
  intros Hr Hpy H. apply andb_prop.
  exact (call_loaded_ok E prompt log r v Hr Hpy H).
Qed.

Lemma X11_witness :
  endpoint (canned PAGE INVOICE_BODY) [] (chat_request PAGE)
  = Some {| status_code := 200; text := INVOICE_BODY |}
  /\ py_str (text {| status_code := 200; text := INVOICE_BODY |}) = true
  /\ fst (call_ollama_llama32 (canned PAGE INVOICE_BODY) PAGE [])
     = Ok INVOICE_OBJECT
  /\ strings_all py_str INVOICE_OBJECT = true
  /\ keys_distinct INVOICE_OBJECT = true.
Proof.
  assert (py_str (text {| status_code := 200; text := INVOICE_BODY |}) = true)
    as H2 by (vm_compute; reflexivity).
  assert (fst (call_ollama_llama32 (canned PAGE INVOICE_BODY) PAGE [])
          = Ok INVOICE_OBJECT) as H3 by (vm_compute; reflexivity).
  split; [reflexivity|]. split; [exact H2|]. split; [exact H3|].
  exact (X11_the_value_of_a_call_is_well_formed (canned PAGE INVOICE_BODY)
           PAGE [] {| status_code := 200; text := INVOICE_BODY |}
           INVOICE_OBJECT eq_refl H2 H3).
Defined.

(* ================================================================== *)
(** * The prompt and the payload *)
(* ================================================================== *)

Lemma fenced_text_inj (head a b : str) :
  head ++ FENCE ++ a ++ FENCE ++ [NL] = head ++ FENCE ++ b ++ FENCE ++ [NL] ->
  a = b.
Proof.
  intro H. apply app_inv_head in H. apply app_inv_head in H.
  now apply app_inv_tail in H.
Qed.

(** X12: the prompt determines the document text: two texts with the
    same prompt are the same text, for the builder with the exact field
    list and for the one with synonyms; a text that holds the fence
    itself is no exception. *)
Theorem X12_the_prompt_determines_the_text (a b : str) :
  (Exact.build_prompt a = Exact.build_prompt b <-> a = b)
  /\ (Synonyms.build_prompt a = Synonyms.build_prompt b <-> a = b).
Proof.
  split; split.
  - exact (fenced_text_inj Exact.PROMPT_HEAD a b).
  - intros ->. reflexivity.
  - exact (fenced_text_inj Synonyms.PROMPT_HEAD a b).
  - intros ->. reflexivity.
Qed.

(** X13: the payload of a call is a value that [json.dumps] writes and
    [json.loads] reads back unchanged, the prompt in the user message
    included, for every prompt that is a Python string without a high
    surrogate right before a low one. *)
Theorem X13_the_payload_is_read_back_from_its_json
        (float_repr : spec_float -> str) (prompt : str) :
  plain_str prompt = true ->
  json_loads (json_dumps float_repr (payload prompt))
  = Loaded (payload prompt).
Proof.
  intro H. apply json_loads_dumps. split; [|split].
  - unfold payload, strings_all. cbn [value_all on_str forallb fst snd].
    rewrite H. vm_compute. reflexivity.
  - vm_compute. reflexivity.
  - unfold payload. cbn [finite_floats flat_map app snd].
    intros f [].
Qed.

Lemma X13_witness :
  plain_str (Synonyms.build_prompt PAGE) = true
  /\ json_loads (json_dumps repr_of_100_5 (payload (Synonyms.build_prompt PAGE)))
     = Loaded (payload (Synonyms.build_prompt PAGE)).
Proof.
  split; [vm_compute; reflexivity|].
  apply (X13_the_payload_is_read_back_from_its_json repr_of_100_5
           (Synonyms.build_prompt PAGE)).
  vm_compute. reflexivity.
Defined.

(* ================================================================== *)
(** * The decoder reads back what the encoder writes with an indent *)
(* ================================================================== *)

Lemma skip_ws_newline_indent (level : nat) (t : list N) :
  skip_ws (newline_indent level ++ t) = skip_ws t.
Proof.
  unfold newline_indent. cbn [app skip_ws]. change (is_ws NL) with true.
  cbv iota. induction (2 * level)%nat as [|n IH]; [reflexivity|].
  cbn [repeat app skip_ws]. change (is_ws 32) with true. cbv iota. exact IH.
Qed.

Lemma follows_stops (rest : list N) : follows rest = true -> stops rest = true.
Proof.
  destruct rest as [|c t]; [reflexivity|]. simpl. intro H.
  apply orb_prop in H. destruct H as [H|H];
    apply N.eqb_eq in H; subst c; reflexivity.
Qed.

Lemma follows_newline_indent (level : nat) (t : list N) :
  follows (newline_indent level ++ t) = true.
Proof. reflexivity. Qed.

(** One character: the decoder reads what [encode_basestring] writes for
    [c] as [c]. *)
Lemma scanstring_escape_raw (c : N) (t chunks : list N) :
  scanstring (escape_raw c ++ t) chunks = scanstring t (c :: chunks).
Proof.
  unfold escape_raw.
  destruct (c =? 34) eqn:E34;
    [apply N.eqb_eq in E34; subst c; reflexivity|].
  destruct (c =? 92) eqn:E92;
    [apply N.eqb_eq in E92; subst c; reflexivity|].
  destruct (c =? 10) eqn:E10;
    [apply N.eqb_eq in E10; subst c; reflexivity|].
  destruct (c =? 13) eqn:E13;
    [apply N.eqb_eq in E13; subst c; reflexivity|].
  destruct (c =? 9) eqn:E9;
    [apply N.eqb_eq in E9; subst c; reflexivity|].
  destruct (c =? 8) eqn:E8;
    [apply N.eqb_eq in E8; subst c; reflexivity|].
  destruct (c =? 12) eqn:E12;
    [apply N.eqb_eq in E12; subst c; reflexivity|].
  destruct (c <? 32) eqn:Ectl.
  - apply N.ltb_lt in Ectl. rewrite u_escape_cons.
    apply scanstring_u_single; [apply decode_u_escape; lia|].
    unfold is_high_surrogate. apply andb_false_intro1. apply N.leb_gt. lia.
  - now apply scanstring_plain.
Qed.

(** [scanstring] reads the body of a string of [encode_basestring]
    back, whatever its characters. *)
Lemma scanstring_raw (s : list N) :
  forall chunks rest,
    scanstring (flat_map escape_raw s ++ DQUOTE :: rest) chunks
    = Done (rev chunks ++ s, rest).
Proof.
  induction s as [|c s IH]; intros chunks rest.
  - simpl. now rewrite app_nil_r.
  - cbn [flat_map]. rewrite <- app_assoc, scanstring_escape_raw, IH.
    cbn [rev]. now rewrite <- app_assoc.
Qed.

Lemma scan_once_raw_string (fuel : nat) (s rest : list N) :
  scan_once (S fuel) (encode_basestring s ++ rest) = Done (PStr s, rest).
Proof.
  unfold encode_basestring.
  change (scan_once (S fuel) ((DQUOTE :: flat_map escape_raw s ++ [DQUOTE]) ++ rest))
    with (match scanstring ((flat_map escape_raw s ++ [DQUOTE]) ++ rest) [] with
          | Done (x, r) => Done (PStr x, r)
          | StopIteration => StopIteration
          | DecodeError m => DecodeError m
          | OutOfFuel => OutOfFuel
          end).
  rewrite <- app_assoc. cbn [app]. now rewrite scanstring_raw.
Qed.

Section Reprint.

Variable float_repr : spec_float -> list N.

Local Abbreviation enc := (iterencode float_repr).

Lemma printable_list (l : list pyval) :
  printable float_repr (PList l) -> Forall (printable float_repr) l.
Proof.
  intros (Hk & Hf). apply Forall_forall. intros x Hx.
  unfold keys_distinct in *. cbn [value_all andb] in Hk.
  rewrite forallb_forall in Hk. split; [now apply Hk|].
  intros f Hin. apply Hf. cbn [finite_floats]. apply in_flat_map. now exists x.
Qed.

Lemma printable_dict (d : list (list N * pyval)) :
  printable float_repr (PDict d) ->
  distinct (keys d) = true
  /\ Forall (fun kv => printable float_repr (snd kv)) d.
Proof.
  intros (Hk & Hf). unfold keys_distinct in *. cbn [value_all andb] in Hk.
  apply andb_prop in Hk. destruct Hk as [Hd Hk]. split; [exact Hd|].
  rewrite forallb_forall in Hk. apply Forall_forall. intros kv Hin.
  specialize (Hk kv Hin). cbn [andb] in Hk. split; [exact Hk|].
  intros f Hf'. apply Hf. cbn [finite_floats]. apply in_flat_map. now exists kv.
Qed.

(** The text of a value starts with a character no whitespace is. *)
Lemma iterencode_head (level : nat) (v : pyval) :
  printable float_repr v ->
  exists c t, enc level v = c :: t /\ value_head c = true.
Proof.
  intros (Hk & Hf). destruct v as [| [|] | z | f | s | l | d].
  - exists 110, [117; 108; 108]. now split.
  - exists 116, [114; 117; 101]. now split.
  - exists 102, [97; 108; 115; 101]. now split.
  - cbn [iterencode]. destruct (int_repr_render z) as (ds & -> & Hint & _).
    destruct (render_head {| num_neg := (z <? 0)%Z; num_int := ds;
                             num_frac := None; num_exp := None |} Hint)
      as (c & t & -> & Hc).
    exists c, t. split; [reflexivity|]. unfold value_head.
    apply orb_prop in Hc. destruct Hc as [Hc|Hc]; rewrite Hc;
      now rewrite ?orb_true_r.
  - destruct f as [s | [|] | | s m e].
    + destruct (Hf (S754_zero s)) as (m & Hr & Hlit & _); [now left|].
      unfold float_literal in Hlit. rewrite <- !andb_assoc in Hlit.
      apply andb_prop in Hlit. destruct Hlit as [Hint _].
      destruct (render_head m Hint) as (c & t & E & Hc).
      exists c, t. cbn [iterencode floatstr]. rewrite Hr.
      split; [exact E|]. unfold value_head.
      apply orb_prop in Hc. destruct Hc as [Hc|Hc]; rewrite Hc;
        now rewrite ?orb_true_r.
    + exists 45, [73; 110; 102; 105; 110; 105; 116; 121]. now split.
    + exists 73, [110; 102; 105; 110; 105; 116; 121]. now split.
    + exists 78, [97; 78]. now split.
    + destruct (Hf (S754_finite s m e)) as (m' & Hr & Hlit & _); [now left|].
      unfold float_literal in Hlit. rewrite <- !andb_assoc in Hlit.
      apply andb_prop in Hlit. destruct Hlit as [Hint _].
      destruct (render_head m' Hint) as (c & t & E & Hc).
      exists c, t. cbn [iterencode floatstr]. rewrite Hr.
      split; [exact E|]. unfold value_head.
      apply orb_prop in Hc. destruct Hc as [Hc|Hc]; rewrite Hc;
        now rewrite ?orb_true_r.
  - eexists _, _. cbn [iterencode]. unfold encode_basestring.
    split; reflexivity.
  - destruct l; eexists _, _; cbn [iterencode]; split; reflexivity.
  - destruct d; eexists _, _; cbn [iterencode]; split; reflexivity.
Qed.

Lemma iterencode_nonempty (level : nat) (v : pyval) :
  printable float_repr v -> enc level v <> [].
Proof.
  intro H. destruct (iterencode_head level v H) as (c & t & -> & _).
  discriminate.
Qed.

(** A joined text of values starts like its first value. *)
Lemma join_head (sep : list N) (parts : list (list N)) (p : list N) (c : N)
      (t rest : list N) :
  p = c :: t ->
  exists t', join sep (p :: parts) ++ rest = c :: t'.
Proof.
  intros ->. destruct parts as [|q parts'].
  - now exists (t ++ rest).
  - rewrite join_cons2. now eexists.
Qed.

(** The loop of [JSONArray] on the text of the elements. *)
Lemma array_loop_indent (scan : list N -> scan (pyval * list N))
      (level : nat) (rest : list N) :
  forall l values n,
    l <> [] -> (length l <= n)%nat ->
    Forall (fun x => printable float_repr x
                     /\ forall rest', follows rest' = true ->
                          scan (enc (S level) x ++ rest') = Done (x, rest')) l ->
    array_loop scan n
      (join (44 :: newline_indent (S level)) (map (enc (S level)) l)
       ++ newline_indent level ++ 93 :: rest) values
    = Done (PList (values ++ l), rest).
Proof.
  induction l as [|x [|y l'] IH]; intros values n Hne Hn Hall.
  - contradiction.
  - destruct n as [|n]; [simpl in Hn; lia|].
    inversion Hall as [|? ? [_ Hx] _]; subst.
    cbn [map join array_loop].
    rewrite Hx by apply follows_newline_indent.
    rewrite skip_ws_newline_indent.
    change (skip_ws (93 :: rest)) with (93 :: rest). cbv beta iota.
    change (93 =? 93) with true. reflexivity.
  - destruct n as [|n]; [simpl in Hn; lia|].
    inversion Hall as [|? ? [_ Hx] Hrest]; subst.
    cbn [map]. rewrite join_cons2, <- !app_assoc.
    change (enc (S level) y :: map (enc (S level)) l')
      with (map (enc (S level)) (y :: l')).
    set (tail := join (44 :: newline_indent (S level))
                      (map (enc (S level)) (y :: l'))
                 ++ newline_indent level ++ 93 :: rest).
    change ((44 :: newline_indent (S level)) ++ tail)
      with (44 :: newline_indent (S level) ++ tail).
    cbn [array_loop]. rewrite Hx by reflexivity.
    change (skip_ws (44 :: newline_indent (S level) ++ tail))
      with (44 :: newline_indent (S level) ++ tail).
    cbv beta iota.
    change (44 =? 93) with false. change (44 =? 44) with true. cbv iota.
    rewrite skip_ws_newline_indent.
    assert (skip_ws tail = tail) as ->.
    { inversion Hrest as [|? ? [Hy _] _]; subst.
      destruct (iterencode_head (S level) y Hy) as (c & t & E & Hc).
      unfold tail. cbn [map].
      destruct (join_head (44 :: newline_indent (S level))
                  (map (enc (S level)) l') (enc (S level) y) c t
                  (newline_indent level ++ 93 :: rest) E) as [t' ->].
      apply (skip_ws_head c t' Hc). }
    unfold tail. rewrite IH; [|discriminate|simpl in Hn |- *; lia|exact Hrest].
    now rewrite <- app_assoc.
Qed.

Lemma items_indent_join (level : nat) (d : list (list N * pyval))
      (rest : list N) :
  d <> [] ->
  join (44 :: newline_indent (S level))
       (map (fun kv => encode_basestring (fst kv)
                       ++ py ": " ++ enc (S level) (snd kv)) d)
  ++ newline_indent level ++ 125 :: rest
  = DQUOTE :: items_indent float_repr level d rest.
Proof.
  change (py ": ") with [58; 32].
  induction d as [|kv [|kv' d'] IH]; intro Hne.
  - contradiction.
  - cbn [map join items_indent]. unfold encode_basestring.
    cbn [app]. now rewrite <- !app_assoc.
  - cbn [map]. rewrite join_cons2.
    cbn [map] in IH. rewrite <- !app_assoc, IH by discriminate.
    cbn [items_indent]. unfold encode_basestring.
    cbn [app]. now rewrite <- !app_assoc.
Qed.

(** The loop of [JSONObject] on the text of the items. *)
Lemma object_loop_indent (scan : list N -> scan (pyval * list N))
      (level : nat) (rest : list N) :
  forall d pairs n,
    d <> [] -> (length d <= n)%nat ->
    Forall (fun kv => printable float_repr (snd kv)
                      /\ forall rest', follows rest' = true ->
                           scan (enc (S level) (snd kv) ++ rest')
                           = Done (snd kv, rest')) d ->
    object_loop scan n (items_indent float_repr level d rest) pairs
    = Done (PDict (dict (pairs ++ d)), rest).
Proof.
  induction d as [|[k x] d' IH]; intros pairs n Hne Hn Hall; [contradiction|].
  destruct n as [|n]; [simpl in Hn; lia|].
  inversion Hall as [|? ? (Hx & Hscan) Hrest]; subst.
  cbn [fst snd] in Hx, Hscan.
  destruct (iterencode_head (S level) x Hx) as (c & t & E & Hc).
  cbn [items_indent fst snd object_loop].
  rewrite (scanstring_raw k [] _). cbn [rev app].
  set (tail := match d' with
               | [] => newline_indent level ++ 125 :: rest
               | _ :: _ =>
                 44 :: newline_indent (S level)
                 ++ DQUOTE :: items_indent float_repr level d' rest
               end).
  change (skip_ws (58 :: 32 :: enc (S level) x ++ tail))
    with (58 :: 32 :: enc (S level) x ++ tail).
  cbv beta iota. change (58 =? 58) with true. cbv iota.
  change (skip_ws (32 :: enc (S level) x ++ tail))
    with (skip_ws (enc (S level) x ++ tail)).
  rewrite E. cbn [app]. rewrite (skip_ws_head c _ Hc).
  change (c :: t ++ tail) with ((c :: t) ++ tail). rewrite <- E.
  assert (follows tail = true) as Hd by (unfold tail; now destruct d').
  rewrite (Hscan tail Hd). unfold tail.
  destruct d' as [|kv' d''].
  - rewrite skip_ws_newline_indent.
    change (skip_ws (125 :: rest)) with (125 :: rest). cbv beta iota.
    change (125 =? 125) with true. reflexivity.
  - change (skip_ws (44 :: ?u)) with (44 :: u). cbv beta iota.
    change (44 =? 125) with false. change (44 =? 44) with true. cbv iota.
    rewrite skip_ws_newline_indent.
    change (skip_ws (DQUOTE :: ?u)) with (DQUOTE :: u). cbv beta iota.
    change (DQUOTE =? DQUOTE) with true. cbv iota.
    rewrite IH; [|discriminate|simpl in Hn |- *; lia|exact Hrest].
    now rewrite <- app_assoc.
Qed.

(** The scanner reads the text of a value written with an indent back,
    at every level of nesting, when given more fuel than the text is
    long. *)
Lemma scan_once_iterencode (v : pyval) :
  printable float_repr v ->
  forall level fuel rest,
    (length (enc level v) < fuel)%nat -> follows rest = true ->
    scan_once fuel (enc level v ++ rest) = Done (v, rest).
Proof.
  induction v as [| b | z | f | s | l IHl | d IHd] using pyval_induction;
    intros Hv level fuel rest Hfuel Hrest;
    (destruct fuel as [|fuel]; [lia|]).
  - apply scan_once_constants.
  - destruct b; apply scan_once_constants.
  - apply scan_once_int. now apply follows_stops.
  - destruct Hv as (_ & Hf).
    destruct f as [sg | [|] | | sg m e]; cbn [iterencode floatstr].
    + apply scan_once_float; [apply Hf; now left|now apply follows_stops].
    + apply scan_once_constants.
    + apply scan_once_constants.
    + apply scan_once_constants.
    + apply scan_once_float; [apply Hf; now left|now apply follows_stops].
  - apply scan_once_raw_string.
  - pose proof (printable_list l Hv) as Hall.
    destruct l as [|x l']; [reflexivity|].
    cbn [iterencode] in Hfuel |- *.
    set (sep := 44 :: newline_indent (S level)) in *.
    set (J := join sep (map (enc (S level)) (x :: l'))) in *.
    replace ((91 :: newline_indent (S level) ++ J
                 ++ newline_indent level ++ [93]) ++ rest)
      with (91 :: newline_indent (S level) ++ J
               ++ newline_indent level ++ 93 :: rest)
      by (cbn [app]; now rewrite <- !app_assoc).
    cbn [scan_once].
    change (91 =? DQUOTE) with false. change (91 =? 123) with false.
    change (91 =? 91) with true. cbv iota.
    unfold JSONArray. rewrite skip_ws_newline_indent.
    assert (exists c t, J ++ newline_indent level ++ 93 :: rest = c :: t
                        /\ value_head c = true) as (c & t & E & Hc).
    { inversion Hall as [|? ? Hx _]; subst.
      destruct (iterencode_head (S level) x Hx) as (c & t & E & Hc).
      unfold J. cbn [map].
      destruct (join_head sep (map (enc (S level)) l') (enc (S level) x) c t
                  (newline_indent level ++ 93 :: rest) E) as [t' ->].
      now exists c, t'. }
    rewrite E, (skip_ws_head c t Hc).
    destruct (value_head_not_closing c Hc) as (Hc93 & _). rewrite Hc93.
    rewrite <- E. unfold J, sep.
    apply array_loop_indent; [discriminate| |].
    + rewrite !length_app.
      pose proof (join_length_count (44 :: newline_indent (S level))
                    (map (enc (S level)) (x :: l'))) as Hc'.
      rewrite length_map in Hc'.
      assert (forall p, In p (map (enc (S level)) (x :: l')) -> p <> [])
        as Hne.
      { intros p Hp. apply in_map_iff in Hp. destruct Hp as (y & <- & Hy).
        rewrite Forall_forall in Hall. apply iterencode_nonempty.
        now apply Hall. }
      specialize (Hc' Hne). lia.
    + rewrite Forall_forall in IHl, Hall |- *. intros y Hy.
      split; [now apply Hall|]. intros rest' Hr'.
      apply IHl; [exact Hy|now apply Hall| |exact Hr'].
      pose proof (join_length_in sep (map (enc (S level)) (x :: l'))
                    (enc (S level) y) (in_map (enc (S level)) _ _ Hy)) as Hlen.
      fold J in Hlen. cbn [length] in Hfuel. rewrite !length_app in Hfuel.
      lia.
  - destruct (printable_dict d Hv) as (Hdist & Hall).
    destruct d as [|kv d']; [reflexivity|].
    cbn [iterencode] in Hfuel |- *.
    set (sep := 44 :: newline_indent (S level)) in *.
    set (items := map (fun kv => encode_basestring (fst kv)
                                 ++ py ": " ++ enc (S level) (snd kv))
                      (kv :: d')) in *.
    replace ((123 :: newline_indent (S level) ++ join sep items
                  ++ newline_indent level ++ [125]) ++ rest)
      with (123 :: newline_indent (S level) ++ join sep items
                ++ newline_indent level ++ 125 :: rest)
      by (cbn [app]; now rewrite <- !app_assoc).
    cbn [scan_once].
    change (123 =? DQUOTE) with false. change (123 =? 123) with true.
    cbv iota. unfold JSONObject. rewrite skip_ws_newline_indent.
    pose proof (items_indent_join level (kv :: d') rest) as Ej.
    fold items in Ej. fold sep in Ej. rewrite Ej by discriminate.
    change (skip_ws (DQUOTE :: ?u)) with (DQUOTE :: u). cbv beta iota.
    change (DQUOTE =? 125) with false. change (DQUOTE =? DQUOTE) with true.
    cbv iota.
    rewrite object_loop_indent;
      [now rewrite app_nil_l, dict_distinct|discriminate| |].
    + assert (length (kv :: d') <= length (join sep items))%nat as Hcount.
      { pose proof (join_length_count sep items) as Hc'.
        unfold items in Hc' at 2. rewrite length_map in Hc'. apply Hc'.
        intros p Hp. unfold items in Hp. apply in_map_iff in Hp.
        destruct Hp as (y & <- & _). unfold encode_basestring.
        discriminate. }
      apply (f_equal (@length N)) in Ej; [|discriminate].
      rewrite !length_app in Ej. cbn [length] in Ej. lia.
    + rewrite Forall_forall in IHd, Hall |- *. intros y Hy.
      split; [now apply Hall|]. intros rest' Hr'.
      apply IHd; [exact Hy|now apply Hall| |exact Hr'].
      pose proof (join_length_in sep items
                    (encode_basestring (fst y) ++ py ": "
                     ++ enc (S level) (snd y))) as Hlen.
      assert (In (encode_basestring (fst y) ++ py ": " ++ enc (S level) (snd y))
                 items) as Hin.
      { unfold items. apply in_map_iff. now exists y. }
      specialize (Hlen Hin). rewrite !length_app in Hlen.
      cbn [length] in Hfuel. rewrite !length_app in Hfuel. lia.
Qed.

(** [json.loads] reads the text of [json.dumps] with an indent back. *)
Lemma json_loads_indent (v : pyval) :
  printable float_repr v ->
  json_loads (json_dumps_indent float_repr v) = Loaded v.
Proof.
  intro Hv. unfold json_dumps_indent.
  destruct (iterencode_head 0 v Hv) as (c & t & E & Hc).
  unfold json_loads. rewrite E.
  destruct (value_head_not_closing c Hc) as (_ & _ & Hbom).
  cbn [startswith]. rewrite Hbom. cbn [andb].
  rewrite (skip_ws_head c t Hc), <- E.
  rewrite <- (app_nil_r (enc 0 v)) at 2.
  rewrite (scan_once_iterencode v Hv); [reflexivity|lia|reflexivity].
Qed.

End Reprint.

(* ================================================================== *)
(** * The entry point *)
(* ================================================================== *)

(** X14: the text that the entry point prints for a result,
    [json.dumps(key_values, indent=2, ensure_ascii=False)], is read back
    by [json.loads] as the same value, whatever characters its strings
    hold, when the keys of each dict differ and each finite float is
    read back from its [repr]. *)
Theorem X14_the_indented_text_is_read_back
        (float_repr : spec_float -> str) (v : pyval) :
  keys_distinct v = true ->
  (forall f, In f (finite_floats v) -> reads_back float_repr f) ->
  json_loads (json_dumps_indent float_repr v) = Loaded v.
Proof. intros Hk Hf. apply json_loads_indent. now split. Qed.

Lemma X14_witness :
  keys_distinct (PDict [(py "lines", PList [INVOICE_OBJECT; NOTES]);
                        ([55357; 56832], PDict [])]) = true
  /\ (forall f,
        In f (finite_floats (PDict [(py "lines", PList [INVOICE_OBJECT; NOTES]);
                                    ([55357; 56832], PDict [])])) ->
        reads_back repr_of_100_5 f)
  /\ json_loads
       (json_dumps_indent repr_of_100_5
          (PDict [(py "lines", PList [INVOICE_OBJECT; NOTES]);
                  ([55357; 56832], PDict [])]))
     = Loaded (PDict [(py "lines", PList [INVOICE_OBJECT; NOTES]);
                      ([55357; 56832], PDict [])]).
Proof.
  assert (forall f,
            In f (finite_floats
                    (PDict [(py "lines", PList [INVOICE_OBJECT; NOTES]);
                            ([55357; 56832], PDict [])])) ->
            reads_back repr_of_100_5 f) as H.
  { intros f [<-|[]].
    exists {| num_neg := false; num_int := py "100";
              num_frac := Some (py "5"); num_exp := None |}.
    repeat split; vm_compute; reflexivity. }
  split; [vm_compute; reflexivity|]. split; [exact H|].
  apply (X14_the_indented_text_is_read_back repr_of_100_5
           (PDict [(py "lines", PList [INVOICE_OBJECT; NOTES]);
                   ([55357; 56832], PDict [])])); [|exact H].
  vm_compute. reflexivity.
Defined.

Lemma pipeline_after_extraction (bp : str -> str) (E : env)
      (pdf_path pdf_text : str) (log : list request) :
  extract_text_from_pdf E pdf_path = Ok pdf_text ->
  extract_key_values_from_pdf bp E pdf_path log
  = call_ollama_llama32 E (bp pdf_text) log.
Proof.
  intro H. unfold extract_key_values_from_pdf, bind, lift. now rewrite H.
Qed.

Section MainRuns.

Variable float_repr : spec_float -> str.
Variable stdout_encodes : str -> bool.
Variable library_message : exception -> str.

Local Abbreviation run := (main float_repr stdout_encodes library_message).

(** A run whose pipeline raises prints the line of the error, when the
    standard output has its characters. *)
Lemma main_prints_the_error (E : env) (log log' : list request)
      (out : list str) (e : exn) (msg : str) :
  extract_key_values_from_pdf Exact.build_prompt E PDF_FILE log
  = (Raise e, log') ->
  str_of library_message (Raised e) = msg ->
  stdout_encodes (py "Error: " ++ msg) = true ->
  run E log out = (Finished, log', out ++ [py "Error: " ++ msg]).
Proof.
  intros Hp <- H1. unfold main, try_block, print. now rewrite Hp, H1.
Qed.

(** A run whose pipeline raises prints the line of the error when the
    standard output has its characters, and ends on the
    [UnicodeEncodeError] of the line when it does not. *)
Lemma main_after_a_raise (E : env) (log log' : list request)
      (out : list str) (e : exn) (msg : str) :
  extract_key_values_from_pdf Exact.build_prompt E PDF_FILE log
  = (Raise e, log') ->
  str_of library_message (Raised e) = msg ->
  run E log out
  = if stdout_encodes (py "Error: " ++ msg)
    then (Finished, log', out ++ [py "Error: " ++ msg])
    else (Uncaught (UnicodeEncodeError (py "Error: " ++ msg)), log', out).
Proof.
  intros Hp <-. unfold main, try_block, print. rewrite Hp.
  now destruct (stdout_encodes _).
Qed.

(** A run whose pipeline returns a value: the header, the text of the
    value, and the line of the error of a [print] that fails. *)
Lemma main_after_a_value (E : env) (log log' : list request)
      (out : list str) (v : pyval) (header text : str) :
  extract_key_values_from_pdf Exact.build_prompt E PDF_FILE log = (Ok v, log') ->
  py "Extracted key values:" = header ->
  json_dumps_indent float_repr v = text ->
  run E log out
  = if stdout_encodes header then
      if stdout_encodes text then (Finished, log', out ++ [header; text])
      else
        if stdout_encodes
             (py "Error: " ++ library_message (UnicodeEncodeError text))
        then (Finished, log',
              out ++ [header;
                      py "Error: " ++ library_message (UnicodeEncodeError text)])
        else (Uncaught
                (UnicodeEncodeError
                   (py "Error: " ++ library_message (UnicodeEncodeError text))),
              log', out ++ [header])
    else
      if stdout_encodes
           (py "Error: " ++ library_message (UnicodeEncodeError header))
      then (Finished, log',
            out ++ [py "Error: " ++ library_message (UnicodeEncodeError header)])
      else (Uncaught
              (UnicodeEncodeError
                 (py "Error: " ++ library_message (UnicodeEncodeError header))),
            log', out).
Proof.
  intros Hp <- <-. unfold main, try_block, print. rewrite Hp.
  destruct (stdout_encodes (py "Extracted key values:")).
  - destruct (stdout_encodes (json_dumps_indent float_repr v)).
    + now rewrite <- app_assoc.
    + cbn [str_of]. destruct (stdout_encodes _); [|reflexivity].
      now rewrite <- app_assoc.
  - cbn [str_of]. now destruct (stdout_encodes _).
Qed.

End MainRuns.

(** X15: the entry point lets no exception of the pipeline escape: a
    run sends the requests of the pipeline and no other, only adds to
    what was printed, at most two texts, and at least one when it
    finishes; the one exception that can end it is the
    [UnicodeEncodeError] of the line that reports an error. *)
Theorem X15_main_lets_no_exception_of_the_pipeline_escape
        (float_repr : spec_float -> str) (stdout_encodes : str -> bool)
        (library_message : exception -> str)
        (E : env) (log : list request) (out : list str) :
  exists x printed,
    main float_repr stdout_encodes library_message E log out
    = (x, snd (extract_key_values_from_pdf Exact.build_prompt E PDF_FILE log),
       out ++ printed)
    /\ (length printed <= 2)%nat
    /\ match x with
       | Finished => printed <> []
       | Uncaught e =>
         exists e0,
           e = UnicodeEncodeError (py "Error: " ++ str_of library_message e0)
       end.
Proof.
  unfold main, try_block, print.
  destruct (extract_key_values_from_pdf Exact.build_prompt E PDF_FILE log)
    as [[v|e] log']; cbn [snd].
  - destruct (stdout_encodes (py "Extracted key values:")).
    + destruct (stdout_encodes (json_dumps_indent float_repr v)).
      * exists Finished,
          [py "Extracted key values:"; json_dumps_indent float_repr v].
        split; [now rewrite <- app_assoc|]. split; [cbn; lia|discriminate].
      * destruct (stdout_encodes (py "Error: " ++ _)) eqn:Ee.
        -- eexists Finished, [_; _].
           split; [now rewrite <- app_assoc|]. split; [cbn; lia|discriminate].
        -- eexists (Uncaught _), [_].
           split; [reflexivity|]. split; [cbn; lia|now eexists].
    + destruct (stdout_encodes (py "Error: " ++ _)) eqn:Ee.
      * eexists Finished, [_].
        split; [reflexivity|]. split; [cbn; lia|discriminate].
      * eexists (Uncaught _), [].
        split; [now rewrite app_nil_r|]. split; [cbn; lia|now eexists].
  - destruct (stdout_encodes (py "Error: " ++ _)) eqn:Ee.
    + eexists Finished, [_].
      split; [reflexivity|]. split; [cbn; lia|discriminate].
    + eexists (Uncaught _), [].
      split; [now rewrite app_nil_r|]. split; [cbn; lia|now eexists].
Qed.

(** X16: when [json.loads] raises its [JSONDecodeError] on the stripped
    text of the model, the entry point sends the one request and does
    not print the header of a result.  When the standard output has the
    characters of the line made of the word Error, the preamble of the
    [ValueError] and, after a line feed, the stripped text of the model,
    the run prints that one line and finishes; when it does not, the run
    prints nothing and ends on the [UnicodeEncodeError] of that line,
    which nothing catches. *)
Theorem X16_main_prints_the_text_that_is_not_json
        (float_repr : spec_float -> str) (stdout_encodes : str -> bool)
        (library_message : exception -> str)
        (E : env) (log : list request) (out : list str)
        (pdf_text content : str) (m : json_msg) :
  extract_text_from_pdf E PDF_FILE = Ok pdf_text ->
  model_replies E log (Exact.build_prompt pdf_text) content ->
  json_loads (strip content) = JSONDecodeError m ->
  main float_repr stdout_encodes library_message E log out
  = if stdout_encodes (py "Error: " ++ PREAMBLE ++ [NL] ++ strip content)
    then (Finished, log ++ [chat_request (Exact.build_prompt pdf_text)],
          out ++ [py "Error: " ++ PREAMBLE ++ [NL] ++ strip content])
    else (Uncaught
            (UnicodeEncodeError
               (py "Error: " ++ PREAMBLE ++ [NL] ++ strip content)),
          log ++ [chat_request (Exact.build_prompt pdf_text)], out).
Proof.
  intros Ht Hr Hl.
  apply (main_after_a_raise float_repr stdout_encodes library_message
           E log _ out (ValueError (PREAMBLE ++ [NL] ++ strip content)));
    [|reflexivity].
  rewrite (pipeline_with_content Exact.build_prompt E PDF_FILE pdf_text log
             content Ht Hr).
  unfold parse_response, parse_model_text. now rewrite Hl.
Qed.

Lemma X16_witness :
  extract_text_from_pdf (canned PAGE PADDED_PROSE_BODY) PDF_FILE = Ok PAGE
  /\ model_replies (canned PAGE PADDED_PROSE_BODY) []
                   (Exact.build_prompt PAGE) PADDED_PROSE
  /\ json_loads (strip PADDED_PROSE) = JSONDecodeError ExpectingValue
  /\ utf8_encodes (py "Error: " ++ PREAMBLE ++ [NL] ++ strip PADDED_PROSE)
     = true
  /\ main repr_of_100_5 utf8_encodes some_message
          (canned PAGE PADDED_PROSE_BODY) [] []
     = (Finished, [chat_request (Exact.build_prompt PAGE)],
        [py "Error: " ++ PREAMBLE ++ [NL] ++ strip PADDED_PROSE]).
Proof.
  assert (extract_text_from_pdf (canned PAGE PADDED_PROSE_BODY) PDF_FILE
          = Ok PAGE) as H1 by (vm_compute; reflexivity).
  assert (model_replies (canned PAGE PADDED_PROSE_BODY) []
                        (Exact.build_prompt PAGE) PADDED_PROSE) as H2
      by canned_reply.
  assert (json_loads (strip PADDED_PROSE) = JSONDecodeError ExpectingValue)
    as H3 by (vm_compute; reflexivity).
  assert (utf8_encodes (py "Error: " ++ PREAMBLE ++ [NL] ++ strip PADDED_PROSE)
          = true) as H4 by (vm_compute; reflexivity).
  split; [exact H1|]. split; [exact H2|]. split; [exact H3|].
  split; [exact H4|].
  pose proof (X16_main_prints_the_text_that_is_not_json repr_of_100_5
                utf8_encodes some_message (canned PAGE PADDED_PROSE_BODY)
                [] [] PAGE PADDED_PROSE ExpectingValue H1 H2 H3) as T.
  rewrite H4 in T. exact T.
Defined.

(** A text of the model that is not JSON and holds a lone surrogate: a
    standard output in UTF-8 cannot print the line of the error, and
    the run ends on the [UnicodeEncodeError] with nothing printed. *)
Example main_on_prose_with_a_lone_surrogate :
  exists line,
    main repr_of_100_5 utf8_encodes some_message
         (canned PAGE LONE_PROSE_BODY) [] []
    = (Uncaught (UnicodeEncodeError line),
       [chat_request (Exact.build_prompt PAGE)], [])
    /\ contains [55296] line = true.
Proof. eexists. split; vm_compute; reflexivity. Qed.

(** X17: the text is extracted, the endpoint replies with a body that
    is a Python string, the call returns a value, and the [repr] of
    each finite float of the value reads back as the float.  Then
    [json.loads] reads the indented text of the value back as the value,
    the run sends the one request, and it prints as follows.  When the
    standard output has the characters of the header and of the indented
    text, the run prints the two and finishes.  When it has those of the
    header only, the run prints the header, then the line of the
    [UnicodeEncodeError] of the indented text and finishes, or ends on
    the [UnicodeEncodeError] of that line.  When it has not those of the
    header, the same holds of the header, with nothing printed before
    the line of the error. *)
Theorem X17_main_prints_a_text_that_is_read_back
        (float_repr : spec_float -> str) (stdout_encodes : str -> bool)
        (library_message : exception -> str)
        (E : env) (log : list request) (out : list str)
        (pdf_text : str) (r : response) (v : pyval) :
  extract_text_from_pdf E PDF_FILE = Ok pdf_text ->
  endpoint E log (chat_request (Exact.build_prompt pdf_text)) = Some r ->
  py_str (text r) = true ->
  fst (call_ollama_llama32 E (Exact.build_prompt pdf_text) log) = Ok v ->
  (forall f, In f (finite_floats v) -> reads_back float_repr f) ->
  json_loads (json_dumps_indent float_repr v) = Loaded v
  /\ main float_repr stdout_encodes library_message E log out
     = if stdout_encodes (py "Extracted key values:") then
         if stdout_encodes (json_dumps_indent float_repr v)
         then (Finished, log ++ [chat_request (Exact.build_prompt pdf_text)],
               out ++ [py "Extracted key values:";
                       json_dumps_indent float_repr v])
         else
           if stdout_encodes
                (py "Error: "
                 ++ library_message
                      (UnicodeEncodeError (json_dumps_indent float_repr v)))
           then (Finished,
                 log ++ [chat_request (Exact.build_prompt pdf_text)],
                 out ++ [py "Extracted key values:";
                         py "Error: "
                         ++ library_message
                              (UnicodeEncodeError
                                 (json_dumps_indent float_repr v))])
           else (Uncaught
                   (UnicodeEncodeError
                      (py "Error: "
                       ++ library_message
                            (UnicodeEncodeError
                               (json_dumps_indent float_repr v)))),
                 log ++ [chat_request (Exact.build_prompt pdf_text)],
                 out ++ [py "Extracted key values:"])
       else
         if stdout_encodes
              (py "Error: "
               ++ library_message
                    (UnicodeEncodeError (py "Extracted key values:")))
         then (Finished, log ++ [chat_request (Exact.build_prompt pdf_text)],
               out ++ [py "Error: "
                       ++ library_message
                            (UnicodeEncodeError (py "Extracted key values:"))])
         else (Uncaught
                 (UnicodeEncodeError
                    (py "Error: "
                     ++ library_message
                          (UnicodeEncodeError (py "Extracted key values:")))),
               log ++ [chat_request (Exact.build_prompt pdf_text)], out).
Proof.
  intros Ht Hr Hpy Hv Hf. split.
  - apply json_loads_indent. split; [|exact Hf].
    pose proof (call_loaded_ok E _ log r v Hr Hpy Hv) as Hok.
    unfold loaded_ok in Hok. apply andb_prop in Hok. now destruct Hok.
  - apply (main_after_a_value float_repr stdout_encodes library_message
             E log _ out v); [|reflexivity|reflexivity].
    rewrite (pipeline_after_extraction Exact.build_prompt E PDF_FILE pdf_text
               log Ht).
    rewrite (surjective_pairing (call_ollama_llama32 E _ log)), Hv.
    now rewrite call_sends_one_request.
Qed.

Lemma X17_witness :
  extract_text_from_pdf (canned PAGE NOTES_BODY) PDF_FILE = Ok PAGE
  /\ endpoint (canned PAGE NOTES_BODY) [] (chat_request (Exact.build_prompt PAGE))
     = Some {| status_code := 200; text := NOTES_BODY |}
  /\ py_str (text {| status_code := 200; text := NOTES_BODY |}) = true
  /\ fst (call_ollama_llama32 (canned PAGE NOTES_BODY)
                              (Exact.build_prompt PAGE) []) = Ok NOTES
  /\ (forall f, In f (finite_floats NOTES) -> reads_back repr_of_100_5 f)
  /\ utf8_encodes (py "Extracted key values:") = true
  /\ utf8_encodes (json_dumps_indent repr_of_100_5 NOTES) = true
  /\ json_loads (json_dumps_indent repr_of_100_5 NOTES) = Loaded NOTES
  /\ main repr_of_100_5 utf8_encodes some_message (canned PAGE NOTES_BODY) [] []
     = (Finished, [chat_request (Exact.build_prompt PAGE)],
        [py "Extracted key values:"; json_dumps_indent repr_of_100_5 NOTES]).
Proof.
  assert (extract_text_from_pdf (canned PAGE NOTES_BODY) PDF_FILE = Ok PAGE)
    as H1 by (vm_compute; reflexivity).
  assert (py_str (text {| status_code := 200; text := NOTES_BODY |}) = true)
    as H3 by (vm_compute; reflexivity).
  assert (fst (call_ollama_llama32 (canned PAGE NOTES_BODY)
                                   (Exact.build_prompt PAGE) []) = Ok NOTES)
    as H4 by (vm_compute; reflexivity).
  assert (forall f, In f (finite_floats NOTES) -> reads_back repr_of_100_5 f)
    as H5 by (intros f []).
  assert (utf8_encodes (py "Extracted key values:") = true) as H6
      by (vm_compute; reflexivity).
  assert (utf8_encodes (json_dumps_indent repr_of_100_5 NOTES) = true) as H7
      by (vm_compute; reflexivity).
  split; [exact H1|]. split; [reflexivity|]. split; [exact H3|].
  split; [exact H4|]. split; [exact H5|]. split; [exact H6|].
  split; [exact H7|].
  pose proof (X17_main_prints_a_text_that_is_read_back repr_of_100_5
                utf8_encodes some_message (canned PAGE NOTES_BODY) [] [] PAGE
                {| status_code := 200; text := NOTES_BODY |} NOTES
                H1 eq_refl H3 H4 H5) as T.
  rewrite H6, H7 in T. exact T.
Defined.

(** A value of the model that holds a lone surrogate: a standard output
    in UTF-8 prints the header, cannot print the text of the value, and
    prints the line of the error of that [print]; the run finishes. *)
Example main_on_a_value_with_a_lone_surrogate :
  fst (call_ollama_llama32 (canned PAGE LONE_VALUE_BODY)
                           (Exact.build_prompt PAGE) [])
  = Ok (PStr [55296])
  /\ main repr_of_100_5 utf8_encodes some_message
          (canned PAGE LONE_VALUE_BODY) [] []
     = (Finished, [chat_request (Exact.build_prompt PAGE)],
        [py "Extracted key values:";
         py "Error: "
         ++ some_message (UnicodeEncodeError (DQUOTE :: 55296 :: [DQUOTE]))]).
Proof. split; vm_compute; reflexivity. Qed.

(** X18: when no file has the name that the entry point is written for,
    the run prints the one line that names the file, sends no request
    and finishes. *)
Theorem X18_main_reports_the_missing_file
        (float_repr : spec_float -> str) (stdout_encodes : str -> bool)
        (library_message : exception -> str)
        (E : env) (log : list request) (out : list str) :
  fs E (py "invoice1.pdf") = None ->
  stdout_encodes (py "Error: PDF not found: invoice1.pdf") = true ->
  main float_repr stdout_encodes library_message E log out
  = (Finished, log, out ++ [py "Error: PDF not found: invoice1.pdf"]).
Proof.
  intros Hfs Hout.
  assert (py "Error: PDF not found: invoice1.pdf"
          = py "Error: " ++ py "PDF not found: " ++ PDF_FILE) as Eline
      by (vm_compute; reflexivity).
  rewrite Eline in *.
  apply (main_prints_the_error float_repr stdout_encodes library_message
           E log log out (FileNotFoundError PDF_FILE));
    [|reflexivity|exact Hout].
  unfold extract_key_values_from_pdf, bind, lift, extract_text_from_pdf.
  unfold PDF_FILE. now rewrite Hfs.
Qed.

Lemma X18_witness :
  fs (no_files ARRAY_BODY) (py "invoice1.pdf") = None
  /\ utf8_encodes (py "Error: PDF not found: invoice1.pdf") = true
  /\ main repr_of_100_5 utf8_encodes some_message (no_files ARRAY_BODY) [] []
     = (Finished, [], [py "Error: PDF not found: invoice1.pdf"]).
Proof.
  assert (utf8_encodes (py "Error: PDF not found: invoice1.pdf") = true) as H
      by (vm_compute; reflexivity).
  split; [reflexivity|]. split; [exact H|].
  exact (X18_main_reports_the_missing_file repr_of_100_5 utf8_encodes
           some_message (no_files ARRAY_BODY) [] [] eq_refl H).
Defined.

(* ================================================================== *)
(** * The bounds of the error statuses *)
(* ================================================================== *)

(** X19: a call raises [HTTPError] exactly when the endpoint answered
    with a status from 400 to 599, both bounds included, and the error
    carries that status: an answer with status 399 or 600 is read like
    one with status 200. *)
Theorem X19_HTTPError_exactly_for_the_statuses_400_to_599
        (E : env) (prompt : str) (log : list request) (z : Z) :
  fst (call_ollama_llama32 E prompt log) = Raise (HTTPError z)
  <-> exists r,
        endpoint E log (chat_request prompt) = Some r
        /\ status_code r = z /\ (400 <= z <= 599)%Z.
Proof.
  split.
  - intro H.
    destruct (endpoint E log (chat_request prompt)) as [r|] eqn:Er;
      [|rewrite (call_unanswered E prompt log Er) in H; discriminate H].
    rewrite (call_answered E prompt log r Er) in H. cbn [fst] in H.
    exists r. split; [reflexivity|].
    destruct (raise_for_status r) as [[]|e1] eqn:Es.
    + exfalso.
      destruct (response_json r) as [data|e2] eqn:Ed;
        [|apply response_json_error in Ed; destruct Ed as (m & _ & ->);
          discriminate H].
      destruct (get data _ _) as [message|e3] eqn:Em;
        [|apply get_error in Em; subst e3; discriminate H].
      destruct (get message _ _) as [content|e4] eqn:Ec;
        [|apply get_error in Ec; subst e4; discriminate H].
      destruct (strip_method content) as [t|e5] eqn:Et;
        [|apply strip_method_error in Et; subst e5; discriminate H].
      destruct (parse_model_text t) as [v|e6] eqn:Ep; [discriminate H|].
      apply parse_model_text_error in Ep. destruct Ep as (m & _ & ->).
      discriminate H.
    + apply raise_for_status_error in Es. destruct Es as [-> Hz].
      injection H as <-. split; [reflexivity|lia].
  - intros (r & Hr & <- & Hz). rewrite (call_answered E prompt log r Hr).
    cbn [fst].
    assert (raise_for_status r = Raise (HTTPError (status_code r))) as ->
        by (apply raise_for_status_error; split; [reflexivity|lia]).
    reflexivity.
Qed.

Lemma X19_witness :
  (exists r,
     endpoint (world None (Some {| status_code := 599; text := INVOICE_BODY |}))
              [] (chat_request PAGE) = Some r
     /\ status_code r = 599%Z /\ (400 <= 599 <= 599)%Z)
  /\ fst (call_ollama_llama32
            (world None (Some {| status_code := 599; text := INVOICE_BODY |}))
            PAGE [])
     = Raise (HTTPError 599).
Proof.
  assert (exists r,
            endpoint (world None (Some {| status_code := 599;
                                          text := INVOICE_BODY |}))
                     [] (chat_request PAGE) = Some r
            /\ status_code r = 599%Z /\ (400 <= 599 <= 599)%Z) as H.
  { exists {| status_code := 599; text := INVOICE_BODY |}.
    split; [reflexivity|]. split; [reflexivity|lia]. }
  split; [exact H|].
  exact (proj2 (X19_HTTPError_exactly_for_the_statuses_400_to_599
                  (world None (Some {| status_code := 599;
                                       text := INVOICE_BODY |}))
                  PAGE [] 599%Z) H).
Defined.

(* ================================================================== *)
(** * A key that the model repeats *)
(* ================================================================== *)

Lemma dict_get_set (d : list (str * pyval)) (k k' : str) (v : pyval) :
  dict_get (dict_set d k v) k'
  = if str_eqb k' k then Some v else dict_get d k'.
Proof.
  induction d as [|[k0 v0] d IH]; cbn [dict_set dict_get]; [reflexivity|].
  destruct (str_eqb k k0) eqn:E.
  - apply str_eqb_eq in E. subst k0. cbn [dict_get].
    destruct (str_eqb k' k); reflexivity.
  - cbn [dict_get]. rewrite IH.
    destruct (str_eqb k' k0) eqn:E0; [|reflexivity].
    destruct (str_eqb k' k) eqn:E1; [|reflexivity].
    apply str_eqb_eq in E0, E1. subst. rewrite str_eqb_refl in E.
    discriminate E.
Qed.

Lemma dict_get_app (a b : list (str * pyval)) (k : str) :
  dict_get (a ++ b) k
  = match dict_get a k with Some v => Some v | None => dict_get b k end.
Proof.
  induction a as [|[k0 v0] a IH]; [reflexivity|].
  cbn [app dict_get]. destruct (str_eqb k k0); [reflexivity|exact IH].
Qed.

(** In [dict(pairs)] a key has the value of its last pair. *)
Lemma dict_get_dict (pairs : list (str * pyval)) (k : str) :
  dict_get (dict pairs) k = dict_get (rev pairs) k.
Proof.
  unfold dict.
  assert (forall acc,
            dict_get (fold_left (fun d kv => dict_set d (fst kv) (snd kv))
                                pairs acc) k
            = match dict_get (rev pairs) k with
              | Some v => Some v
              | None => dict_get acc k
              end) as H.
  { induction pairs as [|[k0 v0] pairs IH]; intro acc; [reflexivity|].
    cbn [fold_left fst snd rev]. rewrite IH, dict_get_set, dict_get_app.
    destruct (dict_get (rev pairs) k); [reflexivity|].
    cbn [dict_get]. destruct (str_eqb k k0); reflexivity. }
  rewrite H. cbn [dict_get]. now destruct (dict_get (rev pairs) k).
Qed.

Lemma dict_keys_distinct (pairs : list (str * pyval)) :
  distinct (keys (dict pairs)) = true.
Proof.
  unfold dict.
  assert (forall acc,
            distinct (keys acc) = true ->
            distinct (keys (fold_left (fun d kv => dict_set d (fst kv) (snd kv))
                                      pairs acc)) = true) as H.
  { induction pairs as [|[k v] pairs IH]; intros acc Hd; [exact Hd|].
    cbn [fold_left fst snd]. apply IH. now apply dict_set_distinct. }
  now apply H.
Qed.

(** The scanner on the text of an object whose items are the given
    pairs, in their order, whether or not a key comes twice, and
    whatever follows the closing brace. *)
Lemma scan_once_object (float_repr : spec_float -> str)
      (items : list (str * pyval)) (rest : str) (fuel : nat) :
  (forall kv, In kv items ->
     plain_str (fst kv) = true /\ dumpable float_repr (snd kv)) ->
  (length (json_dumps float_repr (PDict items)) < fuel)%nat ->
  scan_once fuel (json_dumps float_repr (PDict items) ++ rest)
  = Done (PDict (dict items), rest).
Proof.
  intros Hall Hfuel. destruct fuel as [|fuel]; [lia|].
  destruct items as [|kv items']; [reflexivity|].
  cbn [json_dumps] in Hfuel |- *.
  set (texts := map (fun kv => encode_basestring_ascii (fst kv)
                               ++ py ": " ++ json_dumps float_repr (snd kv))
                    (kv :: items')) in *.
  set (body := join (py ", ") texts) in *.
  replace ((123 :: body ++ [125]) ++ rest) with (123 :: body ++ 125 :: rest)
    by (cbn [app]; now rewrite <- app_assoc).
  cbn [scan_once].
  change (123 =? DQUOTE) with false. change (123 =? 123) with true.
  cbv iota. unfold JSONObject.
  pose proof (items_text_join float_repr (kv :: items') rest) as Ej.
  fold texts in Ej. fold body in Ej. rewrite Ej by discriminate.
  change (skip_ws (DQUOTE :: ?u)) with (DQUOTE :: u). cbv beta iota.
  change (DQUOTE =? 125) with false. change (DQUOTE =? DQUOTE) with true.
  cbv iota.
  assert (length (kv :: items') <= length body)%nat as Hcount.
  { pose proof (join_length_count (py ", ") texts) as Hc'.
    unfold texts in Hc' at 2. rewrite length_map in Hc'. apply Hc'.
    intros p Hp. unfold texts in Hp. apply in_map_iff in Hp.
    destruct Hp as (y & <- & _). unfold encode_basestring_ascii.
    discriminate. }
  apply (f_equal (@length N)) in Ej; [|discriminate].
  rewrite length_app in Ej. cbn [length] in Ej.
  rewrite (object_loop_dumps float_repr); [reflexivity|discriminate|lia|].
  apply Forall_forall. intros y Hy. destruct (Hall y Hy) as [Hk Hx].
  split; [exact Hk|]. split; [exact Hx|]. intros rest' Hr'.
  apply (scan_once_dumps float_repr); [exact Hx| |exact Hr'].
  pose proof (join_length_in (py ", ") texts
                (encode_basestring_ascii (fst y) ++ py ": "
                 ++ json_dumps float_repr (snd y))) as Hlen.
  assert (In (encode_basestring_ascii (fst y) ++ py ": "
              ++ json_dumps float_repr (snd y)) texts) as Hin.
  { unfold texts. apply in_map_iff. now exists y. }
  specialize (Hlen Hin). fold body in Hlen. rewrite !length_app in Hlen.
  cbn [length] in Hfuel. rewrite length_app in Hfuel. lia.
Qed.

Lemma object_text_head (float_repr : spec_float -> str)
      (items : list (str * pyval)) :
  exists t, json_dumps float_repr (PDict items) = 123 :: t.
Proof. cbn [json_dumps]. now eexists. Qed.

(** [json.loads] on the text of an object and what follows it. *)
Lemma json_loads_object_then (float_repr : spec_float -> str)
      (items : list (str * pyval)) (rest : str) :
  (forall kv, In kv items ->
     plain_str (fst kv) = true /\ dumpable float_repr (snd kv)) ->
  json_loads (json_dumps float_repr (PDict items) ++ rest)
  = match skip_ws rest with
    | [] => Loaded (PDict (dict items))
    | _ :: _ => JSONDecodeError ExtraData
    end.
Proof.
  intro Hall. unfold json_loads.
  destruct (object_text_head float_repr items) as [t E].
  assert (startswith [65279] (json_dumps float_repr (PDict items) ++ rest)
          = false) as -> by (now rewrite E).
  assert (skip_ws (json_dumps float_repr (PDict items) ++ rest)
          = json_dumps float_repr (PDict items) ++ rest) as ->
      by (now rewrite E).
  rewrite (scan_once_object float_repr items rest _ Hall); [reflexivity|].
  rewrite length_app. lia.
Qed.

(** X20: when the model repeats a key, the later value silently replaces
    the earlier one: the parse step reads the text of an object with the
    given items, in their order, as the dict built by assigning them one
    after the other; its keys are distinct, and each key has the value
    of its last item. *)
Theorem X20_a_repeated_key_keeps_its_last_value
        (float_repr : spec_float -> str) (items : list (str * pyval)) :
  (forall kv, In kv items ->
     plain_str (fst kv) = true /\ dumpable float_repr (snd kv)) ->
  parse_response (json_dumps float_repr (PDict items)) = Ok (PDict (dict items))
  /\ distinct (keys (dict items)) = true
  /\ forall k, dict_get (dict items) k = dict_get (rev items) k.
Proof.
  intro Hall. split; [|split; [apply dict_keys_distinct|apply dict_get_dict]].
  unfold parse_response.
  assert (strip (json_dumps float_repr (PDict items))
          = json_dumps float_repr (PDict items)) as ->.
  { cbn [json_dumps].
    apply (strip_visible 123 125 _
             (123 :: join (py ", ")
                          (map (fun kv => encode_basestring_ascii (fst kv)
                                          ++ py ": "
                                          ++ json_dumps float_repr (snd kv))
                               items))); reflexivity. }
  apply parse_model_text_ok.
  rewrite <- (app_nil_r (json_dumps float_repr (PDict items))).
  now rewrite (json_loads_object_then float_repr items [] Hall).
Qed.

Lemma X20_witness :
  (forall kv,
     In kv [(py "total_amount", PInt 10); (py "currency", PStr (py "USD"));
            (py "total_amount", PInt 12)] ->
     plain_str (fst kv) = true /\ dumpable repr_of_100_5 (snd kv))
  /\ parse_response
       (json_dumps repr_of_100_5
          (PDict [(py "total_amount", PInt 10); (py "currency", PStr (py "USD"));
                  (py "total_amount", PInt 12)]))
     = Ok (PDict (dict [(py "total_amount", PInt 10);
                        (py "currency", PStr (py "USD"));
                        (py "total_amount", PInt 12)]))
  /\ distinct (keys (dict [(py "total_amount", PInt 10);
                           (py "currency", PStr (py "USD"));
                           (py "total_amount", PInt 12)])) = true
  /\ forall k,
       dict_get (dict [(py "total_amount", PInt 10);
                       (py "currency", PStr (py "USD"));
                       (py "total_amount", PInt 12)]) k
       = dict_get (rev [(py "total_amount", PInt 10);
                        (py "currency", PStr (py "USD"));
                        (py "total_amount", PInt 12)]) k.
Proof.
  assert (forall kv,
            In kv [(py "total_amount", PInt 10);
                   (py "currency", PStr (py "USD"));
                   (py "total_amount", PInt 12)] ->
            plain_str (fst kv) = true /\ dumpable repr_of_100_5 (snd kv)) as H.
  { intros kv [<-|[<-|[<-|[]]]];
      (split; [vm_compute; reflexivity|]);
      (split; [vm_compute; reflexivity|]);
      (split; [vm_compute; reflexivity|]); intros f []. }
  split; [exact H|].
  exact (X20_a_repeated_key_keeps_its_last_value repr_of_100_5
           [(py "total_amount", PInt 10); (py "currency", PStr (py "USD"));
            (py "total_amount", PInt 12)] H).
Defined.

(* ================================================================== *)
(** * Prose around the JSON *)
(* ================================================================== *)

Lemma is_ws_isspace (c : N) : is_ws c = true -> isspace c = true.
Proof.
  unfold is_ws. intro H.
  repeat (apply orb_prop in H; destruct H as [H|H]);
    apply N.eqb_eq in H; subst c; reflexivity.
Qed.




Lemma expect_other (c d : N) (lit s : str) :
  (c =? d) = false -> expect (c :: lit) (d :: s) = None.
Proof. intro H. cbn [expect]. now rewrite H. Qed.

(** The scanner finds no value at a character that starts none. *)
Lemma scan_once_no_head (fuel : nat) (c : N) (t : str) :
  value_head c = false -> scan_once (S fuel) (c :: t) = StopIteration.
Proof.
  unfold value_head. intro H.
  repeat (apply orb_false_elim in H; destruct H as [H ?]).
  cbn [scan_once]. unfold DQUOTE.
  repeat match goal with
         | Hc : (c =? _) = false |- _ => rewrite Hc
         end.
  cbv iota. unfold scan_atom.
  change (py "null") with [110; 117; 108; 108].
  change (py "true") with [116; 114; 117; 101].
  change (py "false") with [102; 97; 108; 115; 101].
  change (py "NaN") with [78; 97; 78].
  change (py "Infinity") with [73; 110; 102; 105; 110; 105; 116; 121].
  change (py "-Infinity") with [45; 73; 110; 102; 105; 110; 105; 116; 121].
  rewrite !expect_other by (rewrite N.eqb_sym; assumption).
  unfold match_number.
  repeat match goal with
         | Hc : (c =? _) = false |- _ => rewrite Hc
         end.
  assert ((c =? 48) = false) as ->.
  { apply N.eqb_neq. intros ->. discriminate. }
  match goal with Hd : is_digit c = false |- _ => rewrite Hd end.
  reflexivity.
Qed.

(** X22: prose before the JSON makes the parse step fail: a text of the
    model that, once stripped, is empty or starts with a character that
    starts no JSON value (none of the quote, the brace, the bracket, the
    minus sign, a digit, and the first letters of null, true, false, NaN
    and Infinity) is rejected with the [ValueError] that shows the
    stripped text. *)
Theorem X22_a_text_that_starts_like_no_value_is_rejected (content : str) :
  value_head (hd 0 (strip content)) = false ->
  parse_response content
  = Raise (ValueError (PREAMBLE ++ [NL] ++ strip content)).
Proof.
  intro H. unfold parse_response, parse_model_text.
  destruct (strip_cases content) as [E|[Hfirst _]].
  - rewrite E. reflexivity.
  - destruct (strip content) as [|c t] eqn:E; [reflexivity|].
    cbn [hd] in H, Hfirst. unfold json_loads. cbn [startswith].
    destruct (65279 =? c); [reflexivity|].
    assert (is_ws c = false) as Hws.
    { destruct (is_ws c) eqn:Ews; [|reflexivity].
      apply is_ws_isspace in Ews. congruence. }
    cbn [andb skip_ws]. rewrite Hws. cbv zeta.
    now rewrite (scan_once_no_head _ c t H).
Qed.

Lemma X22_witness :
  value_head (hd 0 (strip WRAPPED_TEXT)) = false
  /\ parse_response WRAPPED_TEXT
     = Raise (ValueError (PREAMBLE ++ [NL] ++ strip WRAPPED_TEXT)).
Proof.
  split; [vm_compute; reflexivity|].
  apply (X22_a_text_that_starts_like_no_value_is_rejected WRAPPED_TEXT).
  vm_compute. reflexivity.
Defined.

(* ================================================================== *)
(** * Documents without text *)
(* ================================================================== *)

Lemma strip_nil (s : str) : strip s = [] -> has_text s = false.
Proof.
  intro H. destruct (has_text s) eqn:E; [|reflexivity]. exfalso.
  destruct (lstrip_has_text s E) as (w & c & a & _ & Hc & Hl).
  specialize (Hl []). rewrite !app_nil_r in Hl.
  unfold strip in H. rewrite Hl in H.
  destruct (rstrip_cons_text c a Hc) as [r' Hr]. rewrite Hr in H.
  discriminate H.
Qed.

Lemma join_has_text (sep : str) (texts : list str) (t : str) :
  In t texts -> has_text t = true -> has_text (join sep texts) = true.
Proof.
  intros Hin Ht. induction texts as [|p [|q rest] IH]; [destruct Hin| |].
  - destruct Hin as [<-|[]]. exact Ht.
  - rewrite join_cons2. unfold has_text in *. rewrite !existsb_app.
    destruct Hin as [<-|Hin]; [now rewrite Ht|].
    rewrite (IH Hin). now rewrite !orb_true_r.
Qed.

(** X23: the text extracted from a parsed PDF is empty exactly when no
    page of it has a character other than whitespace: a document without
    pages, or a scan whose pages give no text. *)
Theorem X23_the_text_is_empty_exactly_for_blank_documents
        (E : env) (pdf_path : str) (pages : list (option str)) :
  fs E pdf_path = Some (Pdf pages) ->
  extract_text_from_pdf E pdf_path = Ok []
  <-> forall page, In page pages -> has_text (text_or_empty page) = false.
Proof.
  intro Hfs. rewrite (extract_text_pages E pdf_path pages Hfs). split.
  - intros H page Hin. injection H as H. apply strip_nil in H.
    destruct (has_text (text_or_empty page)) eqn:Et; [|reflexivity].
    rewrite (join_has_text [NL; NL] (map text_or_empty pages)
               (text_or_empty page) (in_map text_or_empty pages page Hin) Et)
      in H.
    discriminate H.
  - intro Hblank. f_equal. apply strip_blank. apply join_blank.
    intros t Ht. apply in_map_iff in Ht. destruct Ht as (page & <- & Hin).
    now apply Hblank.
Qed.

Lemma X23_witness :
  fs (pdf_world [None; Some (py "  "); Some [NL]] ARRAY_BODY) (py "scan.pdf")
  = Some (Pdf [None; Some (py "  "); Some [NL]])
  /\ (extract_text_from_pdf
        (pdf_world [None; Some (py "  "); Some [NL]] ARRAY_BODY) (py "scan.pdf")
      = Ok []
      <-> forall page,
            In page [None; Some (py "  "); Some [NL]] ->
            has_text (text_or_empty page) = false).
Proof.
  split; [reflexivity|].
  apply (X23_the_text_is_empty_exactly_for_blank_documents
           (pdf_world [None; Some (py "  "); Some [NL]] ARRAY_BODY)
           (py "scan.pdf") [None; Some (py "  "); Some [NL]]).
  reflexivity.
Defined.
